(** * Hotel-booking chatbot: the dialogue state machine and its extractors

    A shallow embedding of [src/nlp_utils.py], [src/app.py] and
    [src/init_db.py].

    Conventions of the embedding.
    - A Python [str] is a [string]: a sequence of 8-bit characters read as
      ASCII.  Character classes ([isspace], [isupper], the regex class
      [\d], ...) are Python's restricted to code points below 128; a
      character above 127 is carried through as an uncased, non-blank,
      non-digit symbol.
    - A Python [int] is a [Z]; [int(s)] on a digit run is its decimal value.
    - A [dict] with string keys is a [gmap string _].
    - A call that may raise returns a [result]; a function that mutates its
      argument returns the mutated object next to its result.
    - [fuzz.ratio] is the normalised Indel similarity of rapidfuzz,
      [100 * 2 * lcs / (len a + len b)], kept as an exact rational.
    - spaCy's entity recogniser and [dateparser.parse] are parameters.
    - SQLite is the list of rows of the one table, with its key sequence.

    - The body of a request is a [json] value; the registry of sessions
      and the database file make up the [world] the endpoint acts on, and
      the id and time stamp of a session it creates are inputs.

    The file has two parts: the embedding ([Py], [Fuzz], [Re], [DateTime],
    [NlpUtils], [App], [Endpoint], [InitDb]), with the vocabulary the
    statements use ([Spec], [Shape]) and sample inputs ([Sample], [Demo]);
    then the properties. *)

From Stdlib Require Import ZArith QArith Ascii String List Bool Lia.
From Stdlib Require Import Numbers.DecimalString.
From stdpp Require Import base gmap strings list.

Local Open Scope Z_scope.

(** ** Python built-ins on strings *)

Module Py.

Definition code (c : ascii) : N := N_of_ascii c.

Definition between (lo hi : N) (c : ascii) : bool :=
  ((lo <=? code c) && (code c <=? hi))%N.

(** [str.isspace] on one ASCII character: TAB..CR, FS..US and space. *)
Definition isspace (c : ascii) : bool := between 9 13 c || between 28 32 c.

Definition isupper (c : ascii) : bool := between 65 90 c.
Definition islower (c : ascii) : bool := between 97 122 c.
Definition isalpha_char (c : ascii) : bool := isupper c || islower c.
Definition isdigit (c : ascii) : bool := between 48 57 c.

Definition lower_char (c : ascii) : ascii :=
  if isupper c then ascii_of_N (code c + 32) else c.
Definition upper_char (c : ascii) : ascii :=
  if islower c then ascii_of_N (code c - 32) else c.

(** [s.lower()] *)
Fixpoint lower (s : string) : string :=
  match s with
  | EmptyString => EmptyString
  | String c s' => String (lower_char c) (lower s')
  end.

(** [s.lstrip(..)], [s.rstrip(..)], [s.strip(..)], for the set of
    characters satisfying [p]. *)
Fixpoint lstrip_by (p : ascii -> bool) (s : string) : string :=
  match s with
  | EmptyString => EmptyString
  | String c s' => if p c then lstrip_by p s' else s
  end.

Fixpoint rstrip_by (p : ascii -> bool) (s : string) : string :=
  match s with
  | EmptyString => EmptyString
  | String c s' =>
      match rstrip_by p s' with
      | EmptyString => if p c then EmptyString else String c EmptyString
      | r => String c r
      end
  end.

Definition strip_by (p : ascii -> bool) (s : string) : string :=
  rstrip_by p (lstrip_by p s).

(** [s.strip()] *)
Definition strip (s : string) : string := strip_by isspace s.

Fixpoint mem_char (c : ascii) (chars : string) : bool :=
  match chars with
  | EmptyString => false
  | String d chars' => Ascii.eqb c d || mem_char c chars'
  end.

(** [s.strip(chars)] *)
Definition strip_chars (chars s : string) : string :=
  strip_by (fun c => mem_char c chars) s.

Definition push (w : string) (ws : list string) : list string :=
  match w with EmptyString => ws | _ => w :: ws end.

(** Runs of characters satisfying [keep], maximal, from left to right.
    The first component is the run that reaches the left end. *)
Fixpoint runs_aux (keep : ascii -> bool) (s : string) : string * list string :=
  match s with
  | EmptyString => (EmptyString, [])
  | String c s' =>
      let (w, ws) := runs_aux keep s' in
      if keep c then (String c w, ws) else (EmptyString, push w ws)
  end.

Definition runs (keep : ascii -> bool) (s : string) : list string :=
  let (w, ws) := runs_aux keep s in push w ws.

(** [s.split()]: the maximal runs of non-blank characters. *)
Definition split (s : string) : list string :=
  runs (fun c => negb (isspace c)) s.

(** [re.findall(r'\d+', s)]: the maximal runs of digits. *)
Definition findall_digits (s : string) : list string := runs isdigit s.

(** [needle in hay] *)
Fixpoint contains (needle hay : string) : bool :=
  String.prefix needle hay ||
  match hay with
  | EmptyString => false
  | String _ hay' => contains needle hay'
  end.

(** [s in l] for a list (or the keys of a dict) of strings *)
Definition mem (s : string) (l : list string) : bool :=
  existsb (String.eqb s) l.

(** [int(s)] for a run of digits: its decimal value.  (The interpreter's
    limit on the number of digits [int] converts is not modelled.) *)
Definition digit_val (c : ascii) : Z := Z.of_N (code c) - 48.

Fixpoint int_acc (acc : Z) (s : string) : Z :=
  match s with
  | EmptyString => acc
  | String c s' => int_acc (10 * acc + digit_val c) s'
  end.

Definition int (s : string) : Z := int_acc 0 s.

(** [str(n)] *)
Definition str (n : Z) : string := NilZero.string_of_int (Z.to_int n).

(** [s.title()]: a letter is upper-cased when the character before it is
    not a letter and lower-cased otherwise. *)
Fixpoint title_aux (prev_cased : bool) (s : string) : string :=
  match s with
  | EmptyString => EmptyString
  | String c s' =>
      String (if prev_cased then lower_char c else upper_char c)
             (title_aux (isalpha_char c) s')
  end.

Definition title (s : string) : string := title_aux false s.

(** [s.istitle()] *)
Fixpoint istitle_aux (prev_cased cased : bool) (s : string) : bool :=
  match s with
  | EmptyString => cased
  | String c s' =>
      if isupper c then
        if prev_cased then false else istitle_aux true true s'
      else if islower c then
        if prev_cased then istitle_aux true true s' else false
      else istitle_aux false cased s'
  end.

Definition istitle (s : string) : bool := istitle_aux false false s.

(** [s.isalpha()] *)
Fixpoint all_alpha (s : string) : bool :=
  match s with
  | EmptyString => true
  | String c s' => isalpha_char c && all_alpha s'
  end.

Definition isalpha (s : string) : bool :=
  match s with EmptyString => false | _ => all_alpha s end.

(** Truthiness of a string: [if s:] *)
Definition truthy (s : string) : bool :=
  match s with EmptyString => false | _ => true end.

End Py.

(** ** rapidfuzz *)

Module Fuzz.

(** [s] is a subsequence of [t]: [t] with some characters removed. *)
Inductive subseq : string -> string -> Prop :=
| subseq_nil : subseq EmptyString EmptyString
| subseq_skip (c : ascii) (s t : string) :
    subseq s t -> subseq s (String c t)
| subseq_take (c : ascii) (s t : string) :
    subseq s t -> subseq (String c s) (String c t).

(** The recurrence for the length of a longest common subsequence. *)
Fixpoint lcs_rec (a b : string) : nat :=
  match a with
  | EmptyString => O
  | String x a' =>
      (fix inner (b : string) : nat :=
         match b with
         | EmptyString => O
         | String y b' =>
             if Ascii.eqb x y then S (lcs_rec a' b')
             else Nat.max (lcs_rec a' b) (inner b')
         end) b
  end.

(** The same, one row of the table at a time.  A row lists, for the
    suffixes of [b] from the longest to the empty one, the length for a
    fixed suffix of [a]; [prev] is the row of the suffix one shorter. *)
Fixpoint lcs_row (x : ascii) (b : string) (prev : list nat) : list nat :=
  match b, prev with
  | String y b', up :: prev' =>
      let rest := lcs_row x b' prev' in
      (if Ascii.eqb x y then S (List.hd O prev')
       else Nat.max up (List.hd O rest)) :: rest
  | _, _ => [O]
  end.

Fixpoint lcs_rows (a b : string) : list nat :=
  match a with
  | EmptyString => List.repeat O (S (String.length b))
  | String x a' => lcs_row x b (lcs_rows a' b)
  end.

(** Length of a longest common subsequence of [a] and [b]. *)
Definition lcs (a b : string) : nat := List.hd O (lcs_rows a b).

(** [fuzz.ratio(a, b)]: the normalised Indel similarity
    [100 * (1 - indel / (len a + len b))], the Indel distance being
    [len a + len b - 2 * lcs]; two empty strings score 100.  The score is
    kept as an exact rational; rapidfuzz computes it in double precision,
    which orders scores and compares them with 60, 70 and 80 the same way
    for strings of any realistic length. *)
Definition ratio (a b : string) : Q :=
  let total := (String.length a + String.length b)%nat in
  match total with
  | O => 100%Q
  | S _ => Qmake (200 * Z.of_nat (lcs a b)) (Pos.of_nat total)
  end.

(** [fuzz.ratio(a, b) >= t] and [x < y] on scores *)
Definition ratio_ge (a b : string) (t : Q) : bool := Qle_bool t (ratio a b).
Definition Qlt_bool (x y : Q) : bool := negb (Qle_bool y x).

(** The suffixes of [b], from [b] itself to the empty string. *)
Fixpoint suffixes (b : string) : list string :=
  b :: match b with
       | EmptyString => []
       | String _ b' => suffixes b'
       end.

End Fuzz.

(** ** Exceptions

    [LibraryError] stands for whatever a third-party library raises. *)

Inductive exn :=
| ValueError
| TypeError
| KeyError (key : string)
| OperationalError
| LibraryError.

Inductive result (A : Type) :=
| Ok (a : A)
| Raise (e : exn).
Arguments Ok {A} a.
Arguments Raise {A} e.

Definition bind {A B} (r : result A) (k : A -> result B) : result B :=
  match r with
  | Ok a => k a
  | Raise e => Raise e
  end.

Notation "x <- r ;; k" := (bind r (fun x => k))
  (at level 100, r at next level, right associativity).

(** [try: body  except ValueError: handler] *)
Definition except_ValueError {A} (body : result A) (handler : result A)
  : result A :=
  match body with
  | Raise ValueError => handler
  | r => r
  end.

(** [try: body  except Exception: handler] *)
Definition except_Exception {A} (body : result A) (handler : result A)
  : result A :=
  match body with
  | Raise _ => handler
  | r => r
  end.

(** ** Backtracking regular expressions (module [re]), without repetition *)

Module Re.

Inductive re :=
| Cls (p : ascii -> bool)
| Seq (r1 r2 : re)
| Alt (r1 r2 : re).

Definition chr (c : ascii) : re := Cls (Ascii.eqb c).
Definition range (lo hi : ascii) : re :=
  Cls (Py.between (Py.code lo) (Py.code hi)).
Definition digit : re := Cls Py.isdigit.

(** Every way [r] matches a prefix of [s], as (matched, rest), in the
    order a backtracking matcher tries them. *)
Fixpoint matches (r : re) (s : string) : list (string * string) :=
  match r with
  | Cls p =>
      match s with
      | String c s' => if p c then [(String c EmptyString, s')] else []
      | EmptyString => []
      end
  | Seq r1 r2 =>
      flat_map (fun m1 =>
                  List.map (fun m2 => (fst m1 +:+ fst m2, snd m2))
                           (matches r2 (snd m1)))
               (matches r1 s)
  | Alt r1 r2 => matches r1 s ++ matches r2 s
  end.

(** [re.match(r, s)]: the first way to match at the start of [s]. *)
Definition match_ (r : re) (s : string) : option (string * string) :=
  List.head (matches r s).

(** [re.search(r, s).group()]: the match at the leftmost position. *)
Fixpoint search (r : re) (s : string) : option string :=
  match match_ r s with
  | Some m => Some (fst m)
  | None =>
      match s with
      | EmptyString => None
      | String _ s' => search r s'
      end
  end.

(** [\d{4}] and the greedy [\d{1,2}] *)
Definition digit4 : re := Seq digit (Seq digit (Seq digit digit)).
Definition digit12 : re := Alt (Seq digit digit) digit.

End Re.

(** ** [datetime] *)

Module DateTime.

Record date := mkdate { year : Z; month : Z; day : Z }.

Definition is_leap (y : Z) : bool :=
  (y mod 4 =? 0) && (negb (y mod 100 =? 0) || (y mod 400 =? 0)).

Definition days_in_month (y m : Z) : Z :=
  if (m =? 2) then (if is_leap y then 29 else 28)
  else if (m =? 4) || (m =? 6) || (m =? 9) || (m =? 11) then 30
  else 31.

(** The check of the [date] constructor. *)
Definition valid (y m d : Z) : bool :=
  (1 <=? y) && (y <=? 9999) && (1 <=? m) && (m <=? 12) &&
  (1 <=? d) && (d <=? days_in_month y m).

Definition make_date (y m d : Z) : result date :=
  if valid y m d then Ok (mkdate y m d) else Raise ValueError.

(** Comparison of dates is that of the triples (year, month, day). *)
Definition date_cmp (a b : date) : comparison :=
  match year a ?= year b with
  | Eq => match month a ?= month b with
          | Eq => day a ?= day b
          | c => c
          end
  | c => c
  end.

(** [a > b] *)
Definition date_gt (a b : date) : bool :=
  match date_cmp a b with Gt => true | _ => false end.

(** Days before 1 January of year [y], and the proleptic Gregorian
    ordinal of a date ([date.toordinal]). *)
Definition days_before_year (y : Z) : Z :=
  let p := y - 1 in p * 365 + p / 4 - p / 100 + p / 400.

Fixpoint days_before_month_nat (y : Z) (m : nat) : Z :=
  match m with
  | O => 0
  | S m' => days_before_month_nat y m' + days_in_month y (Z.of_nat m)
  end.

Definition days_before_month (y m : Z) : Z :=
  days_before_month_nat y (Z.to_nat (m - 1)).

Definition toordinal (a : date) : Z :=
  days_before_year (year a) + days_before_month (year a) (month a) + day a.

(** The directives of a [strptime] format and the regular expression
    [_strptime] compiles each one to. *)
Inductive item :=
| DirY
| Dirm
| Dird
| Lit (c : ascii).

(** [%Y]: [\d\d\d\d] *)
Definition re_Y : Re.re := Re.digit4.

(** [%m]: [1[0-2]|0[1-9]|[1-9]] *)
Definition re_m : Re.re :=
  Re.Alt (Re.Seq (Re.chr "1") (Re.range "0" "2"))
 (Re.Alt (Re.Seq (Re.chr "0") (Re.range "1" "9"))
         (Re.range "1" "9")).

(** [%d]: [3[0-1]|[1-2]\d|0[1-9]|[1-9]| [1-9]] *)
Definition re_d : Re.re :=
  Re.Alt (Re.Seq (Re.chr "3") (Re.range "0" "1"))
 (Re.Alt (Re.Seq (Re.range "1" "2") Re.digit)
 (Re.Alt (Re.Seq (Re.chr "0") (Re.range "1" "9"))
 (Re.Alt (Re.range "1" "9")
         (Re.Seq (Re.chr " ") (Re.range "1" "9"))))).

Definition item_re (it : item) : Re.re :=
  match it with
  | DirY => re_Y
  | Dirm => re_m
  | Dird => re_d
  | Lit c => Re.chr c
  end.

(** The groups found so far. *)
Record groups := mkgroups { gY : string; gm : string; gd : string }.

Definition set_group (it : item) (v : string) (g : groups) : groups :=
  match it with
  | DirY => mkgroups v (gm g) (gd g)
  | Dirm => mkgroups (gY g) v (gd g)
  | Dird => mkgroups (gY g) (gm g) v
  | Lit _ => g
  end.

(** Every way the compiled format matches a prefix of [s]. *)
Fixpoint fmt_matches (fmt : list item) (s : string) (g : groups)
  : list (groups * string) :=
  match fmt with
  | [] => [(g, s)]
  | it :: fmt' =>
      flat_map (fun m => fmt_matches fmt' (snd m) (set_group it (fst m) g))
               (Re.matches (item_re it) s)
  end.

(** [int(found_dict['d'])]: [int] ignores surrounding blanks. *)
Definition int_group (s : string) : Z := Py.int (Py.strip s).

(** [datetime.strptime(s, fmt).date()], for a format that has the three
    directives: the regular expression must match at the start, nothing
    may remain, and the fields must form a date. *)
Definition strptime (fmt : list item) (s : string) : result date :=
  match List.head (fmt_matches fmt s (mkgroups "" "" "")) with
  | None => Raise ValueError
  | Some (g, rest) =>
      match rest with
      | EmptyString =>
          make_date (int_group (gY g)) (int_group (gm g)) (int_group (gd g))
      | _ => Raise ValueError
      end
  end.

(** ['%Y-%m-%d'], ['%d/%m/%Y'], ['%d-%m-%Y'] *)
Definition fmt_Ymd : list item := [DirY; Lit "-"; Dirm; Lit "-"; Dird].
Definition fmt_dmY_slash : list item := [Dird; Lit "/"; Dirm; Lit "/"; DirY].
Definition fmt_dmY_dash : list item := [Dird; Lit "-"; Dirm; Lit "-"; DirY].

(** Zero-padded decimal of width [w]. *)
Definition zfill (w : nat) (n : Z) : string :=
  let s := Py.str n in
  String.concat "" (List.repeat "0" (w - String.length s)) +:+ s.

(** [d.strftime('%Y-%m-%d')], the year rendered with four digits. *)
Definition strftime_Ymd (a : date) : string :=
  zfill 4 (year a) +:+ "-" +:+ zfill 2 (month a) +:+ "-" +:+ zfill 2 (day a).

(** The month table with the leap-year test factored out, and the
    length of a year. *)
Definition dim_l (leap : bool) (m : Z) : Z :=
  if (m =? 2) then (if leap then 29 else 28)
  else if (m =? 4) || (m =? 6) || (m =? 9) || (m =? 11) then 30
  else 31.

Fixpoint dbm_l (leap : bool) (m : nat) : Z :=
  match m with
  | O => 0
  | S m' => dbm_l leap m' + dim_l leap (Z.of_nat m)
  end.

Definition year_length (y : Z) : Z := if is_leap y then 366 else 365.

End DateTime.

(** ** [nlp_utils.py] *)

Module NlpUtils.

(** [next(f(x) for x in l if f(x) is not None)], absent when exhausted. *)
Fixpoint first_some {A B} (f : A -> option B) (l : list A) : option B :=
  match l with
  | [] => None
  | x :: l' =>
      match f x with
      | Some y => Some y
      | None => first_some f l'
      end
  end.

(** [not text or not text.strip()] *)
Definition blank (text : string) : bool :=
  negb (Py.truthy text) || negb (Py.truthy (Py.strip text)).

(** The set of characters that [word.strip(...)] removes from a token:
    the punctuation marks [. , ! ? ; :], the double quote (code 34) and
    the round, square and curly brackets. *)
Definition punctuation : string :=
  ".,!?;:" +:+ String "034" "()[]{}".

Section Extractors.

(** spaCy: the texts of the entities labelled PERSON that
    [nlp(text).ents] holds, in order. *)
Variable nlp_persons : string -> list string.

(** [dateparser.parse(text, settings=...)], the settings built from
    [prefer_future]; it may find no date, and it may raise. *)
Variable dateparser_parse : bool -> string -> result (option DateTime.date).

Definition skip_words : list string :=
  ["I"; "My"; "Me"; "Hi"; "Hello"; "Hey"; "Sir"; "Madam"; "Mr"; "Mrs"; "Ms"].

Definition name_candidate (word : string) : option string :=
  let clean_word := Py.strip_chars punctuation word in
  if Py.istitle clean_word
     && (1 <? String.length clean_word)%nat
     && negb (Py.mem clean_word skip_words)
     && Py.isalpha clean_word
  then Some clean_word else None.

Definition extract_name (text : string) : option string :=
  if blank text then None
  else
    let person_entities := List.map Py.strip (nlp_persons (Py.strip text)) in
    match person_entities with
    | p :: _ => Some p
    | [] => first_some name_candidate (Py.split text)
    end.

(** [(\d{4})-(\d{1,2})-(\d{1,2})], [(\d{1,2})/(\d{1,2})/(\d{4})] and
    [(\d{1,2})-(\d{1,2})-(\d{4})], each with its [strptime] format. *)
Definition sep3 (a : Re.re) (c : ascii) (b : Re.re) (d : Re.re) : Re.re :=
  Re.Seq a (Re.Seq (Re.chr c) (Re.Seq b (Re.Seq (Re.chr c) d))).

Definition date_patterns : list (Re.re * list DateTime.item) :=
  [ (sep3 Re.digit4 "-" Re.digit12 Re.digit12, DateTime.fmt_Ymd);
    (sep3 Re.digit12 "/" Re.digit12 Re.digit4, DateTime.fmt_dmY_slash);
    (sep3 Re.digit12 "-" Re.digit12 Re.digit4, DateTime.fmt_dmY_dash) ].

(** The loop over [date_patterns]; [Ok None] when it falls through. *)
Fixpoint try_patterns (ps : list (Re.re * list DateTime.item))
                      (text : string) : result (option string) :=
  match ps with
  | [] => Ok None
  | (pattern, date_format) :: ps' =>
      match Re.search pattern text with
      | Some group =>
          except_ValueError
            (parsed_date <- DateTime.strptime date_format group ;;
             Ok (Some (DateTime.strftime_Ymd parsed_date)))
            (try_patterns ps' text)
      | None => try_patterns ps' text
      end
  end.

Definition parse_date (text : string) (prefer_future : bool)
  : option string :=
  if blank text then None
  else
    let clean_text := Py.lower (Py.strip text) in
    match
      except_Exception
        (parsed_date <- dateparser_parse prefer_future clean_text ;;
         match parsed_date with
         | Some d => Ok (Some (DateTime.strftime_Ymd d))
         | None => try_patterns date_patterns text
         end)
        (Ok None)
    with
    | Ok r => r
    | Raise _ => None
    end.

End Extractors.

Definition yes_words : list string :=
  ["yes"; "y"; "yeah"; "yep"; "yup"; "sure"; "ok"; "okay"; "alright";
   "definitely"; "absolutely"; "certainly"; "of course"; "please";
   "correct"; "right"; "true"; "confirm"; "agreed"].

Definition no_words : list string :=
  ["no"; "n"; "nope"; "nah"; "not"; "never"; "none"; "negative";
   "false"; "incorrect"; "wrong"; "disagree"; "refuse"; "decline"].

(** [any(fuzz.ratio(word, w) >= t for w in ws)] *)
Definition fuzzy_any (t : Q) (ws : list string) (word : string) : bool :=
  existsb (fun w => Fuzz.ratio_ge word w t) ws.

(** [sum(1 for word in words if p(word))] *)
Definition count (p : string -> bool) (words : list string) : nat :=
  List.length (List.filter p words).

Definition is_yes (text : string) : option bool :=
  if blank text then None
  else
    let text_lower := Py.lower (Py.strip text) in
    if Py.mem text_lower yes_words then Some true
    else if Py.mem text_lower no_words then Some false
    else if fuzzy_any 80 yes_words text_lower then Some true
    else if fuzzy_any 80 no_words text_lower then Some false
    else
      let words := Py.split text_lower in
      let yes_count := count (fuzzy_any 70 yes_words) words in
      let no_count := count (fuzzy_any 70 no_words) words in
      if (no_count <? yes_count)%nat then Some true
      else if (yes_count <? no_count)%nat then Some false
      else None.

Definition single_indicators : list string :=
  ["me"; "myself"; "just me"; "one person"; "solo"; "alone"].

(** The dict [word_to_num], in insertion order. *)
Definition word_to_num : list (string * Z) :=
  [("one", 1); ("two", 2); ("three", 3); ("four", 4); ("five", 5);
   ("six", 6); ("seven", 7); ("eight", 8); ("nine", 9); ("ten", 10);
   ("a", 1); ("an", 1); ("single", 1); ("couple", 2); ("pair", 2)].

(** [d[k]] when [k in d] *)
Definition dict_get (k : string) (d : list (string * Z)) : option Z :=
  first_some (fun kv => if String.eqb k (fst kv) then Some (snd kv) else None) d.

Definition in_range (num : Z) : bool := (1 <=? num) && (num <=? 10).

Definition digits_in_range (num_str : string) : option Z :=
  let num := Py.int num_str in
  if in_range num then Some num else None.

Definition exact_word (word : string) : option Z :=
  dict_get (Py.strip_chars punctuation word) word_to_num.

Definition fuzzy_word (word : string) : option Z :=
  let clean_word := Py.strip_chars punctuation word in
  first_some (fun kv => if Fuzz.ratio_ge clean_word (fst kv) 80
                        then Some (snd kv) else None)
             word_to_num.

Definition parse_guests (text : string) : option Z :=
  if blank text then None
  else
    let text_lower := Py.lower (Py.strip text) in
    if existsb (fun indicator => Py.contains indicator text_lower)
               single_indicators
    then Some 1
    else
      match first_some digits_in_range (Py.findall_digits text) with
      | Some num => Some num
      | None =>
          let words := Py.split text_lower in
          match first_some exact_word words with
          | Some num => Some num
          | None => first_some fuzzy_word words
          end
      end.

Definition validate_date_order (checkin_str checkout_str : string)
  : result bool :=
  except_ValueError
    (checkin <- DateTime.strptime DateTime.fmt_Ymd checkin_str ;;
     checkout <- DateTime.strptime DateTime.fmt_Ymd checkout_str ;;
     Ok (DateTime.date_gt checkout checkin))
    (Ok false).

End NlpUtils.

(** ** [app.py] *)

Module App.

(** The values the session's [data] dict holds. *)
Inductive value :=
| VStr (s : string)
| VInt (n : Z)
| VBool (b : bool).

(** [str(v)], as an f-string renders it *)
Definition format (v : value) : string :=
  match v with
  | VStr s => s
  | VInt n => Py.str n
  | VBool true => "True"
  | VBool false => "False"
  end.

(** [bool(v)] *)
Definition truth (v : value) : bool :=
  match v with
  | VStr s => Py.truthy s
  | VInt n => negb (n =? 0)
  | VBool b => b
  end.

(** [d[key]] *)
Definition getitem (d : gmap string value) (key : string) : result value :=
  match d !! key with
  | Some v => Ok v
  | None => Raise (KeyError key)
  end.

(** A string argument of a library function that accepts nothing else. *)
Definition as_str (v : value) : result string :=
  match v with
  | VStr s => Ok s
  | _ => Raise TypeError
  end.

(** *** The bookings table

    SQLite is modelled by the rows of the table [bookings] (absent until
    [init_database] has created it), the AUTOINCREMENT sequence and the
    value of CURRENT_TIMESTAMP.  Values are stored and read back as they
    were inserted. *)

Record row := mkrow {
  row_id : Z;
  row_session_id : string;
  row_name : value;
  row_checkin : value;
  row_checkout : value;
  row_guests : value;
  row_breakfast : value;
  row_payment_method : value;
  row_created_at : string
}.

Record database := mkdb {
  bookings : option (list row);
  sequence : Z;
  current_timestamp : string
}.

(** [CREATE TABLE IF NOT EXISTS bookings] *)
Definition init_database (db : database) : database :=
  match bookings db with
  | Some _ => db
  | None => mkdb (Some []) (sequence db) (current_timestamp db)
  end.

(** The next AUTOINCREMENT key: one more than the largest key in use or
    ever used. *)
Definition next_id (rows : list row) (seq : Z) : Z :=
  1 + List.fold_right (fun r m => Z.max (row_id r) m) seq rows.

(** [SELECT * FROM bookings WHERE id = ?] then [fetchone()] *)
Definition select_by_id (rows : list row) (i : Z) : option row :=
  List.find (fun r => row_id r =? i) rows.

(** The dict [save_booking_to_db] returns. *)
Record booking_record := mkrecord {
  id : Z;
  rec_session_id : string;
  name : value;
  checkin : value;
  checkout : value;
  guests : value;
  breakfast : bool;
  payment_method : value;
  rec_created_at : string
}.

(** Returns the database after the call and either the exception raised
    or the dict returned, [None] standing for the empty dict. *)
Definition save_booking_to_db (db : database) (session_id : string)
                              (booking_data : gmap string value)
  : database * result (option booking_record) :=
  match
    (v_name <- getitem booking_data "name" ;;
     v_checkin <- getitem booking_data "checkin_date" ;;
     v_checkout <- getitem booking_data "checkout_date" ;;
     v_guests <- getitem booking_data "guests" ;;
     Ok (fun i =>
           mkrow i session_id v_name v_checkin v_checkout v_guests
                 (default (VBool false) (booking_data !! "breakfast"))
                 (default (VStr "Not specified")
                          (booking_data !! "payment_method"))
                 (current_timestamp db)))
  with
  | Raise e => (db, Raise e)
  | Ok new_row =>
      match bookings db with
      | None => (db, Raise OperationalError)
      | Some rows =>
          let booking_id := next_id rows (sequence db) in
          let rows' := rows ++ [new_row booking_id] in
          let db' := mkdb (Some rows') booking_id (current_timestamp db) in
          match select_by_id rows' booking_id with
          | Some record =>
              (db', Ok (Some (mkrecord (row_id record)
                                       (row_session_id record)
                                       (row_name record)
                                       (row_checkin record)
                                       (row_checkout record)
                                       (row_guests record)
                                       (truth (row_breakfast record))
                                       (row_payment_method record)
                                       (row_created_at record))))
          | None => (db', Ok None)
          end
      end
  end.

(** *** Sessions *)

Record session := mksession {
  step : string;
  data : gmap string value;
  session_id : option string;
  created_at : string
}.

(** The state [get_or_create_session] creates. *)
Definition new_session (now : string) : session :=
  mksession "name" ∅ None now.

Definition set_step (st : session) (s : string) : session :=
  mksession s (data st) (session_id st) (created_at st).

Definition set_data (st : session) (d : gmap string value) : session :=
  mksession (step st) d (session_id st) (created_at st).

(** [data[key] = v], [data] being the dict the session holds. *)
Definition store (st : session) (key : string) (v : value) : session :=
  set_data st (<[key := v]> (data st)).

(** The dict a turn returns. *)
Record response := mkresponse {
  reply : string;
  complete : bool;
  booking : option booking_record
}.

Definition say (text : string) : response := mkresponse text false None.

(** Two runs of characters outside ASCII, byte for byte as the source
    file holds them. *)
Definition bullet : string :=
  String "195" (String "162" (String "226" (String "130" (String "172"
 (String "194" (String "162" EmptyString)))))).

Definition party : string :=
  String "195" (String "176" (String "197" (String "184" (String "197"
 (String "189" (String "226" (String "128" (String "176" EmptyString)))))))).

Definition nl : string := String "010" EmptyString.

Definition affirmative : list string :=
  ["confirm"; "yes"; "book"; "book it"; "proceed"].
Definition negative : list string :=
  ["cancel"; "no"; "restart"; "start over"].
Definition skip_tokens : list string := ["skip"; "later"; "none"].
Definition valid_methods : list string :=
  ["credit card"; "debit card"; "cash"; "paypal"].

(** One round of the loop over [valid_methods]. *)
Definition better (payment_method : string) (best : option string * Q)
                  (method : string) : option string * Q :=
  let score := Fuzz.ratio payment_method method in
  if Fuzz.Qlt_bool (snd best) score && Fuzz.Qlt_bool 60 score
  then (Some method, score) else best.

Definition best_match (payment_method : string) : option string :=
  fst (List.fold_left (better payment_method) valid_methods (None, 0%Q)).

(** The value the payment step stores. *)
Definition payment_value (payment_method : string) : string :=
  if Py.mem payment_method skip_tokens then "Not specified"
  else
    match best_match payment_method with
    | Some m => if Py.truthy m then Py.title m else Py.title payment_method
    | None => Py.title payment_method
    end.

Definition summary (d : gmap string value) : result string :=
  v_name <- getitem d "name" ;;
  v_checkin <- getitem d "checkin_date" ;;
  v_checkout <- getitem d "checkout_date" ;;
  v_guests <- getitem d "guests" ;;
  Ok (nl +:+ "Please confirm your booking details:" +:+ nl +:+ nl
      +:+ bullet +:+ " Name: " +:+ format v_name +:+ nl
      +:+ bullet +:+ " Check-in: " +:+ format v_checkin +:+ nl
      +:+ bullet +:+ " Check-out: " +:+ format v_checkout +:+ nl
      +:+ bullet +:+ " Guests: " +:+ format v_guests +:+ nl
      +:+ bullet +:+ " Breakfast: "
      +:+ (if truth (default (VBool false) (d !! "breakfast"))
           then "Yes" else "No") +:+ nl
      +:+ bullet +:+ " Payment: "
      +:+ format (default (VStr "Not specified") (d !! "payment_method"))
      +:+ nl +:+ nl
      +:+ "Type 'confirm' to complete your booking or 'cancel' to start over."
      +:+ nl).

(** The re-prompts and acknowledgements. *)
Definition reprompt_name : string :=
  "I didn't catch your name. Could you please tell me your name?".
Definition reprompt_checkin : string :=
  "I couldn't understand the date. Please provide your check-in date (e.g., 'tomorrow', 'January 15th', or '2024-01-15')".
Definition reprompt_checkout : string :=
  "I couldn't understand the check-out date. Please provide a valid date.".
Definition reprompt_order (checkin_date : string) : string :=
  "Check-out date must be after check-in date (" +:+ checkin_date
  +:+ "). Please provide a later check-out date.".
Definition reprompt_guests : string :=
  "Please tell me the number of guests (1-10 people).".
Definition reprompt_breakfast : string :=
  "Please answer yes or no for breakfast preference.".
Definition reprompt_confirm : string :=
  "Please type 'confirm' to complete your booking or 'cancel' to start over.".
Definition confirmed (booking_id : Z) : string :=
  party +:+ " Booking confirmed! Your reservation ID is #"
  +:+ Py.str booking_id +:+ ". Thank you for choosing our hotel!".

Section Dialogue.

Variable nlp_persons : string -> list string.
Variable dateparser_parse : bool -> string -> result (option DateTime.date).

(** One turn.  Returns the database and the session as the call leaves
    them, and the dict returned or the exception raised. *)
Definition process_conversation_step
           (db : database) (session_state : session) (user_message : string)
  : database * session * result response :=
  let step := step session_state in
  let data := data session_state in
  if String.eqb step "name" then
    match NlpUtils.extract_name nlp_persons user_message with
    | Some name =>
        if Py.truthy name then
          (db, set_step (store session_state "name" (VStr name)) "checkin",
           Ok (say ("Nice to meet you, " +:+ name +:+
                    "! When would you like to check in? (e.g., 'tomorrow', 'January 15th', '2024-01-15')")))
        else (db, session_state, Ok (say reprompt_name))
    | None => (db, session_state, Ok (say reprompt_name))
    end
  else if String.eqb step "checkin" then
    match NlpUtils.parse_date dateparser_parse user_message true with
    | Some checkin_date =>
        if Py.truthy checkin_date then
          (db, set_step (store session_state "checkin_date" (VStr checkin_date))
                        "checkout",
           Ok (say ("Great! Check-in on " +:+ checkin_date +:+
                    ". When would you like to check out?")))
        else (db, session_state, Ok (say reprompt_checkin))
    | None => (db, session_state, Ok (say reprompt_checkin))
    end
  else if String.eqb step "checkout" then
    match NlpUtils.parse_date dateparser_parse user_message true with
    | Some checkout_date =>
        if Py.truthy checkout_date then
          match
            (v <- getitem data "checkin_date" ;;
             checkin_str <- as_str v ;;
             ok <- NlpUtils.validate_date_order checkin_str checkout_date ;;
             Ok (v, ok))
          with
          | Raise e => (db, session_state, Raise e)
          | Ok (_, true) =>
              (db, set_step (store session_state "checkout_date"
                                   (VStr checkout_date)) "guests",
               Ok (say ("Perfect! Check-out on " +:+ checkout_date +:+
                        ". How many guests will be staying?")))
          | Ok (v, false) =>
              (db, session_state, Ok (say (reprompt_order (format v))))
          end
        else (db, session_state, Ok (say reprompt_checkout))
    | None => (db, session_state, Ok (say reprompt_checkout))
    end
  else if String.eqb step "guests" then
    match NlpUtils.parse_guests user_message with
    | Some guests =>
        if negb (guests =? 0) then
          let guest_text := if guests =? 1 then "guest" else "guests" in
          (db, set_step (store session_state "guests" (VInt guests))
                        "breakfast",
           Ok (say ("Noted: " +:+ Py.str guests +:+ " " +:+ guest_text +:+
                    ". Would you like to include breakfast? (yes/no)")))
        else (db, session_state, Ok (say reprompt_guests))
    | None => (db, session_state, Ok (say reprompt_guests))
    end
  else if String.eqb step "breakfast" then
    match NlpUtils.is_yes user_message with
    | Some breakfast_response =>
        let breakfast_text :=
          if breakfast_response then "with breakfast"
          else "without breakfast" in
        (db, set_step (store session_state "breakfast"
                             (VBool breakfast_response)) "payment",
         Ok (say ("Excellent, " +:+ breakfast_text +:+
                  "! What's your preferred payment method? (credit card, debit card, cash, paypal, or 'skip')")))
    | None => (db, session_state, Ok (say reprompt_breakfast))
    end
  else if String.eqb step "payment" then
    let payment_method := Py.lower (Py.strip user_message) in
    let session_state' :=
      set_step (store session_state "payment_method"
                      (VStr (payment_value payment_method))) "confirm" in
    match summary (App.data session_state') with
    | Raise e => (db, session_state', Raise e)
    | Ok text => (db, session_state', Ok (say (Py.strip text)))
    end
  else if String.eqb step "confirm" then
    let response := Py.strip (Py.lower user_message) in
    if Py.mem response affirmative then
      match save_booking_to_db db (default "" (session_id session_state))
                               data with
      | (db', Raise e) => (db', session_state, Raise e)
      | (db', Ok booking_record) =>
          let session_state' := set_step session_state "complete" in
          match booking_record with
          | None => (db', session_state', Raise (KeyError "id"))
          | Some r =>
              (db', session_state',
               Ok (mkresponse (confirmed (id r)) true (Some r)))
          end
      end
    else if Py.mem response negative then
      (db, set_data (set_step session_state "name") ∅,
       Ok (say "Booking cancelled. Let's start over! What's your name?"))
    else (db, session_state, Ok (say reprompt_confirm))
  else
    (db, set_data (set_step session_state "name") ∅,
     Ok (say "Let's start over! What's your name?")).

End Dialogue.

End App.

(** ** Specification vocabulary *)

Module Spec.

(** [needle] occurs in [hay] as a contiguous block. *)
Definition substring_of (needle hay : string) : Prop :=
  exists pre post, hay = pre +:+ needle +:+ post.

(** [x] is the first element of [l] that satisfies [P]. *)
Definition first_such {A} (P : A -> Prop) (l : list A) (x : A) : Prop :=
  exists l1 l2, l = l1 ++ x :: l2 /\ Forall (fun y => ~ P y) l1 /\ P x.


(** A token, its surrounding punctuation removed. *)
Definition clean (word : string) : string :=
  Py.strip_chars NlpUtils.punctuation word.

(** The tokens of a text: the blank-separated words of the trimmed,
    lowercased text. *)
Definition tokens (text : string) : list string :=
  Py.split (Py.lower (Py.strip text)).

(** Similarity of at least [t] percent. *)
Definition similar (t : Q) (a b : string) : Prop := (t <= Fuzz.ratio a b)%Q.

(** The strategies of the guest-count extractor. *)
Definition solo (text : string) : Prop :=
  exists ind, In ind NlpUtils.single_indicators
              /\ substring_of ind (Py.lower (Py.strip text)).




Definition table_word (word : string) : Prop :=
  exists v, In (clean word, v) NlpUtils.word_to_num.

Definition exact_hit (text : string) (n : Z) : Prop :=
  exists w, first_such table_word (tokens text) w
            /\ In (clean w, n) NlpUtils.word_to_num.







(** The phases of the yes/no extractor. *)
Definition normal (text : string) : string := Py.lower (Py.strip text).

Definition exact_yes (text : string) : Prop :=
  In (normal text) NlpUtils.yes_words.
Definition exact_no (text : string) : Prop :=
  In (normal text) NlpUtils.no_words.

Definition resembles (t : Q) (ws : list string) (word : string) : Prop :=
  exists w, In w ws /\ similar t word w.

Definition whole_yes (text : string) : Prop :=
  resembles 80 NlpUtils.yes_words (normal text).
Definition whole_no (text : string) : Prop :=
  resembles 80 NlpUtils.no_words (normal text).

(** The number of elements of [l] that satisfy [p]. *)
Fixpoint tally {A} (p : A -> bool) (l : list A) : nat :=
  match l with
  | [] => O
  | x :: l' => ((if p x then 1 else 0) + tally p l')%nat
  end.

Definition yes_votes (text : string) : nat :=
  tally (NlpUtils.fuzzy_any 70 NlpUtils.yes_words) (tokens text).
Definition no_votes (text : string) : nat :=
  tally (NlpUtils.fuzzy_any 70 NlpUtils.no_words) (tokens text).


(** Every character of [s] satisfies [p]. *)
Fixpoint all_chars (p : ascii -> bool) (s : string) : bool :=
  match s with
  | EmptyString => true
  | String c s' => p c && all_chars p s'
  end.

(** The row [save_booking_to_db] inserts for the dict [d], and the dict
    it returns for a row. *)
Definition row_of (db : App.database) (sid : string)
                  (d : gmap string App.value)
                  (vn vi vo vg : App.value) (i : Z) : App.row :=
  App.mkrow i sid vn vi vo vg
            (default (App.VBool false) (d !! "breakfast"))
            (default (App.VStr "Not specified") (d !! "payment_method"))
            (App.current_timestamp db).

Definition record_of (r : App.row) : App.booking_record :=
  App.mkrecord (App.row_id r) (App.row_session_id r) (App.row_name r)
               (App.row_checkin r) (App.row_checkout r) (App.row_guests r)
               (App.truth (App.row_breakfast r))
               (App.row_payment_method r) (App.row_created_at r).

(** The fields of [data], in the order of the steps that set them, and
    the steps in their forward order. *)
Definition fields : list string :=
  ["name"; "checkin_date"; "checkout_date"; "guests"; "breakfast";
   "payment_method"].

Definition steps : list string :=
  ["name"; "checkin"; "checkout"; "guests"; "breakfast"; "payment";
   "confirm"; "complete"].

(** The session is at step number [k] and holds exactly the fields of
    the steps before it. *)
Definition in_order (st : App.session) : Prop :=
  exists k, steps !! k = Some (App.step st)
            /\ dom (App.data st) = list_to_set (take k fields).

(** What a turn can do to a session. *)
Inductive moves (st : App.session) : App.session -> Prop :=
| move_stay : moves st st
| move_store (k : nat) (key next : string) (v : App.value) :
    steps !! k = Some (App.step st) -> fields !! k = Some key ->
    steps !! S k = Some next ->
    moves st (App.set_step (App.store st key v) next)
| move_complete :
    App.step st = "confirm" -> moves st (App.set_step st "complete")
| move_reset : moves st (App.set_data (App.set_step st "name") ∅).

(** The zero-padded rendering of [n] is [w] digits that read back as
    [n]. *)
Definition renders (w : nat) (n : Z) : bool :=
  let s := DateTime.zfill w n in
  (String.length s =? w)%nat && all_chars Py.isdigit s && (Py.int s =? n).

Section Reachability.

Variable nlp_persons : string -> list string.
Variable dateparser_parse : bool -> string -> result (option DateTime.date).

(** The session a turn leaves behind. *)
Definition after (db : App.database) (st : App.session) (msg : string)
  : App.session :=
  snd (fst (App.process_conversation_step nlp_persons dateparser_parse
                                          db st msg)).

(** Sessions reachable from a fresh one by turns, whatever the messages
    and whatever the database holds. *)
Inductive reachable : App.session -> Prop :=
| reach_new (sid : option string) (now : string) :
    reachable (App.mksession "name" ∅ sid now)
| reach_turn (db : App.database) (st : App.session) (msg : string) :
    reachable st -> reachable (after db st msg).

End Reachability.

End Spec.

(** ** Instances of the parameters, for running the dialogue *)

Module Sample.

(** An entity recogniser that finds nobody and a [dateparser] that
    understands nothing: names come from the capitalised-word scan and
    dates from the three explicit patterns. *)
Definition no_entities (text : string) : list string := [].

Definition no_dateparser (prefer_future : bool) (text : string)
  : result (option DateTime.date) := Ok None.

Definition empty_db : App.database :=
  App.mkdb (Some []) 0 "2024-01-15 10:00:00".

Definition no_table : App.database :=
  App.mkdb None 0 "2024-01-15 10:00:00".

Definition collected : gmap string App.value :=
  <["payment_method" := App.VStr "Cash"]>
    (<["breakfast" := App.VBool true]>
       (<["guests" := App.VInt 2]>
          (<["checkout_date" := App.VStr "2024-01-22"]>
             (<["checkin_date" := App.VStr "2024-01-20"]>
                (<["name" := App.VStr "Alice"]> ∅))))).

Definition booked_from_20th : gmap string App.value :=
  <["checkin_date" := App.VStr "2024-01-20"]>
    (<["name" := App.VStr "Alice"]> ∅).

Definition before_payment : gmap string App.value :=
  <["breakfast" := App.VBool true]>
    (<["guests" := App.VInt 2]>
       (<["checkout_date" := App.VStr "2024-01-22"]> booked_from_20th)).

Definition at_step (s : string) (d : gmap string App.value) : App.session :=
  App.mksession s d (Some "s-1") "2024-01-15T10:00:00".

End Sample.

(** ** [app.py]: the session registry and the chat endpoint *)

Module Endpoint.

(** What [request.get_json()] returns: [None], a bool, a number (an
    integer here; only whether it is zero matters), a string, a list or a
    dict. *)
#[warnings="-register-all"]
Inductive json :=
| JNull
| JBool (b : bool)
| JNum (n : Z)
| JStr (s : string)
| JList (l : list json)
| JDict (d : gmap string json).

(** [bool(v)] *)
Definition truthy (v : json) : bool :=
  match v with
  | JNull => false
  | JBool b => b
  | JNum n => negb (n =? 0)
  | JStr s => Py.truthy s
  | JList l => match l with [] => false | _ => true end
  | JDict d => negb (Nat.eqb (size d) 0)
  end.

(** The operations below return [None] where Python raises; the
    endpoint's handler catches every exception alike. *)

(** [key in v] *)
Definition contains (key : string) (v : json) : option bool :=
  match v with
  | JDict d => Some (bool_decide (is_Some (d !! key)))
  | JList l =>
      Some (existsb (fun x => match x with
                              | JStr s => String.eqb s key
                              | _ => false
                              end) l)
  | JStr s => Some (Py.contains key s)
  | JNull | JBool _ | JNum _ => None
  end.

(** [v[key]] *)
Definition getitem (key : string) (v : json) : option json :=
  match v with
  | JDict d => d !! key
  | _ => None
  end.

(** [v.strip()] *)
Definition strip (v : json) : option string :=
  match v with
  | JStr s => Some (Py.strip s)
  | _ => None
  end.

(** [v.get(key)] *)
Definition get (key : string) (v : json) : option json :=
  match v with
  | JDict d => Some (default JNull (d !! key))
  | _ => None
  end.

(** [get_or_create_session]: the registry after the call, the session id
    and the session.  [uuid] is the string [uuid.uuid4()] gives and [now]
    the time stamp, should a session be created. *)
Definition get_or_create_session (active_sessions : gmap string App.session)
           (uuid now : string) (session_id : json)
  : option (gmap string App.session * string * App.session) :=
  let create :=
    Some (<[uuid := App.new_session now]> active_sessions, uuid,
          App.new_session now) in
  if truthy session_id then
    match session_id with
    | JStr s =>
        match active_sessions !! s with
        | Some session_state => Some (active_sessions, s, session_state)
        | None => create
        end
    | JList _ | JDict _ => None
    | _ => create
    end
  else create.

(** The request, as far as the endpoint looks at it. *)
Record request := mkrequest {
  is_json : bool;
  get_json : option json
}.

(** The JSON bodies the endpoint answers with. *)
Inductive body :=
| Error (error : string)
| ServerError (error : string) (session_id : option string)
| Chat (response : App.response) (session_id : string).

Record reply := mkreply { payload : body; status : Z }.

(** The process: the registry [active_sessions] and the database file. *)
Record world := mkworld {
  active_sessions : gmap string App.session;
  bookings_db : App.database
}.

Definition bad_request (w : world) (error : string) : world * reply :=
  (w, mkreply (Error error) 400).

Definition server_error (w : world) (session_id : option string)
  : world * reply :=
  (w, mkreply (ServerError "Internal server error. Please try again."
                           session_id) 500).

Section Server.

Variable nlp_persons : string -> list string.
Variable dateparser_parse : bool -> string -> result (option DateTime.date).

(** [session_state['session_id'] = session_id] *)
Definition file_under (session_state : App.session) (session_id : string)
  : App.session :=
  App.mksession (App.step session_state) (App.data session_state)
                (Some session_id) (App.created_at session_state).

(** The turn and the answer, once the session is at hand.  The session
    the registry holds is the object the turn mutates, so the registry
    holds the session as the turn leaves it, also when the turn raises. *)
Definition respond (w : world) (sessions : gmap string App.session)
           (session_id : string) (session_state : App.session)
           (user_message : string) : world * reply :=
  match App.process_conversation_step nlp_persons dateparser_parse
                                      (bookings_db w) session_state
                                      user_message with
  | (db, session_state, Ok response) =>
      (mkworld (<[session_id := session_state]> sessions) db,
       mkreply (Chat response session_id) 200)
  | (db, session_state, Raise _) =>
      server_error (mkworld (<[session_id := session_state]> sessions) db)
                   (Some session_id)
  end.

(** [chat_endpoint] *)
Definition chat_endpoint (uuid now : string) (w : world) (req : request)
  : world * reply :=
  if negb (is_json req) then
    bad_request w "Content-Type must be application/json"
  else
    match get_json req with
    | None => server_error w None
    | Some data =>
        if negb (truthy data) then
          bad_request w "Missing required field: message"
        else
          match contains "message" data with
          | None => server_error w None
          | Some false => bad_request w "Missing required field: message"
          | Some true =>
              match getitem "message" data ≫= strip with
              | None => server_error w None
              | Some user_message =>
                  if negb (Py.truthy user_message) then
                    bad_request w "Message cannot be empty"
                  else
                    match get "session_id" data
                            ≫= get_or_create_session (active_sessions w)
                                                     uuid now with
                    | None => server_error w None
                    | Some (sessions, session_id, session_state) =>
                        respond w sessions session_id
                                (file_under session_state session_id)
                                user_message
                    end
              end
          end
    end.

(** Requests served one after the other, each with the id and the time
    stamp a session created by it would get. *)
Fixpoint serve (w : world) (calls : list (string * string * request))
  : world * list reply :=
  match calls with
  | [] => (w, [])
  | (uuid, now, req) :: calls' =>
      let (w1, r) := chat_endpoint uuid now w req in
      let (w2, rs) := serve w1 calls' in
      (w2, r :: rs)
  end.

End Server.

(** The request of a client that sends a message, with the id of its
    session once it has one. *)
Definition post (message : string) (session_id : option string) : request :=
  mkrequest true
    (Some (JDict (<["message" := JStr message]>
                    match session_id with
                    | Some s => {["session_id" := JStr s]}
                    | None => ∅
                    end))).

End Endpoint.

(** ** [init_db.py] *)

Module InitDb.


(** [INSERT INTO bookings (session_id, ..., payment_method)] *)
Definition insert_booking (db : App.database) (session_id : string)
           (name checkin checkout guests breakfast payment_method : App.value)
  : result App.database :=
  match App.bookings db with
  | None => Raise OperationalError
  | Some rows =>
      let i := App.next_id rows (App.sequence db) in
      Ok (App.mkdb
            (Some (rows ++ [App.mkrow i session_id name checkin checkout
                                      guests breakfast payment_method
                                      (App.current_timestamp db)]))
            i (App.current_timestamp db))
  end.

Record sample := mksample {
  s_session_id : string;
  s_name : string;
  s_checkin : string;
  s_checkout : string;
  s_guests : Z;
  s_breakfast : bool;
  s_payment_method : string
}.

Definition sample_bookings : list sample :=
  [ mksample "sample-session-1" "John Smith" "2024-01-15" "2024-01-18" 2
             true "Credit Card";
    mksample "sample-session-2" "Alice Johnson" "2024-01-20" "2024-01-22" 1
             false "PayPal";
    mksample "sample-session-3" "Bob Wilson" "2024-01-25" "2024-01-28" 4
             true "Debit Card" ].

Definition insert_sample (db : App.database) (booking : sample)
  : result App.database :=
  insert_booking db (s_session_id booking)
                 (App.VStr (s_name booking)) (App.VStr (s_checkin booking))
                 (App.VStr (s_checkout booking)) (App.VInt (s_guests booking))
                 (App.VBool (s_breakfast booking))
                 (App.VStr (s_payment_method booking)).

(** The loop of [add_sample_data]. *)
Fixpoint insert_all (db : App.database) (bookings : list sample)
  : result App.database :=
  match bookings with
  | [] => Ok db
  | booking :: bookings' =>
      db' <- insert_sample db booking ;; insert_all db' bookings'
  end.

(** [add_sample_data]: nothing is committed when an insertion raises. *)
Definition add_sample_data (db : App.database) : App.database * bool :=
  match insert_all db sample_bookings with
  | Ok db' => (db', true)
  | Raise _ => (db, false)
  end.

(** [clear_database].  [file_exists] is [os.path.exists(DATABASE_PATH)]
    and [response] the line the operator types.  The second [DELETE]
    names the table between double quotes, which SQLite reads as a string
    where no column has that name: the sequence is forgotten. *)
Definition clear_database (file_exists : bool) (response : string)
           (db : App.database) : App.database * bool :=
  if negb file_exists then (db, false)
  else if negb (Py.mem (Py.lower response) ["yes"; "y"]) then (db, false)
  else
    match App.bookings db with
    | None => (db, false)
    | Some _ => (App.mkdb (Some []) 0 (App.current_timestamp db), true)
    end.

End InitDb.

(** ** Vocabulary for the properties of the whole program *)

Module Shape.

(** The value a step may store under [key], given the data so far. *)
Definition field_ok (d : gmap string App.value) (key : string)
           (v : App.value) : Prop :=
  (key = "name" -> exists s, v = App.VStr s /\ s <> "")
  /\ (key = "checkin_date" -> exists s, v = App.VStr s /\ s <> "")
  /\ (key = "checkout_date" ->
      exists ci co, v = App.VStr co /\ d !! "checkin_date" = Some (App.VStr ci)
                    /\ NlpUtils.validate_date_order ci co = Ok true)
  /\ (key = "guests" -> exists n, v = App.VInt n /\ 1 <= n <= 10)
  /\ (key = "breakfast" -> exists b, v = App.VBool b)
  /\ (key = "payment_method" -> exists s, v = App.VStr s).

(** Every field the data hold has the shape its step gives it. *)
Definition well_formed (d : gmap string App.value) : Prop :=
  forall key v, d !! key = Some v -> field_ok d key v.

(** What a turn can do to a session, with the value it stores. *)
Inductive stores (st : App.session) : App.session -> Prop :=
| stores_stay : stores st st
| stores_field (k : nat) (key next : string) (v : App.value) :
    Spec.steps !! k = Some (App.step st) -> Spec.fields !! k = Some key ->
    Spec.steps !! S k = Some next ->
    field_ok (App.data st) key v ->
    stores st (App.set_step (App.store st key v) next)
| stores_complete :
    App.step st = "confirm" -> stores st (App.set_step st "complete")
| stores_reset : stores st (App.set_data (App.set_step st "name") ∅).

(** The keys of the rows are distinct and none exceeds the sequence. *)
Definition keys_ok (db : App.database) : Prop :=
  forall rows, App.bookings db = Some rows ->
               List.NoDup (List.map App.row_id rows)
               /\ forall r, In r rows -> App.row_id r <= App.sequence db.

(** The keys [save_booking_to_db] reads with [booking_data[...]], in the
    order it reads them. *)
Definition mandatory : list string :=
  ["name"; "checkin_date"; "checkout_date"; "guests"].



(** The rendering of a date with the day first, DD.MM.YYYY with [sep] for
    the dots: what [strftime] gives for ['%d/%m/%Y'] and ['%d-%m-%Y']. *)
Definition day_first (sep : ascii) (a : DateTime.date) : string :=
  DateTime.zfill 2 (DateTime.day a) +:+ String sep ""
  +:+ DateTime.zfill 2 (DateTime.month a) +:+ String sep ""
  +:+ DateTime.zfill 4 (DateTime.year a).

(** Every session of the registry is filed under its own id, is at a
    step of the forward order with the fields of the earlier steps, and
    holds fields of the expected shape. *)
Definition registered (sessions : gmap string App.session) : Prop :=
  forall k st, sessions !! k = Some st ->
               App.session_id st = Some k /\ Spec.in_order st
               /\ well_formed (App.data st).

(** A session id the registry does not know: absent or null, false,
    zero or empty, or a string, number or boolean that is no key of the
    registry. *)
Definition unknown_id (sessions : gmap string App.session)
           (v : Endpoint.json) : Prop :=
  Endpoint.truthy v = false
  \/ (exists s, v = Endpoint.JStr s /\ sessions !! s = None)
  \/ (exists n, v = Endpoint.JNum n)
  \/ (exists b, v = Endpoint.JBool b).

End Shape.

(** ** A conversation, for running the endpoint *)

Module Demo.

(** The answers of a guest to the first six questions. *)
Definition answers : list string :=
  ["I'm Alice"; "2024-01-20"; "2024-01-22"; "2"; "yes"; "cash"].

(** The session of that guest before the confirmation. *)
Definition confirming : App.session :=
  List.fold_left
    (Spec.after Sample.no_entities Sample.no_dateparser Sample.empty_db)
    answers (App.mksession "name" ∅ (Some "s-1") "2024-01-15T10:00:00").

(** A process that has just started, its table created. *)
Definition started : Endpoint.world := Endpoint.mkworld ∅ Sample.empty_db.

(** The requests of that guest: the first without a session id, the
    others with the id the first answer gave. *)
Definition client : list (string * string * Endpoint.request) :=
  [(("s-1", "2024-01-15T10:00:00"), Endpoint.post " I'm Alice " None);
   (("s-2", "2024-01-15T10:00:01"), Endpoint.post "2024-01-20" (Some "s-1"));
   (("s-3", "2024-01-15T10:00:02"), Endpoint.post "2024-01-22" (Some "s-1"));
   (("s-4", "2024-01-15T10:00:03"), Endpoint.post "2" (Some "s-1"));
   (("s-5", "2024-01-15T10:00:04"), Endpoint.post "yes" (Some "s-1"));
   (("s-6", "2024-01-15T10:00:05"), Endpoint.post "cash" (Some "s-1"));
   (("s-7", "2024-01-15T10:00:06"), Endpoint.post "Confirm" (Some "s-1"))].

End Demo.

(** * Properties *)

(** ** The similarity score *)

Section LcsFacts.

Import Fuzz.

Lemma lcs_rec_nil_r (a : string) : lcs_rec a "" = O.
Proof. by destruct a. Qed.

Lemma lcs_rec_cons (x y : ascii) (a b : string) :
  lcs_rec (String x a) (String y b) =
  if Ascii.eqb x y then S (lcs_rec a b)
  else Nat.max (lcs_rec a (String y b)) (lcs_rec (String x a) b).
Proof. by destruct b. Qed.

Lemma suffixes_head (b : string) : List.hd "" (suffixes b) = b.
Proof. by destruct b. Qed.

Lemma hd_map_suffixes (f : string -> nat) (b : string) :
  List.hd O (List.map f (suffixes b)) = f b.
Proof. by destruct b. Qed.

Lemma lcs_row_spec (x : ascii) (a b : string) :
  lcs_row x b (List.map (lcs_rec a) (suffixes b))
  = List.map (lcs_rec (String x a)) (suffixes b).
Proof.
  induction b as [|y b IH]; [reflexivity|].
  cbn [suffixes List.map lcs_row]. fold (suffixes b).
  rewrite IH, !hd_map_suffixes, lcs_rec_cons. reflexivity.
Qed.

Lemma lcs_rows_spec (a b : string) :
  lcs_rows a b = List.map (lcs_rec a) (suffixes b).
Proof.
  induction a as [|x a IH]; cbn [lcs_rows].
  - induction b as [|y b IHb]; [reflexivity|].
    cbn [String.length List.repeat suffixes List.map] in *.
    fold (suffixes b). by rewrite <- IHb.
  - by rewrite IH, lcs_row_spec.
Qed.

(** The table computes the recurrence. *)
Lemma lcs_is_lcs_rec (a b : string) : lcs a b = lcs_rec a b.
Proof. unfold lcs. by rewrite lcs_rows_spec, hd_map_suffixes. Qed.

Lemma subseq_nil_l (t : string) : subseq "" t.
Proof. induction t; by constructor. Qed.

Lemma subseq_tail (c : ascii) (s t : string) :
  subseq (String c s) t -> subseq s t.
Proof.
  induction t as [|d t IH]; intros H; inversion H; subst.
  - constructor. by apply IH.
  - by constructor.
Qed.

(** Some common subsequence has the length the recurrence gives. *)
Lemma lcs_rec_attained (a b : string) :
  exists c, subseq c a /\ subseq c b /\ String.length c = lcs_rec a b.
Proof.
  revert b. induction a as [|x a IHa]; intros b.
  - exists "". repeat split; [constructor | apply subseq_nil_l].
  - induction b as [|y b IHb].
    + exists "". repeat split; [apply subseq_nil_l | constructor].
    + rewrite lcs_rec_cons. destruct (Ascii.eqb_spec x y) as [->|Hne].
      * destruct (IHa b) as (c & Ha & Hb & Hlen).
        exists (String y c). repeat split; try by constructor.
        cbn [String.length]. by rewrite Hlen.
      * destruct (Nat.max_spec (lcs_rec a (String y b))
                               (lcs_rec (String x a) b)) as [[_ ->]|[_ ->]].
        -- destruct IHb as (c & Ha & Hb & Hlen).
           exists c. repeat split; try done. by constructor.
        -- destruct (IHa (String y b)) as (c & Ha & Hb & Hlen).
           exists c. repeat split; try done. by constructor.
Qed.

(** No common subsequence is longer. *)
Lemma lcs_rec_bound (a b c : string) :
  subseq c a -> subseq c b -> (String.length c <= lcs_rec a b)%nat.
Proof.
  revert b c. induction a as [|x a IHa]; intros b c Ha Hb.
  - inversion Ha; subst. cbn. lia.
  - revert c Ha Hb. induction b as [|y b IHb]; intros c Ha Hb.
    + inversion Hb; subst. cbn. lia.
    + rewrite lcs_rec_cons.
      inversion Ha as [|? ? ? Ha'|? c' ? Ha']; subst.
      * (* [x] is not used *)
        pose proof (IHa _ _ Ha' Hb) as H.
        destruct (Ascii.eqb_spec x y) as [->|Hne]; [|lia].
        inversion Hb as [|? ? ? Hb'|? c' ? Hb']; subst.
        -- pose proof (IHa _ _ Ha' Hb'). lia.
        -- pose proof (IHa _ _ (subseq_tail _ _ _ Ha') Hb').
           cbn [String.length]. lia.
      * (* [x] is the first character of [c] *)
        inversion Hb as [|? ? ? Hb'|? ? ? Hb']; subst.
        -- pose proof (IHb _ Ha Hb') as H.
           destruct (Ascii.eqb_spec x y) as [->|Hne]; [|lia].
           pose proof (IHa _ _ Ha' (subseq_tail _ _ _ Hb')).
           cbn [String.length]. lia.
        -- rewrite Ascii.eqb_refl. pose proof (IHa _ _ Ha' Hb').
           cbn [String.length]. lia.
Qed.

(** [lcs] is the length of a longest common subsequence. *)
Lemma lcs_longest (a b : string) :
  (exists c, subseq c a /\ subseq c b /\ String.length c = lcs a b)
  /\ (forall c, subseq c a -> subseq c b -> (String.length c <= lcs a b)%nat).
Proof.
  rewrite lcs_is_lcs_rec. split; [apply lcs_rec_attained|].
  intros c. apply lcs_rec_bound.
Qed.

End LcsFacts.


(** ** Strings *)

Section StringFacts.

Lemma append_nil_r (s : string) : s +:+ "" = s.
Proof. induction s as [|c s IH]; [reflexivity|]. change (String c (s +:+ "") = String c s). by rewrite IH. Qed.

Lemma append_assoc (a b c : string) : (a +:+ b) +:+ c = a +:+ b +:+ c.
Proof.
  induction a as [|x a IH]; [reflexivity|].
  change (String x ((a +:+ b) +:+ c) = String x (a +:+ b +:+ c)).
  by rewrite IH.
Qed.

Lemma prefix_spec (n h : string) :
  String.prefix n h = true <-> exists post, h = n +:+ post.
Proof.
  revert h. induction n as [|c n IH]; intros h.
  - split; [intros _; by exists h | by destruct h].
  - destruct h as [|d h]; cbn [String.prefix].
    + split; [discriminate | intros [post H]; discriminate H].
    + destruct (ascii_dec c d) as [->|Hne].
      * rewrite IH. split; intros [post H]; exists post.
        -- by rewrite H.
        -- by injection H.
      * split; [discriminate | intros [post H]; injection H; congruence].
Qed.

Lemma contains_spec (n h : string) :
  Py.contains n h = true <-> Spec.substring_of n h.
Proof.
  unfold Spec.substring_of. induction h as [|d h IH]; cbn [Py.contains].
  - rewrite orb_false_r, prefix_spec. split.
    + intros [post H]. by exists "", post.
    + intros ([|x pre] & post & H); [by exists post | discriminate H].
  - rewrite orb_true_iff, prefix_spec, IH. split.
    + intros [[post H] | (pre & post & H)].
      * by exists "", post.
      * exists (String d pre), post. by rewrite H.
    + intros ([|x pre] & post & H).
      * left. by exists post.
      * right. exists pre, post. by injection H.
Qed.

End StringFacts.

Section StripFacts.

Lemma isspace_lower_char (c : ascii) :
  Py.isspace (Py.lower_char c) = Py.isspace c.
Proof. by destruct c as [[] [] [] [] [] [] [] []]. Qed.

Lemma lower_lstrip (s : string) :
  Py.lower (Py.lstrip_by Py.isspace s) = Py.lstrip_by Py.isspace (Py.lower s).
Proof.
  induction s as [|c s IH]; [reflexivity|].
  cbn [Py.lower Py.lstrip_by]. rewrite isspace_lower_char.
  by destruct (Py.isspace c).
Qed.

Lemma lower_rstrip (s : string) :
  Py.lower (Py.rstrip_by Py.isspace s) = Py.rstrip_by Py.isspace (Py.lower s).
Proof.
  induction s as [|c s IH]; [reflexivity|].
  cbn [Py.lower Py.rstrip_by]. rewrite <- IH, isspace_lower_char.
  destruct (Py.rstrip_by Py.isspace s); [by destruct (Py.isspace c) | reflexivity].
Qed.

Lemma lower_strip (s : string) :
  Py.lower (Py.strip s) = Py.strip (Py.lower s).
Proof. unfold Py.strip, Py.strip_by. by rewrite lower_rstrip, lower_lstrip. Qed.

Lemma lstrip_keeps (p : ascii -> bool) (pre : string) (a : ascii) (rest : string) :
  p a = false ->
  exists pre', Py.lstrip_by p (pre +:+ String a rest) = pre' +:+ String a rest.
Proof.
  intros Ha. induction pre as [|c pre [pre' IH]].
  - exists "". change (Py.lstrip_by p (String a rest) = String a rest).
    cbn [Py.lstrip_by]. by rewrite Ha.
  - change (String c pre +:+ String a rest)
      with (String c (pre +:+ String a rest)).
    cbn [Py.lstrip_by]. destruct (p c).
    + by exists pre'.
    + by exists (String c pre).
Qed.

Lemma rstrip_keeps (p : ascii -> bool) (m : string) (z : ascii) (post : string) :
  p z = false ->
  Py.rstrip_by p (m +:+ String z post) = m +:+ String z (Py.rstrip_by p post).
Proof.
  intros Hz. induction m as [|c m IH].
  - change (Py.rstrip_by p (String z post) = String z (Py.rstrip_by p post)).
    cbn [Py.rstrip_by]. rewrite Hz. by destruct (Py.rstrip_by p post).
  - change (String c m +:+ String z post)
      with (String c (m +:+ String z post)).
    cbn [Py.rstrip_by]. rewrite IH.
    by destruct m.
Qed.

(** A block that neither starts nor ends with a stripped character
    survives [strip]. *)
Lemma strip_keeps (p : ascii -> bool) (n h : string) (a z : ascii) (t m : string) :
  n = String a t -> n = m +:+ String z "" -> p a = false -> p z = false ->
  Spec.substring_of n h -> Spec.substring_of n (Py.strip_by p h).
Proof.
  intros -> Hn2 Ha Hz (pre & post & ->). unfold Py.strip_by.
  destruct (lstrip_keeps p pre a (t +:+ post) Ha) as [pre' Hl].
  change (String a t +:+ post) with (String a (t +:+ post)).
  rewrite Hl.
  change (String a (t +:+ post)) with (String a t +:+ post).
  exists pre', (Py.rstrip_by p post).
  rewrite Hn2, !(append_assoc m), <- !(append_assoc pre').
  change (String z "" +:+ post) with (String z post).
  change (String z "" +:+ Py.rstrip_by p post)
    with (String z (Py.rstrip_by p post)).
  by apply rstrip_keeps.
Qed.

Lemma substring_nonempty (n h : string) :
  Spec.substring_of n h -> n <> "" -> h <> "".
Proof. intros (pre & post & ->) Hn. destruct pre, n; done. Qed.

Lemma truthy_iff (s : string) : Py.truthy s = true <-> s <> "".
Proof. by destruct s. Qed.

Lemma strip_empty : Py.strip "" = "".
Proof. reflexivity. Qed.

Lemma mem_spec (s : string) (l : list string) :
  Py.mem s l = true <-> In s l.
Proof.
  unfold Py.mem. rewrite existsb_exists. split.
  - intros (x & Hx & Heq). apply String.eqb_eq in Heq. by subst.
  - intros H. exists s. split; [done | apply String.eqb_refl].
Qed.

End StripFacts.

Section GuestFacts.

Import NlpUtils Spec.

Lemma indicator_edges (ind : string) :
  In ind single_indicators ->
  exists a t m z, ind = String a t /\ ind = m +:+ String z ""
                  /\ Py.isspace a = false /\ Py.isspace z = false.
Proof.
  intros H. repeat (destruct H as [<- | H]); [..| destruct H].
  - by exists "m"%char, "e", "m", "e"%char.
  - by exists "m"%char, "yself", "mysel", "f"%char.
  - by exists "j"%char, "ust me", "just m", "e"%char.
  - by exists "o"%char, "ne person", "one perso", "n"%char.
  - by exists "s"%char, "olo", "sol", "o"%char.
  - by exists "a"%char, "lone", "alon", "e"%char.
Qed.

Lemma solo_check (text : string) :
  existsb (fun indicator => Py.contains indicator (Py.lower (Py.strip text)))
          single_indicators = true <-> solo text.
Proof.
  rewrite existsb_exists. unfold solo.
  split; intros (ind & Hin & H); exists ind; split; try done;
    by apply contains_spec.
Qed.

Lemma solo_not_blank (text : string) : solo text -> blank text = false.
Proof.
  intros (ind & Hin & Hsub).
  destruct (indicator_edges ind Hin) as (a & t & _ & _ & Hind & _).
  assert (Hne : Py.lower (Py.strip text) <> "").
  { apply (substring_nonempty ind); [done | by rewrite Hind]. }
  unfold blank. destruct text as [|c text]; [by destruct Hne|].
  cbn [Py.truthy negb orb].
  destruct (Py.strip (String c text)); [by destruct Hne | reflexivity].
Qed.

Lemma parse_guests_solo (text : string) :
  solo text -> parse_guests text = Some 1.
Proof.
  intros H. unfold parse_guests.
  rewrite (solo_not_blank text H).
  apply solo_check in H. cbv zeta. by rewrite H.
Qed.

Lemma solo_of_lowercased (text ind : string) :
  In ind single_indicators -> Spec.substring_of ind (Py.lower text) ->
  solo text.
Proof.
  intros Hin Hsub. exists ind. split; [done|].
  destruct (indicator_edges ind Hin) as (a & t & m & z & H1 & H2 & Ha & Hz).
  rewrite lower_strip. by apply (strip_keeps _ ind _ a z t m).
Qed.

End GuestFacts.

(** ** Dates *)

Section DateFacts.

Import DateTime.

Lemma days_before_month_nat_l (y : Z) (m : nat) :
  days_before_month_nat y m = dbm_l (is_leap y) m.
Proof. induction m as [|m IH]; [reflexivity|]. cbn [days_before_month_nat dbm_l]. by rewrite IH. Qed.

Lemma month_cases (m : Z) :
  1 <= m <= 12 ->
  m = 1 \/ m = 2 \/ m = 3 \/ m = 4 \/ m = 5 \/ m = 6 \/
  m = 7 \/ m = 8 \/ m = 9 \/ m = 10 \/ m = 11 \/ m = 12.
Proof. lia. Qed.

Lemma valid_inv (y m d : Z) :
  valid y m d = true ->
  1 <= y <= 9999 /\ 1 <= m <= 12 /\ 1 <= d <= dim_l (is_leap y) m.
Proof.
  unfold valid. change (days_in_month y m) with (dim_l (is_leap y) m).
  rewrite !andb_true_iff, !Z.leb_le. tauto.
Qed.

Ltac months m H :=
  destruct (month_cases m H) as [->|[->|[->|[->|[->|[->|[->|[->|[->|[->|[->| ->]]]]]]]]]]].

Ltac eval_dbm :=
  repeat match goal with
  | |- context [dbm_l ?b (Z.to_nat ?n)] =>
      let v := eval vm_compute in (dbm_l b (Z.to_nat n)) in
      change (dbm_l b (Z.to_nat n)) with v
  end.

Lemma day_of_year_bounds (y m d : Z) :
  valid y m d = true ->
  1 <= days_before_month y m + d <= year_length y.
Proof.
  intros (_ & Hm & Hd)%valid_inv. unfold days_before_month, year_length.
  rewrite days_before_month_nat_l.
  destruct (is_leap y); months m Hm; cbn in Hd; eval_dbm; lia.
Qed.

Lemma month_order (y m1 d1 m2 d2 : Z) :
  valid y m1 d1 = true -> valid y m2 d2 = true -> m1 < m2 ->
  days_before_month y m1 + d1 < days_before_month y m2 + d2.
Proof.
  intros (_ & Hm1 & Hd1)%valid_inv (_ & Hm2 & Hd2)%valid_inv Hlt.
  unfold days_before_month. rewrite !days_before_month_nat_l.
  destruct (is_leap y); months m1 Hm1; months m2 Hm2; try lia;
    cbn in Hd1, Hd2; eval_dbm; lia.
Qed.

Lemma days_before_year_succ (y : Z) :
  days_before_year (y + 1) = days_before_year y + year_length y.
Proof.
  unfold days_before_year, year_length, is_leap.
  replace (y + 1 - 1) with y by lia.
  destruct (y mod 4 =? 0) eqn:E4; destruct (y mod 100 =? 0) eqn:E100;
    destruct (y mod 400 =? 0) eqn:E400; cbn [andb orb negb];
    rewrite ?Z.eqb_eq, ?Z.eqb_neq in *; Z.div_mod_to_equations; lia.
Qed.

Lemma days_before_year_mono (y1 y2 : Z) :
  y1 <= y2 -> days_before_year y1 <= days_before_year y2.
Proof. unfold days_before_year. intros H. Z.div_mod_to_equations. lia. Qed.

Lemma year_order (a b : date) :
  valid (year a) (month a) (day a) = true ->
  valid (year b) (month b) (day b) = true ->
  year a < year b -> toordinal a < toordinal b.
Proof.
  intros Ha%day_of_year_bounds Hb%day_of_year_bounds Hlt. unfold toordinal.
  pose proof (days_before_year_succ (year a)).
  pose proof (days_before_year_mono (year a + 1) (year b)). lia.
Qed.

Lemma date_gt_ordinal (a b : date) :
  valid (year a) (month a) (day a) = true ->
  valid (year b) (month b) (day b) = true ->
  date_gt b a = true <-> toordinal a < toordinal b.
Proof.
  intros Ha Hb. unfold date_gt, date_cmp.
  destruct (Z.compare_spec (year b) (year a)) as [Hy|Hy|Hy].
  - destruct (Z.compare_spec (month b) (month a)) as [Hm|Hm|Hm].
    + unfold toordinal. rewrite Hy, Hm.
      destruct (Z.compare_spec (day b) (day a)); split; (done || lia).
    + rewrite Hy in Hb.
      pose proof (month_order _ _ _ _ _ Hb Ha Hm).
      unfold toordinal. rewrite Hy. split; (done || lia).
    + rewrite Hy in Hb.
      pose proof (month_order _ _ _ _ _ Ha Hb Hm).
      unfold toordinal. rewrite Hy. split; (done || lia).
  - pose proof (year_order b a Hb Ha Hy). split; (done || lia).
  - pose proof (year_order a b Ha Hb Hy). split; (done || lia).
Qed.

Lemma make_date_valid (y m d : Z) (a : date) :
  make_date y m d = Ok a -> valid (year a) (month a) (day a) = true.
Proof.
  unfold make_date. destruct (valid y m d) eqn:E; [|discriminate].
  intros [= <-]. exact E.
Qed.

Lemma strptime_valid (fmt : list item) (s : string) (a : date) :
  strptime fmt s = Ok a -> valid (year a) (month a) (day a) = true.
Proof.
  unfold strptime.
  destruct (List.head _) as [[g [|c rest]]|]; try discriminate.
  apply make_date_valid.
Qed.

Lemma strptime_raises (fmt : list item) (s : string) (e : exn) :
  strptime fmt s = Raise e -> e = ValueError.
Proof.
  unfold strptime, make_date.
  destruct (List.head _) as [[g [|c rest]]|]; try congruence.
  destruct (valid _ _ _); congruence.
Qed.

(** *** The canonical rendering of a date parses back to the date *)

Lemma renders_upto (w : nat) (bound n : Z) :
  forallb (fun k => Spec.renders w (Z.of_nat k)) (List.seq 1 (Z.to_nat bound)) = true ->
  1 <= n <= bound -> Spec.renders w n = true.
Proof.
  intros Hall Hn. rewrite forallb_forall in Hall.
  rewrite <- (Z2Nat.id n) by lia. apply Hall. apply in_seq. lia.
Qed.

Lemma renders_year (y : Z) : 1 <= y <= 9999 -> Spec.renders 4 y = true.
Proof. apply (renders_upto 4 9999). by vm_compute. Qed.

Lemma renders_day (d : Z) : 1 <= d <= 31 -> Spec.renders 2 d = true.
Proof. apply (renders_upto 2 31). by vm_compute. Qed.

Lemma digit_not_space (c : ascii) : Py.isdigit c = true -> Py.isspace c = false.
Proof. by destruct c as [[] [] [] [] [] [] [] []]. Qed.

Lemma rstrip_none (p q : ascii -> bool) (s : string) :
  (forall c, q c = true -> p c = false) ->
  Spec.all_chars q s = true -> Py.rstrip_by p s = s.
Proof.
  intros Hq. induction s as [|c s IH]; [done|].
  cbn [Spec.all_chars Py.rstrip_by]. intros [Hc Hs]%andb_true_iff.
  rewrite (IH Hs), (Hq c Hc). by destruct s.
Qed.

Lemma strip_digits (s : string) :
  Spec.all_chars Py.isdigit s = true -> Py.strip s = s.
Proof.
  intros H. unfold Py.strip, Py.strip_by.
  assert (Py.lstrip_by Py.isspace s = s) as ->.
  { destruct s as [|c s]; [done|]. cbn [Spec.all_chars] in H.
    apply andb_true_iff in H as [Hc _]. cbn [Py.lstrip_by].
    by rewrite (digit_not_space c Hc). }
  by apply (rstrip_none _ Py.isdigit), H; apply digit_not_space.
Qed.

Lemma renders_int (w : nat) (n : Z) :
  Spec.renders w n = true -> int_group (zfill w n) = n.
Proof.
  unfold Spec.renders, int_group. cbv zeta.
  intros [[_ Hd]%andb_true_iff Hn%Z.eqb_eq]%andb_true_iff.
  by rewrite (strip_digits _ Hd).
Qed.

Lemma matches_digit4 (c1 c2 c3 c4 : ascii) (rest : string) :
  Py.isdigit c1 = true -> Py.isdigit c2 = true ->
  Py.isdigit c3 = true -> Py.isdigit c4 = true ->
  Re.matches Re.digit4 (String c1 (String c2 (String c3 (String c4 rest))))
  = [(String c1 (String c2 (String c3 (String c4 ""))), rest)].
Proof.
  intros H1 H2 H3 H4. unfold Re.digit4, Re.digit. cbn [Re.matches].
  rewrite H1. cbn [flat_map fst snd List.map app]. rewrite H2.
  cbn [flat_map fst snd List.map app]. rewrite H3.
  cbn [flat_map fst snd List.map app]. rewrite H4. reflexivity.
Qed.

Lemma small_cases (bound n : Z) :
  1 <= n <= bound -> In n (List.map Z.of_nat (List.seq 1 (Z.to_nat bound))).
Proof.
  intros H. apply in_map_iff. exists (Z.to_nat n). split; [lia|].
  apply in_seq. lia.
Qed.

(** After the year, the month and the day of a canonical date are found
    as they stand. *)
Lemma month_day_groups (g : groups) (m d : Z) :
  1 <= m <= 12 -> 1 <= d <= 31 ->
  List.head (fmt_matches [Lit "-"; Dirm; Lit "-"; Dird]
                         ("-" +:+ zfill 2 m +:+ "-" +:+ zfill 2 d) g)
  = Some (mkgroups (gY g) (zfill 2 m) (zfill 2 d), "").
Proof.
  intros Hm%(small_cases 12) Hd%(small_cases 31). destruct g as [y gm0 gd0].
  vm_compute in Hm, Hd.
  repeat (destruct Hm as [<-|Hm]; [| ]); try (by destruct Hm);
    repeat (destruct Hd as [<-|Hd]; [by vm_compute| ]); by destruct Hd.
Qed.

Lemma fmt_matches_cons (it : item) (fmt : list item) (s : string) (g : groups) :
  fmt_matches (it :: fmt) s g
  = flat_map (fun m => fmt_matches fmt (snd m) (set_group it (fst m) g))
             (Re.matches (item_re it) s).
Proof. reflexivity. Qed.

Lemma strptime_strftime (a : date) :
  valid (year a) (month a) (day a) = true ->
  strptime fmt_Ymd (strftime_Ymd a) = Ok a.
Proof.
  intros Hv. pose proof Hv as (Hy & Hm & Hd)%valid_inv.
  assert (Hd' : 1 <= day a <= 31).
  { destruct (is_leap (year a)); unfold dim_l in Hd;
      repeat destruct (_ =? _); cbn in Hd; lia. }
  pose proof (renders_year _ Hy) as Ry.
  pose proof (renders_day (month a) ltac:(lia)) as Rm.
  pose proof (renders_day _ Hd') as Rd.
  pose proof (renders_int _ _ Ry) as Iy.
  pose proof (renders_int _ _ Rm) as Im.
  pose proof (renders_int _ _ Rd) as Id.
  unfold strptime, strftime_Ymd.
  unfold Spec.renders in Ry. cbv zeta in Ry.
  apply andb_true_iff in Ry as [[Hlen%Nat.eqb_eq Hdig]%andb_true_iff _].
  destruct (zfill 4 (year a)) as [|c1 [|c2 [|c3 [|c4 [|c5 r]]]]];
    try discriminate Hlen.
  cbn [Spec.all_chars] in Hdig.
  apply andb_true_iff in Hdig as [H1 Hdig].
  apply andb_true_iff in Hdig as [H2 Hdig].
  apply andb_true_iff in Hdig as [H3 Hdig].
  apply andb_true_iff in Hdig as [H4 _].
  change (String c1 (String c2 (String c3 (String c4 ""))) +:+ "-" +:+
          zfill 2 (month a) +:+ "-" +:+ zfill 2 (day a))
    with (String c1 (String c2 (String c3 (String c4
            ("-" +:+ zfill 2 (month a) +:+ "-" +:+ zfill 2 (day a)))))).
  unfold fmt_Ymd. rewrite fmt_matches_cons. cbn [item_re]. unfold re_Y.
  rewrite (matches_digit4 c1 c2 c3 c4 _ H1 H2 H3 H4).
  cbn [flat_map fst snd]. rewrite app_nil_r.
  rewrite (month_day_groups _ (month a) (day a)) by lia.
  cbn [gY gm gd set_group]. rewrite Iy, Im, Id.
  unfold make_date. rewrite Hv. by destruct a.
Qed.

(** C4.  [validate_date_order] never raises: on every pair of strings it
    returns a boolean.  The boolean is [true] exactly when both strings
    parse as calendar dates under the format [%Y-%m-%d] and the second
    date is strictly later than the first, the order of dates being that
    of their day counts; equal dates, reversed dates and strings that do
    not parse all give [false].  On the renderings YYYY-MM-DD of two
    calendar dates the answer is the comparison of the dates. *)
Theorem validate_date_order_spec (d1 d2 : string) :
  (exists b, NlpUtils.validate_date_order d1 d2 = Ok b /\
     (b = true <->
      exists a1 a2, strptime fmt_Ymd d1 = Ok a1 /\ strptime fmt_Ymd d2 = Ok a2
                    /\ toordinal a1 < toordinal a2))
  /\ (forall a1 a2,
         valid (year a1) (month a1) (day a1) = true ->
         valid (year a2) (month a2) (day a2) = true ->
         d1 = strftime_Ymd a1 -> d2 = strftime_Ymd a2 ->
         NlpUtils.validate_date_order d1 d2
         = Ok (toordinal a1 <? toordinal a2)).
Proof.
  unfold NlpUtils.validate_date_order. split.
  - destruct (strptime fmt_Ymd d1) as [a1|e1] eqn:E1.
    + destruct (strptime fmt_Ymd d2) as [a2|e2] eqn:E2.
      * exists (date_gt a2 a1). split; [reflexivity|].
        rewrite date_gt_ordinal by eauto using strptime_valid.
        split.
        -- intros H. by exists a1, a2.
        -- by intros (b1 & b2 & [= <-] & [= <-] & H).
      * apply strptime_raises in E2 as ->. exists false.
        split; [reflexivity|].
        split; [discriminate | by intros (b1 & b2 & _ & [=] & _)].
    + apply strptime_raises in E1 as ->. exists false. split; [reflexivity|].
      split; [discriminate | by intros (b1 & b2 & [=] & _)].
  - intros a1 a2 H1 H2 -> ->.
    rewrite !strptime_strftime by done. cbn [bind except_ValueError].
    f_equal. apply eq_true_iff_eq.
    by rewrite (date_gt_ordinal a1 a2 H1 H2), Z.ltb_lt.
Qed.

End DateFacts.

Section FirstSome.

Import NlpUtils Spec.
Context {A B : Type} (f : A -> option B) (P : A -> Prop).
Hypothesis f_defined : forall x, f x <> None <-> P x.



End FirstSome.

Section BlankFacts.

Import Spec.

Lemma rstrip_empty (p : ascii -> bool) (s : string) :
  Py.rstrip_by p s = "" -> all_chars p s = true.
Proof.
  induction s as [|c s IH]; [done|]. cbn [Py.rstrip_by all_chars].
  destruct (Py.rstrip_by p s); [|done].
  destruct (p c); [intros _; by apply IH | done].
Qed.

Lemma lstrip_head (p : ascii -> bool) (s : string) :
  match Py.lstrip_by p s with
  | EmptyString => all_chars p s = true
  | String c _ => p c = false
  end.
Proof.
  induction s as [|c s IH]; [done|]. cbn [Py.lstrip_by all_chars].
  destruct (p c) eqn:E; [|done].
  destruct (Py.lstrip_by p s); [by rewrite IH | done].
Qed.

Lemma strip_by_empty (p : ascii -> bool) (s : string) :
  Py.strip_by p s = "" -> all_chars p s = true.
Proof.
  unfold Py.strip_by. intros H%rstrip_empty.
  pose proof (lstrip_head p s) as Hl.
  destruct (Py.lstrip_by p s) as [|c r]; [done|].
  cbn [all_chars] in H. rewrite Hl in H. done.
Qed.



Lemma blank_cases (text : string) :
  NlpUtils.blank text = true -> Py.strip text = "".
Proof.
  unfold NlpUtils.blank. destruct text as [|c text]; [done|].
  cbn [Py.truthy negb orb]. by destruct (Py.strip (String c text)).
Qed.


Lemma blank_no_tokens (text : string) :
  NlpUtils.blank text = true -> Spec.tokens text = [].
Proof. intros H%blank_cases. unfold Spec.tokens. by rewrite H. Qed.

End BlankFacts.

Section GuestStrategies.

Import NlpUtils Spec.



Lemma dict_get_In (k : string) (v : Z) (d : list (string * Z)) :
  dict_get k d = Some v -> In (k, v) d.
Proof.
  unfold dict_get. induction d as [|[k' v'] d IH]; cbn [first_some fst snd]; [done|].
  destruct (String.eqb_spec k k') as [->|Hne].
  - intros [= ->]. by left.
  - intros H. right. by apply IH.
Qed.





Lemma ratio_ge_spec (a b : string) (t : Q) :
  Fuzz.ratio_ge a b t = true <-> similar t a b.
Proof. apply Qle_bool_iff. Qed.




Lemma parse_guests_unfold (text : string) :
  parse_guests text =
  if blank text then None
  else if existsb (fun indicator =>
                     Py.contains indicator (Py.lower (Py.strip text)))
                  single_indicators then Some 1
  else match first_some digits_in_range (Py.findall_digits text) with
       | Some num => Some num
       | None =>
           match first_some exact_word (tokens text) with
           | Some num => Some num
           | None => first_some fuzzy_word (tokens text)
           end
       end.
Proof. reflexivity. Qed.



End GuestStrategies.

Section YesNo.

Import NlpUtils Spec.

Lemma fuzzy_any_spec (t : Q) (ws : list string) (word : string) :
  fuzzy_any t ws word = true <-> resembles t ws word.
Proof.
  unfold fuzzy_any, resembles. rewrite existsb_exists.
  split; intros (w & Hin & H); exists w; split; try done;
    by apply ratio_ge_spec.
Qed.

Lemma count_tally (p : string -> bool) (l : list string) :
  count p l = tally p l.
Proof.
  unfold count. induction l as [|x l IH]; [reflexivity|].
  cbn [List.filter tally]. destruct (p x); cbn [List.length]; lia.
Qed.

Lemma yes_no_disjoint (t : string) : In t yes_words -> ~ In t no_words.
Proof.
  intros Hy Hn. apply mem_spec in Hy.
  repeat (destruct Hn as [<-|Hn]; [by vm_compute in Hy|]). destruct Hn.
Qed.

Lemma is_yes_unfold (text : string) :
  is_yes text =
  if blank text then None
  else if Py.mem (normal text) yes_words then Some true
  else if Py.mem (normal text) no_words then Some false
  else if fuzzy_any 80 yes_words (normal text) then Some true
  else if fuzzy_any 80 no_words (normal text) then Some false
  else if (no_votes text <? yes_votes text)%nat then Some true
  else if (yes_votes text <? no_votes text)%nat then Some false
  else None.
Proof.
  unfold is_yes, no_votes, yes_votes. by rewrite !count_tally.
Qed.

Lemma blank_normal (text : string) : blank text = true -> normal text = "".
Proof. intros H%blank_cases. unfold normal. by rewrite H. Qed.

Lemma false_iff_not (b : bool) (P : Prop) :
  (b = true <-> P) -> ~ P -> b = false.
Proof. intros H HP. apply not_true_is_false. by rewrite H. Qed.

(** C8.  [is_yes] works in phases.  Membership of the trimmed, lowercased
    text in the affirmative list gives [true] and in the negative list
    gives [false], before any similarity is computed.  Otherwise a
    similarity of at least 80 between the whole text and an affirmative
    word gives [true], and failing that, with a negative word, [false].
    Otherwise the tokens that resemble (similarity at least 70) an
    affirmative word are counted against those that resemble a negative
    word: [true] iff the affirmative count is strictly larger, [false]
    iff the negative count is strictly larger, absent iff they tie. *)
Theorem is_yes_phases (text : string) :
  (exact_yes text -> is_yes text = Some true) /\
  (exact_no text -> is_yes text = Some false) /\
  (~ exact_yes text -> ~ exact_no text -> whole_yes text ->
   is_yes text = Some true) /\
  (~ exact_yes text -> ~ exact_no text -> ~ whole_yes text -> whole_no text ->
   is_yes text = Some false) /\
  (~ exact_yes text -> ~ exact_no text -> ~ whole_yes text -> ~ whole_no text ->
   (is_yes text = Some true <-> (no_votes text < yes_votes text)%nat) /\
   (is_yes text = Some false <-> (yes_votes text < no_votes text)%nat) /\
   (is_yes text = None <-> yes_votes text = no_votes text)).
Proof.
  rewrite is_yes_unfold. unfold exact_yes, exact_no, whole_yes, whole_no.
  destruct (blank text) eqn:Hb.
  - pose proof (blank_no_tokens text Hb) as Htok.
    unfold yes_votes, no_votes. rewrite (blank_normal text Hb), Htok.
    split; [|split; [|split; [|split]]].
    + intros H. apply mem_spec in H. by vm_compute in H.
    + intros H. apply mem_spec in H. by vm_compute in H.
    + intros _ _ H. apply fuzzy_any_spec in H. by vm_compute in H.
    + intros _ _ _ H. apply fuzzy_any_spec in H. by vm_compute in H.
    + intros _ _ _ _. cbn [tally]. repeat split; (done || lia).
  - split; [|split; [|split; [|split]]].
    + intros H. apply mem_spec in H. by rewrite H.
    + intros H. pose proof H as Hy%mem_spec.
      rewrite (false_iff_not _ _ (mem_spec _ _) (fun Hin => yes_no_disjoint _ Hin H)).
      by rewrite Hy.
    + intros Hy Hn H.
      rewrite (false_iff_not _ _ (mem_spec _ _) Hy),
              (false_iff_not _ _ (mem_spec _ _) Hn).
      apply fuzzy_any_spec in H. by rewrite H.
    + intros Hy Hn Hwy H.
      rewrite (false_iff_not _ _ (mem_spec _ _) Hy),
              (false_iff_not _ _ (mem_spec _ _) Hn),
              (false_iff_not _ _ (fuzzy_any_spec _ _ _) Hwy).
      apply fuzzy_any_spec in H. by rewrite H.
    + intros Hy Hn Hwy Hwn.
      rewrite (false_iff_not _ _ (mem_spec _ _) Hy),
              (false_iff_not _ _ (mem_spec _ _) Hn),
              (false_iff_not _ _ (fuzzy_any_spec _ _ _) Hwy),
              (false_iff_not _ _ (fuzzy_any_spec _ _ _) Hwn).
      destruct (Nat.ltb_spec (no_votes text) (yes_votes text));
        destruct (Nat.ltb_spec (yes_votes text) (no_votes text));
        repeat split; (done || lia).
Qed.

End YesNo.

(** ** The booking sink *)

Section SinkFacts.

Import App Spec.

Lemma next_id_above (rows : list row) (seq : Z) (r : row) :
  In r rows -> row_id r < next_id rows seq.
Proof.
  unfold next_id. induction rows as [|x rows IH]; [done|].
  cbn [List.fold_right]. intros [->|Hin]; [lia|].
  specialize (IH Hin). lia.
Qed.

Lemma select_inserted (rows : list row) (new : row) :
  (forall r, In r rows -> row_id r < row_id new) ->
  select_by_id (rows ++ [new]) (row_id new) = Some new.
Proof.
  unfold select_by_id. induction rows as [|x rows IH]; intros Hlt.
  - cbn. by rewrite Z.eqb_refl.
  - cbn [app List.find].
    destruct (Z.eqb_spec (row_id x) (row_id new)) as [Heq|_].
    + specialize (Hlt x (or_introl eq_refl)). lia.
    + apply IH. intros r Hr. apply Hlt. by right.
Qed.

Lemma save_booking_ok (db : database) (sid : string) (d : gmap string value)
      (rows : list row) (vn vi vo vg : value) :
  bookings db = Some rows ->
  d !! "name" = Some vn -> d !! "checkin_date" = Some vi ->
  d !! "checkout_date" = Some vo -> d !! "guests" = Some vg ->
  let i := next_id rows (sequence db) in
  let new := row_of db sid d vn vi vo vg i in
  save_booking_to_db db sid d =
  (mkdb (Some (rows ++ [new])) i (current_timestamp db),
   Ok (Some (record_of new))).
Proof.
  intros Hrows Hn Hi Ho Hg i new. unfold save_booking_to_db, getitem.
  rewrite Hn, Hi, Ho, Hg. cbn [bind]. rewrite Hrows.
  fold i. fold (row_of db sid d vn vi vo vg i). fold new.
  pose proof (select_inserted rows new) as Hsel.
  change (row_id new) with i in Hsel. rewrite Hsel; [reflexivity|].
  intros r Hr. by apply next_id_above.
Qed.

Lemma save_booking_no_table (db : database) (sid : string)
      (d : gmap string value) (vn vi vo vg : value) :
  bookings db = None ->
  d !! "name" = Some vn -> d !! "checkin_date" = Some vi ->
  d !! "checkout_date" = Some vo -> d !! "guests" = Some vg ->
  save_booking_to_db db sid d = (db, Raise OperationalError).
Proof.
  intros Hrows Hn Hi Ho Hg. unfold save_booking_to_db, getitem.
  by rewrite Hn, Hi, Ho, Hg, Hrows.
Qed.

End SinkFacts.

(** ** The dialogue *)

Section DialogueFacts.

Import App Spec.

Variable nlp_persons : string -> list string.
Variable dateparser_parse : bool -> string -> result (option DateTime.date).

Local Abbreviation turn := (process_conversation_step nlp_persons dateparser_parse).

Lemma turn_confirm (db : database) (st : session) (msg : string) :
  step st = "confirm" ->
  turn db st msg =
  let response := Py.strip (Py.lower msg) in
  if Py.mem response affirmative then
    match save_booking_to_db db (default "" (session_id st)) (data st) with
    | (db', Raise e) => (db', st, Raise e)
    | (db', Ok booking_record) =>
        match booking_record with
        | None => (db', set_step st "complete", Raise (KeyError "id"))
        | Some r => (db', set_step st "complete",
                     Ok (mkresponse (confirmed (id r)) true (Some r)))
        end
    end
  else if Py.mem response negative then
    (db, set_data (set_step st "name") ∅,
     Ok (say "Booking cancelled. Let's start over! What's your name?"))
  else (db, st, Ok (say reprompt_confirm)).
Proof. destruct st as [s d sid c]. cbn [step]. by intros ->. Qed.

Lemma affirmative_not_negative (r : string) :
  In r negative -> Py.mem r affirmative = false.
Proof. intros H. repeat (destruct H as [<-|H]; [done|]). destruct H. Qed.

Lemma confirmed_names_id (i : Z) : substring_of (Py.str i) (confirmed i).
Proof.
  exists (party +:+ " Booking confirmed! Your reservation ID is #"),
         ". Thank you for choosing our hotel!".
  unfold confirmed. by rewrite append_assoc.
Qed.

Lemma reprompt_order_names (ci : string) : substring_of ci (reprompt_order ci).
Proof. by eexists _, _. Qed.

Lemma turn_affirmative (db : database) (st : session) (msg : string)
      (rows : list row) (vn vi vo vg : value) :
  step st = "confirm" ->
  In (Py.strip (Py.lower msg)) affirmative ->
  bookings db = Some rows ->
  data st !! "name" = Some vn -> data st !! "checkin_date" = Some vi ->
  data st !! "checkout_date" = Some vo -> data st !! "guests" = Some vg ->
  let new := row_of db (default "" (session_id st)) (data st) vn vi vo vg
                    (next_id rows (sequence db)) in
  turn db st msg =
  (mkdb (Some (rows ++ [new])) (row_id new) (current_timestamp db),
   set_step st "complete",
   Ok (mkresponse (confirmed (row_id new)) true (Some (record_of new)))).
Proof.
  intros Hstep Haff Hrows Hn Hi Ho Hg new.
  rewrite (turn_confirm db st msg Hstep). cbv zeta.
  apply mem_spec in Haff. rewrite Haff.
  by rewrite (save_booking_ok db _ _ rows vn vi vo vg Hrows Hn Hi Ho Hg).
Qed.

(** C1.  In the [confirm] state a turn is read, after lowercasing and
    trimming, as one of three intents.  A message in the affirmative list
    hands the accumulated data to [save_booking_to_db]; when that returns
    a record the step becomes [complete], the data stay, and the reply
    holds the record's identifier, with [complete] true and the record as
    [booking]; on a database that has the table and data that hold the
    four mandatory fields it does return, the row it inserts carries the
    accumulated values and a fresh identifier.  A message in the negative
    list resets the step to [name] and empties the data.  Any other
    message leaves the session as it is and asks again, with [complete]
    false. *)
Theorem confirm_intents (db : database) (st : session) (msg : string) :
  step st = "confirm" ->
  let response := Py.strip (Py.lower msg) in
  (In response affirmative ->
   (forall db1 r,
       save_booking_to_db db (default "" (session_id st)) (data st)
       = (db1, Ok (Some r)) ->
       turn db st msg =
       (db1, mksession "complete" (data st) (session_id st) (created_at st),
        Ok (mkresponse (confirmed (id r)) true (Some r)))
       /\ substring_of (Py.str (id r)) (confirmed (id r)))
   /\ (forall rows vn vi vo vg,
          bookings db = Some rows ->
          data st !! "name" = Some vn ->
          data st !! "checkin_date" = Some vi ->
          data st !! "checkout_date" = Some vo ->
          data st !! "guests" = Some vg ->
          exists new,
            new = row_of db (default "" (session_id st)) (data st)
                         vn vi vo vg (next_id rows (sequence db))
            /\ (forall old, In old rows -> row_id old < row_id new)
            /\ save_booking_to_db db (default "" (session_id st)) (data st)
               = (mkdb (Some (rows ++ [new])) (row_id new)
                       (current_timestamp db),
                  Ok (Some (record_of new)))))
  /\ (In response negative ->
      turn db st msg =
      (db, mksession "name" ∅ (session_id st) (created_at st),
       Ok (say "Booking cancelled. Let's start over! What's your name?")))
  /\ (~ In response affirmative -> ~ In response negative ->
      turn db st msg = (db, st, Ok (say reprompt_confirm))).
Proof.
  intros Hstep response. split; [|split].
  - intros Haff%mem_spec. split.
    + intros db1 r Hsave. split; [|apply confirmed_names_id].
      rewrite (turn_confirm db st msg Hstep). fold response. cbv zeta.
      by rewrite Haff, Hsave.
    + intros rows vn vi vo vg Hrows Hn Hi Ho Hg.
      eexists. split; [reflexivity|]. split.
      * intros old Hold. by apply next_id_above.
      * by apply save_booking_ok.
  - rewrite (turn_confirm db st msg Hstep). fold response. cbv zeta.
    intros Hneg. rewrite (affirmative_not_negative _ Hneg).
    apply mem_spec in Hneg. by rewrite Hneg.
  - rewrite (turn_confirm db st msg Hstep). fold response. cbv zeta.
    intros Haff Hneg.
    by rewrite (false_iff_not _ _ (mem_spec _ _) Haff),
               (false_iff_not _ _ (mem_spec _ _) Hneg).
Qed.

(** C3.  When [save_booking_to_db] raises while an affirmative message is
    handled in the [confirm] state, the turn raises the same exception
    and the session is exactly what it was: step [confirm], data intact.
    The same message on the untouched session completes the booking as
    soon as the database has the table, no field being asked again. *)
Theorem sink_failure_keeps_session
        (db db1 : database) (st : session) (msg : string) (e : exn) :
  step st = "confirm" ->
  In (Py.strip (Py.lower msg)) affirmative ->
  save_booking_to_db db (default "" (session_id st)) (data st)
  = (db1, Raise e) ->
  turn db st msg = (db1, st, Raise e)
  /\ forall db2 rows vn vi vo vg,
      bookings db2 = Some rows ->
      data st !! "name" = Some vn -> data st !! "checkin_date" = Some vi ->
      data st !! "checkout_date" = Some vo -> data st !! "guests" = Some vg ->
      exists db3 r,
        turn db2 st msg
        = (db3, set_step st "complete",
           Ok (mkresponse (confirmed (id r)) true (Some r))).
Proof.
  intros Hstep Haff Hsave. split.
  - rewrite (turn_confirm db st msg Hstep). cbv zeta.
    apply mem_spec in Haff. by rewrite Haff, Hsave.
  - intros db2 rows vn vi vo vg Hrows Hn Hi Ho Hg.
    rewrite (turn_affirmative db2 st msg rows vn vi vo vg) by done.
    by eexists _, (record_of _).
Qed.

End DialogueFacts.

Section ExtractionFailure.

Import App Spec.

Variable nlp_persons : string -> list string.
Variable dateparser_parse : bool -> string -> result (option DateTime.date).

Local Abbreviation turn :=
  (process_conversation_step nlp_persons dateparser_parse).

Lemma truthy_append_r (a b : string) :
  Py.truthy b = true -> Py.truthy (a +:+ b) = true.
Proof. destruct a; [done|]. reflexivity. Qed.

Lemma strftime_truthy (a : DateTime.date) :
  Py.truthy (DateTime.strftime_Ymd a) = true.
Proof. unfold DateTime.strftime_Ymd. by apply truthy_append_r. Qed.

Lemma try_patterns_truthy (ps : list (Re.re * list DateTime.item))
      (text s : string) :
  NlpUtils.try_patterns ps text = Ok (Some s) -> Py.truthy s = true.
Proof.
  induction ps as [|[pattern fmt] ps IH]; cbn [NlpUtils.try_patterns]; [done|].
  destruct (Re.search pattern text) as [group|]; [|done].
  destruct (DateTime.strptime fmt group) as [d|e] eqn:E; cbn [bind except_ValueError].
  - intros [= <-]. apply strftime_truthy.
  - apply strptime_raises in E as ->. done.
Qed.

Lemma parse_date_truthy (text s : string) (prefer_future : bool) :
  NlpUtils.parse_date dateparser_parse text prefer_future = Some s ->
  Py.truthy s = true.
Proof.
  unfold NlpUtils.parse_date. destruct (NlpUtils.blank text); [done|].
  destruct (dateparser_parse _ _) as [[d|]|e]; cbn [bind except_Exception].
  - intros [= <-]. apply strftime_truthy.
  - destruct (NlpUtils.try_patterns _ _) as [[r|]|e] eqn:E; try done.
    cbn [except_Exception]. intros [= <-]. by apply try_patterns_truthy in E.
  - done.
Qed.

(** C2.  In each of the states [name], [checkin], [checkout], [guests]
    and [breakfast], a turn whose extractor returns nothing leaves the
    database and the session (step and data) as they were and returns the
    state's re-prompt.  In [checkout] the same holds when the date parses
    and [validate_date_order] rejects it against the stored check-in
    date; the re-prompt then names that date.  The pair 2024-01-20,
    2024-01-18 is rejected. *)
Theorem extraction_failure_changes_nothing
        (db : database) (st : session) (msg : string) :
  (step st = "name" -> NlpUtils.extract_name nlp_persons msg = None ->
   turn db st msg = (db, st, Ok (say reprompt_name)))
  /\ (step st = "checkin" ->
      NlpUtils.parse_date dateparser_parse msg true = None ->
      turn db st msg = (db, st, Ok (say reprompt_checkin)))
  /\ (step st = "checkout" ->
      NlpUtils.parse_date dateparser_parse msg true = None ->
      turn db st msg = (db, st, Ok (say reprompt_checkout)))
  /\ (step st = "checkout" ->
      forall checkout_date checkin_date,
        NlpUtils.parse_date dateparser_parse msg true = Some checkout_date ->
        data st !! "checkin_date" = Some (VStr checkin_date) ->
        NlpUtils.validate_date_order checkin_date checkout_date = Ok false ->
        turn db st msg = (db, st, Ok (say (reprompt_order checkin_date)))
        /\ substring_of checkin_date (reprompt_order checkin_date))
  /\ (step st = "guests" -> NlpUtils.parse_guests msg = None ->
      turn db st msg = (db, st, Ok (say reprompt_guests)))
  /\ (step st = "breakfast" -> NlpUtils.is_yes msg = None ->
      turn db st msg = (db, st, Ok (say reprompt_breakfast)))
  /\ NlpUtils.validate_date_order "2024-01-20" "2024-01-18" = Ok false.
Proof.
  destruct st as [s d sid c]. cbn [step data].
  split; [|split; [|split; [|split; [|split; [|split]]]]].
  - intros -> H. unfold process_conversation_step. cbn [step]. by rewrite H.
  - intros -> H. unfold process_conversation_step. cbn [step]. by rewrite H.
  - intros -> H. unfold process_conversation_step. cbn [step]. by rewrite H.
  - intros -> co ci Hco Hci Hval. split; [|apply reprompt_order_names].
    unfold process_conversation_step.
    cbn [step data String.eqb Ascii.eqb Bool.eqb].
    rewrite Hco, (parse_date_truthy _ _ _ Hco).
    unfold getitem. rewrite Hci. cbn [bind as_str]. by rewrite Hval.
  - intros -> H. unfold process_conversation_step. cbn [step]. by rewrite H.
  - intros -> H. unfold process_conversation_step. cbn [step]. by rewrite H.
  - reflexivity.
Qed.

End ExtractionFailure.

Section Payment.

Import App Spec.

Lemma Qlt_bool_spec (x y : Q) : Fuzz.Qlt_bool x y = true <-> (x < y)%Q.
Proof.
  unfold Fuzz.Qlt_bool. rewrite negb_true_iff. split.
  - intros H. apply Qnot_le_lt. intros Hle%Qle_bool_iff. congruence.
  - intros H. apply not_true_is_false. intros Hle%Qle_bool_iff.
    by apply Qlt_not_le in H.
Qed.

Lemma better_cases (pm : string) (b : option string) (s : Q) (m : string) :
  (better pm (b, s) m = (Some m, Fuzz.ratio pm m)
   /\ (s < Fuzz.ratio pm m)%Q /\ (60 < Fuzz.ratio pm m)%Q)
  \/ (better pm (b, s) m = (b, s)
      /\ ((Fuzz.ratio pm m <= s)%Q \/ (Fuzz.ratio pm m <= 60)%Q)).
Proof.
  unfold better. cbn [snd].
  destruct (Fuzz.Qlt_bool s _) eqn:E1; destruct (Fuzz.Qlt_bool 60 _) eqn:E2;
    cbn [andb].
  - left. by rewrite <- !Qlt_bool_spec.
  - right. split; [done|]. right. apply Qnot_lt_le.
    intros H%Qlt_bool_spec. congruence.
  - right. split; [done|]. left. apply Qnot_lt_le.
    intros H%Qlt_bool_spec. congruence.
  - right. split; [done|]. left. apply Qnot_lt_le.
    intros H%Qlt_bool_spec. congruence.
Qed.

Lemma best_fold (pm : string) (l : list string) (b : option string) (s : Q) :
  let r := List.fold_left (better pm) l (b, s) in
  (s <= snd r)%Q
  /\ (forall m, In m l ->
                (Fuzz.ratio pm m <= snd r)%Q \/ (Fuzz.ratio pm m <= 60)%Q)
  /\ (r = (b, s)
      \/ exists m, In m l /\ r = (Some m, Fuzz.ratio pm m)
                   /\ (60 < Fuzz.ratio pm m)%Q).
Proof.
  revert b s. induction l as [|x l IH]; intros b s; cbn [List.fold_left].
  - cbv zeta. cbn [snd]. split; [apply Qle_refl|]. split; [done | by left].
  - cbv zeta.
    destruct (better_cases pm b s x) as [(-> & Hs & H60)|(-> & Hx)].
    + destruct (IH (Some x) (Fuzz.ratio pm x)) as (Hle & Hall & Hr).
      split; [|split].
      * eapply Qle_trans; [apply Qlt_le_weak, Hs | exact Hle].
      * intros m [<-|Hin]; [by left | by apply Hall].
      * right. destruct Hr as [->|(m & Hin & -> & Hm)].
        -- exists x. split; [by left | done].
        -- exists m. split; [by right | done].
    + destruct (IH b s) as (Hle & Hall & Hr).
      split; [done|]. split.
      * intros m [<-|Hin]; [|by apply Hall].
        destruct Hx as [Hx|Hx]; [left | by right].
        eapply Qle_trans; [exact Hx | exact Hle].
      * destruct Hr as [->|(m & Hin & -> & Hm)]; [by left|].
        right. exists m. split; [by right | done].
Qed.

Lemma best_match_some (pm : string) :
  (exists m, In m valid_methods /\ (60 < Fuzz.ratio pm m)%Q) ->
  exists best, best_match pm = Some best /\ In best valid_methods
               /\ (60 < Fuzz.ratio pm best)%Q
               /\ forall m, In m valid_methods ->
                            (Fuzz.ratio pm m <= Fuzz.ratio pm best)%Q.
Proof.
  intros (m0 & Hin0 & H0). unfold best_match.
  destruct (best_fold pm valid_methods None 0%Q) as (_ & Hall & Hr).
  cbv zeta in *. destruct Hr as [Hr|(best & Hin & Hr & Hbest)].
  - rewrite Hr in Hall. cbn [snd] in Hall.
    destruct (Hall m0 Hin0) as [H|H].
    + exfalso. apply (Qlt_not_le _ _ H0). eapply Qle_trans; [exact H | done].
    + exfalso. by apply (Qlt_not_le _ _ H0).
  - rewrite Hr in *. cbn [fst snd] in *. exists best.
    repeat split; try done. intros m Hm.
    destruct (Hall m Hm) as [H|H]; [done|].
    eapply Qle_trans; [exact H | by apply Qlt_le_weak].
Qed.

Lemma best_match_none (pm : string) :
  (forall m, In m valid_methods -> (Fuzz.ratio pm m <= 60)%Q) ->
  best_match pm = None.
Proof.
  intros Hall. unfold best_match.
  destruct (best_fold pm valid_methods None 0%Q) as (_ & _ & Hr).
  cbv zeta in *. destruct Hr as [->|(best & Hin & _ & Hbest)]; [done|].
  exfalso. apply (Qlt_not_le _ _ Hbest). by apply Hall.
Qed.

Lemma valid_methods_truthy (m : string) :
  In m valid_methods -> Py.truthy m = true.
Proof. intros H. repeat (destruct H as [<-|H]; [done|]). destruct H. Qed.

Variable nlp_persons : string -> list string.
Variable dateparser_parse : bool -> string -> result (option DateTime.date).

Local Abbreviation turn :=
  (process_conversation_step nlp_persons dateparser_parse).

Lemma turn_payment (db : database) (st : session) (msg : string) :
  step st = "payment" ->
  turn db st msg =
  let st' := mksession "confirm"
               (<["payment_method" := VStr (payment_value (normal msg))]>
                  (data st))
               (session_id st) (created_at st) in
  match summary (data st') with
  | Raise e => (db, st', Raise e)
  | Ok text => (db, st', Ok (say (Py.strip text)))
  end.
Proof. destruct st as [s d sid c]. cbn [step]. by intros ->. Qed.

(** C7.  The payment step always stores a payment method and moves to
    [confirm].  For the trimmed, lowercased input [pm]: a skip token
    stores [Not specified]; otherwise, if some canonical method scores
    above 60, the stored value is the title-cased method of maximal score
    (above 60); otherwise it is the title-cased [pm].  With the four
    mandatory fields present the turn returns the summary.  The inputs
    [crdit card] and [bitcoin] store [Credit Card] and [Bitcoin]. *)
Theorem payment_step_total (db : database) (st : session) (msg : string) :
  step st = "payment" ->
  let pm := normal msg in
  exists r,
    turn db st msg =
    (db,
     mksession "confirm"
               (<["payment_method" := VStr (payment_value pm)]> (data st))
               (session_id st) (created_at st),
     r)
    /\ (In pm skip_tokens -> payment_value pm = "Not specified")
    /\ (~ In pm skip_tokens ->
        (exists m, In m valid_methods /\ (60 < Fuzz.ratio pm m)%Q) ->
        exists best,
          In best valid_methods /\ (60 < Fuzz.ratio pm best)%Q
          /\ (forall m, In m valid_methods ->
                        (Fuzz.ratio pm m <= Fuzz.ratio pm best)%Q)
          /\ payment_value pm = Py.title best)
    /\ (~ In pm skip_tokens ->
        (forall m, In m valid_methods -> (Fuzz.ratio pm m <= 60)%Q) ->
        payment_value pm = Py.title pm)
    /\ (is_Some (data st !! "name") -> is_Some (data st !! "checkin_date") ->
        is_Some (data st !! "checkout_date") ->
        is_Some (data st !! "guests") ->
        exists text, r = Ok (say text))
    /\ payment_value (normal "crdit card") = "Credit Card"
    /\ payment_value (normal "bitcoin") = "Bitcoin".
Proof.
  intros Hstep pm. rewrite (turn_payment db st msg Hstep). fold pm.
  cbv zeta. cbn [data].
  set (d' := <["payment_method" := VStr (payment_value pm)]> (data st)).
  exists (match summary d' with
          | Raise e => Raise e
          | Ok text => Ok (say (Py.strip text))
          end).
  split; [by destruct (summary d')|].
  split; [|split; [|split; [|split; [|split]]]].
  - intros H%mem_spec. unfold payment_value. by rewrite H.
  - intros Hskip Hex.
    destruct (best_match_some pm Hex) as (best & Hbest & Hin & H60 & Hmax).
    exists best. repeat split; try done.
    unfold payment_value.
    rewrite (false_iff_not _ _ (mem_spec _ _) Hskip), Hbest.
    by rewrite (valid_methods_truthy best Hin).
  - intros Hskip Hall. unfold payment_value.
    by rewrite (false_iff_not _ _ (mem_spec _ _) Hskip),
               (best_match_none pm Hall).
  - intros [vn Hn] [vi Hi] [vo Ho] [vg Hg]. unfold summary, getitem, d'.
    rewrite !lookup_insert_ne by done. rewrite Hn, Hi, Ho, Hg.
    cbn [bind]. by eexists.
  - by vm_compute.
  - by vm_compute.
Qed.

End Payment.

Section Reach.

Import App Spec.

Variable nlp_persons : string -> list string.
Variable dateparser_parse : bool -> string -> result (option DateTime.date).

Local Abbreviation turn :=
  (process_conversation_step nlp_persons dateparser_parse).

Local Abbreviation after := (Spec.after nlp_persons dateparser_parse).
Local Abbreviation reachable :=
  (Spec.reachable nlp_persons dateparser_parse).

Lemma turn_moves (db : database) (st : session) (msg : string) :
  moves st (after db st msg).
Proof.
  unfold after, process_conversation_step.
  destruct (String.eqb_spec (step st) "name") as [E|_].
  { destruct (NlpUtils.extract_name _ _) as [name|]; [|constructor].
    destruct (Py.truthy name); [|constructor].
    by apply (move_store st 0 "name" "checkin"); rewrite ?E. }
  destruct (String.eqb_spec (step st) "checkin") as [E|_].
  { destruct (NlpUtils.parse_date _ _ _) as [d|]; [|constructor].
    destruct (Py.truthy d); [|constructor].
    by apply (move_store st 1 "checkin_date" "checkout"); rewrite ?E. }
  destruct (String.eqb_spec (step st) "checkout") as [E|_].
  { destruct (NlpUtils.parse_date _ _ _) as [d|]; [|constructor].
    destruct (Py.truthy d); [|constructor].
    destruct (bind _ _) as [[v []]|e]; try constructor.
    by apply (move_store st 2 "checkout_date" "guests"); rewrite ?E. }
  destruct (String.eqb_spec (step st) "guests") as [E|_].
  { destruct (NlpUtils.parse_guests _) as [n|]; [|constructor].
    destruct (negb _); [|constructor].
    by apply (move_store st 3 "guests" "breakfast"); rewrite ?E. }
  destruct (String.eqb_spec (step st) "breakfast") as [E|_].
  { destruct (NlpUtils.is_yes _) as [b|]; [|constructor].
    by apply (move_store st 4 "breakfast" "payment"); rewrite ?E. }
  destruct (String.eqb_spec (step st) "payment") as [E|_].
  { destruct (summary _);
      by apply (move_store st 5 "payment_method" "confirm"); rewrite ?E. }
  destruct (String.eqb_spec (step st) "confirm") as [E|_].
  { destruct (Py.mem _ affirmative).
    - destruct (save_booking_to_db _ _ _) as [db' [[r|]|e]];
        cbn [fst snd]; by constructor.
    - destruct (Py.mem _ negative); constructor. }
  constructor.
Qed.

Lemma fields_nodup : NoDup fields.
Proof. apply (bool_decide_unpack (NoDup fields)). by vm_compute. Qed.

Lemma step_field (k : nat) (s key : string) :
  steps !! k = Some s -> fields !! k = Some key -> key ∉ take k fields.
Proof.
  intros _ Hkey Hin. apply list_elem_of_lookup in Hin as [i Hi].
  apply lookup_take_Some in Hi as [Hi Hlt].
  pose proof (NoDup_lookup _ _ _ _ fields_nodup Hi Hkey). lia.
Qed.

Lemma moves_in_order (st st' : session) :
  in_order st -> moves st st' -> in_order st'.
Proof.
  intros (k & Hk & Hdom) Hmove. destruct Hmove as [|k' key next v Hk' Hkey Hnext| |].
  - by exists k.
  - assert (k' = k) as ->.
    { apply (NoDup_lookup steps _ _ (step st)); try done.
      apply (bool_decide_unpack (NoDup steps)). by vm_compute. }
    exists (S k). split; [done|]. cbn [data store set_step set_data].
    rewrite dom_insert_L, Hdom.
    rewrite (take_S_r _ _ _ Hkey), list_to_set_app_L.
    cbn [list_to_set]. rewrite (right_id_L ∅ (∪)). apply (comm_L (∪)).
  - exists 7%nat. split; [done|]. cbn [data set_step].
    rewrite Hdom. rewrite H in Hk.
    assert (k = 6)%nat as ->; [|done].
    do 8 (destruct k as [|k]; try done).
  - exists 0%nat. split; [done|]. cbn. set_solver.
Qed.

Lemma reachable_in_order (st : session) : reachable st -> in_order st.
Proof.
  induction 1 as [sid now | db st msg _ IH].
  - exists 0%nat. split; [done|]. cbn. set_solver.
  - eapply moves_in_order; [exact IH | apply turn_moves].
Qed.

(** C9.  In every session reachable from a fresh one, a field of [data]
    is present only if every field of an earlier step is present; and a
    turn either keeps every field with its value or empties the data and
    resets the step to [name]. *)
Theorem fields_follow_step_order (st : session) :
  reachable st ->
  (forall i j f g,
      fields !! i = Some f -> fields !! j = Some g -> (i < j)%nat ->
      is_Some (data st !! g) -> is_Some (data st !! f))
  /\ (forall db msg,
         data st ⊆ data (after db st msg)
         \/ (data (after db st msg) = ∅ /\ step (after db st msg) = "name")).
Proof.
  intros (k & Hk & Hdom)%reachable_in_order. split.
  - intros i j f g Hf Hg Hlt Hpresent.
    apply elem_of_dom in Hpresent. apply elem_of_dom.
    rewrite Hdom in *. apply elem_of_list_to_set in Hpresent.
    apply elem_of_list_to_set.
    apply list_elem_of_lookup in Hpresent as [j' Hj'].
    apply lookup_take_Some in Hj' as [Hj' Hjk].
    pose proof (NoDup_lookup _ _ _ _ fields_nodup Hj' Hg) as ->.
    apply list_elem_of_lookup. exists i.
    apply lookup_take_Some. split; [done | lia].
  - intros db msg.
    destruct (turn_moves db st msg) as [|k' key next v Hk' Hkey Hnext| |].
    + by left.
    + left. cbn [data store set_step set_data]. apply insert_subseteq.
      apply not_elem_of_dom. rewrite Hdom.
      assert (k' = k) as ->.
      { apply (NoDup_lookup steps _ _ (step st)); try done.
        apply (bool_decide_unpack (NoDup steps)). by vm_compute. }
      rewrite elem_of_list_to_set. by eapply step_field.
    + by left.
    + by right.
Qed.

End Reach.

(** ** Scenarios *)

Section Scenarios.

Import NlpUtils App Spec Sample.

(** C10.  The solo check is a substring test on the lowercased input:
    whenever the lowercased input holds one of the indicators anywhere,
    inside a longer word included, [parse_guests] returns 1, whatever
    digits the input holds. *)
Theorem solo_substring_wins (text ind : string) :
  In ind single_indicators -> substring_of ind (Py.lower text) ->
  parse_guests text = Some 1.
Proof.
  intros Hin Hsub. apply parse_guests_solo.
  by apply (solo_of_lowercased text ind).
Qed.

Lemma solo_substring_wins_witness :
  In "me" single_indicators
  /\ substring_of "me" (Py.lower "We are 4 members")
  /\ Py.findall_digits "We are 4 members" = ["4"]
  /\ parse_guests "We are 4 members" = Some 1.
Proof.
  assert (H1 : In "me" single_indicators) by (left; reflexivity).
  assert (H2 : substring_of "me" (Py.lower "We are 4 members"))
    by (exists "we are 4 ", "mbers"; reflexivity).
  split; [exact H1|]. split; [exact H2|]. split; [reflexivity|].
  exact (solo_substring_wins "We are 4 members" "me" H1 H2).
Defined.

(** C6, as the specification states it, fails: the text [a dozen] does
    not yield absent. *)
Lemma a_dozen_is_not_absent :
  ~ (parse_guests "just me" = Some 1 /\ parse_guests "a dozen" = None).
Proof. intros [_ H]. vm_compute in H. discriminate H. Qed.

(** C6, amended.  [just me] yields 1; [a dozen] yields 1 as well, its
    first token being the table word [a]; the bare [dozen] yields
    absent. *)
Theorem scenario_d_amended :
  parse_guests "just me" = Some 1
  /\ parse_guests "a dozen" = Some 1
  /\ exact_hit "a dozen" 1
  /\ parse_guests "dozen" = None.
Proof.
  split; [reflexivity|]. split; [reflexivity|]. split; [|reflexivity].
  exists "a". split.
  - exists [], ["dozen"]. split; [reflexivity|]. split; [constructor|].
    exists 1. vm_compute. tauto.
  - vm_compute. tauto.
Qed.

Lemma validate_date_order_examples :
  validate_date_order "2024-01-20" "2024-01-21" = Ok true
  /\ validate_date_order "2024-01-20" "2024-01-20" = Ok false
  /\ validate_date_order "2024-01-20" "2024-01-18" = Ok false
  /\ validate_date_order "2024-02-30" "2024-03-01" = Ok false
  /\ validate_date_order "soon" "2024-03-01" = Ok false
  /\ validate_date_order "2024-1-5" "2024-1-6" = Ok true.
Proof. repeat split. Qed.


Lemma is_yes_phases_witness :
  exact_no "  NO " /\ is_yes "  NO " = Some false.
Proof.
  assert (H : exact_no "  NO ") by (vm_compute; tauto).
  split; [exact H|].
  exact (proj1 (proj2 (is_yes_phases "  NO ")) H).
Defined.

Lemma confirm_intents_witness :
  step (at_step "confirm" collected) = "confirm"
  /\ In (Py.strip (Py.lower " Confirm ")) affirmative
  /\ exists r,
      id r = 1
      /\ process_conversation_step no_entities no_dateparser empty_db
           (at_step "confirm" collected) " Confirm "
         = (mkdb (Some [row_of empty_db "s-1" collected (VStr "Alice")
                               (VStr "2024-01-20") (VStr "2024-01-22")
                               (VInt 2) 1])
                 1 "2024-01-15 10:00:00",
            at_step "complete" collected,
            Ok (mkresponse (confirmed 1) true (Some r))).
Proof.
  assert (H1 : step (at_step "confirm" collected) = "confirm")
    by reflexivity.
  assert (H2 : In (Py.strip (Py.lower " Confirm ")) affirmative)
    by (left; reflexivity).
  split; [exact H1|]. split; [exact H2|].
  destruct (confirm_intents no_entities no_dateparser empty_db
              (at_step "confirm" collected) " Confirm " H1)
    as [Haff _].
  destruct (Haff H2) as [Hany Hrows].
  destruct (Hrows [] (VStr "Alice") (VStr "2024-01-20") (VStr "2024-01-22")
                  (VInt 2) eq_refl eq_refl eq_refl eq_refl eq_refl)
    as (new & -> & _ & Hsave).
  destruct (Hany _ _ Hsave) as [Hturn _].
  eexists. split; [|exact Hturn]. reflexivity.
Defined.

Lemma sink_failure_keeps_session_witness :
  step (at_step "confirm" collected) = "confirm"
  /\ In (Py.strip (Py.lower "yes")) affirmative
  /\ save_booking_to_db no_table "s-1" collected
     = (no_table, Raise OperationalError)
  /\ process_conversation_step no_entities no_dateparser no_table
       (at_step "confirm" collected) "yes"
     = (no_table, at_step "confirm" collected, Raise OperationalError).
Proof.
  assert (H1 : step (at_step "confirm" collected) = "confirm")
    by reflexivity.
  assert (H2 : In (Py.strip (Py.lower "yes")) affirmative)
    by (right; left; reflexivity).
  assert (H3 : save_booking_to_db no_table
                 (default "" (session_id (at_step "confirm" collected)))
                 (data (at_step "confirm" collected))
               = (no_table, Raise OperationalError)) by reflexivity.
  split; [exact H1|]. split; [exact H2|]. split; [exact H3|].
  exact (proj1 (sink_failure_keeps_session no_entities no_dateparser
                  no_table no_table (at_step "confirm" collected) "yes"
                  OperationalError H1 H2 H3)).
Defined.

Lemma extraction_failure_changes_nothing_witness :
  parse_date no_dateparser "2024-01-18" true = Some "2024-01-18"
  /\ process_conversation_step no_entities no_dateparser empty_db
       (at_step "checkout" booked_from_20th) "2024-01-18"
     = (empty_db, at_step "checkout" booked_from_20th,
        Ok (say "Check-out date must be after check-in date (2024-01-20). Please provide a later check-out date.")).
Proof.
  assert (H1 : parse_date no_dateparser "2024-01-18" true
               = Some "2024-01-18") by reflexivity.
  split; [exact H1|].
  exact (proj1
           (proj1 (proj2 (proj2 (proj2
              (extraction_failure_changes_nothing no_entities no_dateparser
                 empty_db (at_step "checkout" booked_from_20th)
                 "2024-01-18"))))
              eq_refl "2024-01-18" "2024-01-20" H1 eq_refl eq_refl)).
Defined.

Lemma payment_step_total_witness :
  step (at_step "payment" before_payment) = "payment"
  /\ exists r,
      process_conversation_step no_entities no_dateparser empty_db
        (at_step "payment" before_payment) "Crdit Card"
      = (empty_db,
         at_step "confirm"
                 (<["payment_method" := VStr "Credit Card"]> before_payment),
         r).
Proof.
  assert (H1 : step (at_step "payment" before_payment) = "payment")
    by reflexivity.
  split; [exact H1|].
  destruct (payment_step_total no_entities no_dateparser empty_db
              (at_step "payment" before_payment) "Crdit Card" H1)
    as (r & Hturn & _).
  exists r. exact Hturn.
Defined.

Lemma fields_follow_step_order_witness :
  let st := Spec.after no_entities no_dateparser empty_db
                       (at_step "name" ∅) "I'm Alice" in
  Spec.reachable no_entities no_dateparser st
  /\ step st = "checkin"
  /\ (is_Some (data st !! "guests") -> is_Some (data st !! "name"))
  /\ (data st ⊆ data (Spec.after no_entities no_dateparser empty_db st
                                  "2024-01-20")
      \/ (data (Spec.after no_entities no_dateparser empty_db st
                           "2024-01-20") = ∅
          /\ step (Spec.after no_entities no_dateparser empty_db st
                              "2024-01-20") = "name")).
Proof.
  intros st.
  assert (H1 : Spec.reachable no_entities no_dateparser st)
    by apply Spec.reach_turn, Spec.reach_new.
  split; [exact H1|]. split; [reflexivity|].
  destruct (fields_follow_step_order no_entities no_dateparser st H1)
    as [Horder Hturn].
  split.
  - exact (Horder 0%nat 3%nat "name" "guests" eq_refl eq_refl
                  (le_n_S _ _ (le_S _ _ (le_S _ _ (le_n 0))))).
  - exact (Hturn empty_db "2024-01-20").
Defined.

End Scenarios.

(** ** Further properties of the extractors *)

Section ExtractorFacts.

Import NlpUtils Spec Shape.

Lemma first_some_In {A B} (f : A -> option B) (l : list A) (v : B) :
  first_some f l = Some v -> exists x, In x l /\ f x = Some v.
Proof.
  induction l as [|x l IH]; cbn [first_some]; [done|].
  destruct (f x) as [y|] eqn:E.
  - intros [= <-]. exists x. split; [by left | done].
  - intros (x' & Hin & Hx)%IH. exists x'. split; [by right | done].
Qed.

Lemma word_to_num_range (k : string) (n : Z) :
  In (k, n) word_to_num -> 1 <= n <= 10.
Proof.
  intros H. assert (Forall (fun kv => 1 <= snd kv <= 10) word_to_num) as Hall.
  { unfold word_to_num. repeat constructor; cbn; lia. }
  exact (proj1 (List.Forall_forall _ _) Hall _ H).
Qed.

Lemma parse_guests_bounds (text : string) (n : Z) :
  parse_guests text = Some n -> 1 <= n <= 10.
Proof.
  rewrite parse_guests_unfold. destruct (blank text); [done|].
  destruct (existsb _ _); [intros [= <-]; lia|].
  destruct (first_some digits_in_range _) as [num|] eqn:Ed.
  { intros [= <-]. apply first_some_In in Ed as (s & _ & Hs).
    unfold digits_in_range, in_range in Hs.
    destruct (_ && _) eqn:Hr; [|done]. injection Hs as <-.
    apply andb_true_iff in Hr as [?%Z.leb_le ?%Z.leb_le]. lia. }
  destruct (first_some exact_word _) as [num|] eqn:Ee.
  { intros [= <-]. apply first_some_In in Ee as (w & _ & Hw).
    apply dict_get_In in Hw. by eapply word_to_num_range. }
  intros (w & _ & Hw)%first_some_In. unfold fuzzy_word in Hw.
  apply first_some_In in Hw as ([k v] & Hin & Hkv). cbn [fst snd] in Hkv.
  destruct (Fuzz.ratio_ge _ _ _); [|done]. injection Hkv as <-.
  by eapply word_to_num_range.
Qed.

Lemma all_space_strip (s : string) :
  all_chars Py.isspace s = true -> Py.strip s = "".
Proof.
  intros H. unfold Py.strip, Py.strip_by.
  assert (Py.lstrip_by Py.isspace s = "") as ->; [|done].
  induction s as [|c s IH]; [done|]. cbn [all_chars] in H.
  apply andb_true_iff in H as [Hc Hs]. cbn [Py.lstrip_by]. rewrite Hc. auto.
Qed.

Lemma blank_spec (text : string) :
  blank text = true <-> all_chars Py.isspace text = true.
Proof.
  split.
  - intros H%blank_cases. by apply strip_by_empty.
  - intros H%all_space_strip. unfold blank. rewrite H.
    cbn. apply orb_true_r.
Qed.

Section Blank.

Variable nlp_persons : string -> list string.
Variable dateparser_parse : bool -> string -> result (option DateTime.date).

(** X1.  The four extractors answer nothing for a text that holds only
    white space, the empty text included, whatever the entity recogniser
    and the date library would say; and a text is treated so exactly when
    each of its characters is white space. *)
Theorem extractors_ignore_blank_text (text : string) :
  (blank text = true <-> all_chars Py.isspace text = true)
  /\ (all_chars Py.isspace text = true ->
      extract_name nlp_persons text = None
      /\ (forall prefer_future,
             parse_date dateparser_parse text prefer_future = None)
      /\ is_yes text = None
      /\ parse_guests text = None).
Proof.
  split; [apply blank_spec|]. intros H%blank_spec.
  unfold extract_name, parse_date, is_yes, parse_guests. by rewrite H.
Qed.

End Blank.

(** *** The capitalised-word scan of [extract_name] *)







Section NameScan.

Variable nlp_persons : string -> list string.


End NameScan.

(** *** [validate_date_order] as an order on texts *)

Lemma validate_cases (d1 d2 : string) (b : bool) :
  validate_date_order d1 d2 = Ok b ->
  b = true <->
  exists a1 a2, DateTime.strptime DateTime.fmt_Ymd d1 = Ok a1
                /\ DateTime.strptime DateTime.fmt_Ymd d2 = Ok a2
                /\ DateTime.toordinal a1 < DateTime.toordinal a2.
Proof.
  unfold validate_date_order.
  destruct (DateTime.strptime _ d1) as [a1|e1] eqn:E1;
    [destruct (DateTime.strptime _ d2) as [a2|e2] eqn:E2|].
  - cbn [bind except_ValueError]. intros [= <-].
    rewrite date_gt_ordinal by eauto using strptime_valid.
    split; [intros H; by exists a1, a2 | by intros (? & ? & [= <-] & [= <-] & ?)].
  - apply strptime_raises in E2 as ->. cbn [bind except_ValueError].
    intros [= <-]. split; [done | by intros (? & ? & _ & [=] & _)].
  - apply strptime_raises in E1 as ->. cbn [bind except_ValueError].
    intros [= <-]. split; [done | by intros (? & ? & [=] & _)].
Qed.

Lemma validate_total (d1 d2 : string) :
  exists b, validate_date_order d1 d2 = Ok b.
Proof.
  unfold validate_date_order.
  destruct (DateTime.strptime _ d1) as [a1|e1] eqn:E1;
    [destruct (DateTime.strptime _ d2) as [a2|e2] eqn:E2|];
    try apply strptime_raises in E2 as ->;
    try apply strptime_raises in E1 as ->; cbn; eauto.
Qed.

(** X3.  [validate_date_order] is a strict order on texts: no text comes
    before itself, two texts are never each before the other, and a text
    before a second that is before a third is before the third. *)
Theorem validate_date_order_strict (d1 d2 d3 : string) :
  validate_date_order d1 d1 = Ok false
  /\ (validate_date_order d1 d2 = Ok true ->
      validate_date_order d2 d1 = Ok false)
  /\ (validate_date_order d1 d2 = Ok true ->
      validate_date_order d2 d3 = Ok true ->
      validate_date_order d1 d3 = Ok true).
Proof.
  split; [|split].
  - destruct (validate_total d1 d1) as [[] H]; [|done].
    destruct (proj1 (validate_cases _ _ _ H) eq_refl)
      as (a1 & a2 & E1 & E2 & Hlt).
    rewrite E1 in E2. injection E2 as <-. lia.
  - intros H12. destruct (validate_total d2 d1) as [[] H21]; [|done].
    destruct (proj1 (validate_cases _ _ _ H12) eq_refl)
      as (a1 & a2 & E1 & E2 & Hlt).
    destruct (proj1 (validate_cases _ _ _ H21) eq_refl)
      as (b2 & b1 & F2 & F1 & Hlt').
    rewrite E1 in F1. rewrite E2 in F2.
    injection F1 as <-. injection F2 as <-. lia.
  - intros H12 H23. destruct (validate_total d1 d3) as [b H13].
    rewrite H13. f_equal. apply (validate_cases _ _ _ H13).
    destruct (proj1 (validate_cases _ _ _ H12) eq_refl)
      as (a1 & a2 & E1 & E2 & Hlt).
    destruct (proj1 (validate_cases _ _ _ H23) eq_refl)
      as (b2 & a3 & F2 & E3 & Hlt').
    rewrite E2 in F2. injection F2 as <-.
    exists a1, a3. repeat split; [done..|lia].
Qed.

(** *** [parse_date] *)

Lemma search_head (r : Re.re) (s : string) (m : string * string) :
  List.head (Re.matches r s) = Some m -> Re.search r s = Some (fst m).
Proof. intros H. destruct s; cbn [Re.search]; unfold Re.match_; by rewrite H. Qed.

Lemma month_day_text (m d : Z) :
  1 <= m <= 12 -> 1 <= d <= 31 ->
  List.head
    (Re.matches (Re.Seq (Re.chr "-")
                   (Re.Seq Re.digit12 (Re.Seq (Re.chr "-") Re.digit12)))
                ("-" +:+ DateTime.zfill 2 m +:+ "-" +:+ DateTime.zfill 2 d))
  = Some ("-" +:+ DateTime.zfill 2 m +:+ "-" +:+ DateTime.zfill 2 d, "").
Proof.
  intros Hm%(small_cases 12) Hd%(small_cases 31).
  vm_compute in Hm, Hd.
  repeat (destruct Hm as [<-|Hm]; [| ]); try (by destruct Hm);
    repeat (destruct Hd as [<-|Hd]; [by vm_compute| ]); by destruct Hd.
Qed.

Lemma head_flat_map_single {A B} (f : A -> list B) (x : A) :
  List.head (flat_map f [x]) = List.head (f x).
Proof. cbn. by rewrite app_nil_r. Qed.

Lemma head_map {A B} (f : A -> B) (l : list A) :
  List.head (List.map f l) = option_map f (List.head l).
Proof. by destruct l. Qed.

Lemma matches_seq (r1 r2 : Re.re) (s : string) :
  Re.matches (Re.Seq r1 r2) s
  = flat_map (fun m1 => List.map (fun m2 => (fst m1 +:+ fst m2, snd m2))
                                 (Re.matches r2 (snd m1)))
             (Re.matches r1 s).
Proof. reflexivity. Qed.

Lemma search_canonical (a : DateTime.date) :
  DateTime.valid (DateTime.year a) (DateTime.month a) (DateTime.day a) = true ->
  Re.search (sep3 Re.digit4 "-" Re.digit12 Re.digit12) (DateTime.strftime_Ymd a)
  = Some (DateTime.strftime_Ymd a).
Proof.
  intros Hv. pose proof Hv as (Hy & Hm & Hd)%valid_inv.
  assert (Hd' : 1 <= DateTime.day a <= 31).
  { destruct (DateTime.is_leap (DateTime.year a)); unfold DateTime.dim_l in Hd;
      repeat destruct (_ =? _); cbn in Hd; lia. }
  pose proof (renders_year _ Hy) as Ry.
  unfold DateTime.strftime_Ymd.
  unfold Spec.renders in Ry. cbv zeta in Ry.
  apply andb_true_iff in Ry as [[Hlen%Nat.eqb_eq Hdig]%andb_true_iff _].
  destruct (DateTime.zfill 4 (DateTime.year a))
    as [|c1 [|c2 [|c3 [|c4 [|c5 r]]]]]; try discriminate Hlen.
  cbn [Spec.all_chars] in Hdig.
  apply andb_true_iff in Hdig as [H1 Hdig].
  apply andb_true_iff in Hdig as [H2 Hdig].
  apply andb_true_iff in Hdig as [H3 Hdig].
  apply andb_true_iff in Hdig as [H4 _].
  set (tail := "-" +:+ DateTime.zfill 2 (DateTime.month a) +:+ "-"
               +:+ DateTime.zfill 2 (DateTime.day a)).
  change (String c1 (String c2 (String c3 (String c4 ""))) +:+ tail)
    with (String c1 (String c2 (String c3 (String c4 tail)))).
  rewrite (search_head _ _ (String c1 (String c2 (String c3 (String c4 tail))),
                            "")); [reflexivity|].
  unfold sep3. rewrite matches_seq.
  rewrite (matches_digit4 c1 c2 c3 c4 tail H1 H2 H3 H4).
  rewrite head_flat_map_single, head_map. cbn [fst snd].
  pose proof (month_day_text (DateTime.month a) (DateTime.day a) Hm Hd') as M.
  fold tail in M. rewrite M. reflexivity.
Qed.

Lemma strftime_not_blank (a : DateTime.date) :
  DateTime.valid (DateTime.year a) (DateTime.month a) (DateTime.day a) = true ->
  blank (DateTime.strftime_Ymd a) = false.
Proof.
  intros Hv. pose proof Hv as (Hy & _)%valid_inv.
  pose proof (renders_year _ Hy) as Ry.
  unfold Spec.renders in Ry. cbv zeta in Ry.
  apply andb_true_iff in Ry as [[Hlen%Nat.eqb_eq Hdig]%andb_true_iff _].
  destruct (blank _) eqn:Hb; [|done]. apply blank_spec in Hb.
  unfold DateTime.strftime_Ymd in Hb.
  destruct (DateTime.zfill 4 (DateTime.year a)) as [|c1 r]; [done|].
  cbn [Spec.all_chars append] in Hb, Hdig.
  apply andb_true_iff in Hb as [Hs _]. apply andb_true_iff in Hdig as [Hc _].
  by rewrite (digit_not_space c1 Hc) in Hs.
Qed.

Section ParseDate.

Variable dateparser_parse : bool -> string -> result (option DateTime.date).

Local Abbreviation is_date a :=
  (DateTime.valid (DateTime.year a) (DateTime.month a) (DateTime.day a) = true).



(** X5.  On the rendering YYYY-MM-DD of a calendar date with a four-digit
    year, [parse_date] does what the date library decides: the library's
    date wins when it finds one, the text comes back unchanged when it
    finds none (the first explicit pattern reads it), and nothing is
    returned when the library raises, the patterns being skipped then. *)
Theorem parse_date_of_canonical (a : DateTime.date) (prefer_future : bool) :
  is_date a -> 1000 <= DateTime.year a ->
  let text := DateTime.strftime_Ymd a in
  let answer := dateparser_parse prefer_future (Py.lower (Py.strip text)) in
  (forall d, answer = Ok (Some d) ->
             parse_date dateparser_parse text prefer_future
             = Some (DateTime.strftime_Ymd d))
  /\ (answer = Ok None ->
      parse_date dateparser_parse text prefer_future = Some text)
  /\ (forall e, answer = Raise e ->
                parse_date dateparser_parse text prefer_future = None).
Proof.
  intros Ha _ text answer. unfold parse_date.
  assert (blank text = false) as -> by by apply strftime_not_blank.
  fold answer. split; [|split].
  - by intros d ->.
  - intros ->. cbn [bind except_Exception]. unfold date_patterns.
    cbn [try_patterns].
    assert (Re.search (sep3 Re.digit4 "-" Re.digit12 Re.digit12) text
            = Some text) as -> by by apply search_canonical.
    assert (DateTime.strptime DateTime.fmt_Ymd text = Ok a) as ->
        by by apply strptime_strftime.
    reflexivity.
  - by intros e ->.
Qed.

End ParseDate.

(** *** Case and surrounding white space *)

Lemma lower_empty (s : string) : Py.lower s = "" -> s = "".
Proof. by destruct s. Qed.

Lemma blank_normal_iff (text : string) :
  blank text = true <-> normal text = "".
Proof.
  split; [apply blank_normal|]. intros H%lower_empty.
  apply blank_spec. by apply strip_by_empty.
Qed.

Lemma blank_of_normal (a b : string) :
  normal a = normal b -> blank a = blank b.
Proof.
  intros H. apply eq_true_iff_eq. by rewrite !blank_normal_iff, H.
Qed.

Lemma is_yes_normal (a b : string) :
  normal a = normal b -> is_yes a = is_yes b.
Proof.
  intros H. rewrite !is_yes_unfold. unfold yes_votes, no_votes, tokens.
  fold (normal a). fold (normal b). by rewrite (blank_of_normal a b H), H.
Qed.

End ExtractorFacts.

(** ** The shape of the collected data *)

Section ShapeBasics.

Import App Spec Shape.

Lemma steps_nodup : NoDup steps.
Proof. apply (bool_decide_unpack (NoDup steps)). by vm_compute. Qed.

Lemma stores_moves (st st' : session) : stores st st' -> moves st st'.
Proof. destruct 1; by econstructor. Qed.

Lemma in_order_at (st : session) (k : nat) :
  in_order st -> steps !! k = Some (step st) ->
  dom (data st) = list_to_set (take k fields).
Proof.
  intros (k' & Hk' & Hdom) Hk.
  by rewrite (NoDup_lookup steps _ _ _ steps_nodup Hk Hk').
Qed.

Lemma field_ok_insert (d : gmap string value) (key key' : string)
      (v v' : value) :
  d !! key = None -> d !! "checkin_date" <> None \/ key' <> "checkout_date" ->
  field_ok d key' v' -> field_ok (<[key := v]> d) key' v'.
Proof.
  intros Hfresh Hci (H1 & H2 & H3 & H4). repeat split; try tauto.
  intros Hk. destruct (H3 Hk) as (ci & co & -> & Hl & Hv).
  exists ci, co. repeat split; try done.
  rewrite lookup_insert_ne; [done|]. intros ->. congruence.
Qed.

Lemma stores_well_formed (st st' : session) :
  in_order st -> well_formed (data st) -> stores st st' ->
  well_formed (data st').
Proof.
  intros Hord Hwf Hst.
  destruct Hst as [|k key next v Hk Hkey Hnext Hv| |].
  - done.
  - cbn [data store set_step set_data].
    assert (data st !! key = None) as Hfresh.
    { apply not_elem_of_dom. rewrite (in_order_at st k Hord Hk).
      rewrite elem_of_list_to_set. by eapply step_field. }
    intros key' v'. destruct (decide (key' = key)) as [->|Hne].
    + rewrite lookup_insert_eq. intros [= <-].
      apply field_ok_insert; [done| |done].
      destruct (decide (key = "checkout_date")) as [->|]; [|by right].
      left. destruct Hv as (_ & _ & H3 & _).
      destruct (H3 eq_refl) as (ci & co & _ & Hl & _). by rewrite Hl.
    + rewrite lookup_insert_ne by done. intros Hl.
      apply field_ok_insert; [done| |by apply Hwf].
      destruct (decide (key' = "checkout_date")) as [->|]; [|by right].
      left. destruct (Hwf _ _ Hl) as (_ & _ & H3 & _).
      destruct (H3 eq_refl) as (ci & co & _ & Hl' & _). by rewrite Hl'.
  - done.
  - cbn. intros key v. by rewrite lookup_empty.
Qed.

Lemma present (st : session) (k i : nat) (key : string) :
  in_order st -> steps !! k = Some (step st) ->
  fields !! i = Some key -> (i < k)%nat -> is_Some (data st !! key).
Proof.
  intros Hord Hk Hkey Hlt. apply elem_of_dom.
  rewrite (in_order_at st k Hord Hk). apply elem_of_list_to_set.
  apply list_elem_of_lookup. exists i. by apply lookup_take_Some.
Qed.

Lemma summary_ok (d : gmap string value) :
  is_Some (d !! "name") -> is_Some (d !! "checkin_date") ->
  is_Some (d !! "checkout_date") -> is_Some (d !! "guests") ->
  exists text, summary d = Ok text.
Proof.
  intros [vn Hn] [vi Hi] [vo Ho] [vg Hg]. unfold summary, getitem.
  rewrite Hn, Hi, Ho, Hg. cbn [bind]. by eexists.
Qed.

End ShapeBasics.

Section ShapeFacts.

Import App Spec Shape.

Variable nlp_persons : string -> list string.
Variable dateparser_parse : bool -> string -> result (option DateTime.date).

Local Abbreviation turn :=
  (process_conversation_step nlp_persons dateparser_parse).
Local Abbreviation after := (Spec.after nlp_persons dateparser_parse).
Local Abbreviation reachable :=
  (Spec.reachable nlp_persons dateparser_parse).

Ltac shape :=
  unfold field_ok; repeat split; intros Hkey; try discriminate Hkey;
  clear Hkey.

Lemma turn_stores (db : database) (st : session) (msg : string) :
  stores st (after db st msg).
Proof.
  unfold Spec.after, process_conversation_step.
  destruct (String.eqb_spec (step st) "name") as [E|_].
  { destruct (NlpUtils.extract_name _ _) as [name|]; [|constructor].
    destruct (Py.truthy name) eqn:T; [|constructor].
    apply (stores_field st 0 "name" "checkin"); rewrite ?E; try done.
    shape. exists name. split; [done|]. by apply truthy_iff. }
  destruct (String.eqb_spec (step st) "checkin") as [E|_].
  { destruct (NlpUtils.parse_date _ _ _) as [d|]; [|constructor].
    destruct (Py.truthy d) eqn:T; [|constructor].
    apply (stores_field st 1 "checkin_date" "checkout"); rewrite ?E; try done.
    shape. exists d. split; [done|]. by apply truthy_iff. }
  destruct (String.eqb_spec (step st) "checkout") as [E|_].
  { destruct (NlpUtils.parse_date _ _ _) as [d|]; [|constructor].
    destruct (Py.truthy d); [|constructor].
    destruct (bind _ _) as [[v []]|e] eqn:B; try constructor.
    apply (stores_field st 2 "checkout_date" "guests"); rewrite ?E; try done.
    shape. unfold getitem in B.
    destruct (data st !! "checkin_date") as [v'|] eqn:L; [|done].
    cbn [bind] in B. destruct v' as [ci| |]; try done. cbn [as_str bind] in B.
    destruct (NlpUtils.validate_date_order ci d) as [ok|] eqn:V; [|done].
    cbn [bind] in B. injection B as <- ->. by exists ci, d. }
  destruct (String.eqb_spec (step st) "guests") as [E|_].
  { destruct (NlpUtils.parse_guests _) as [n|] eqn:G; [|constructor].
    destruct (negb _); [|constructor].
    apply (stores_field st 3 "guests" "breakfast"); rewrite ?E; try done.
    shape. exists n. split; [done|]. by eapply parse_guests_bounds. }
  destruct (String.eqb_spec (step st) "breakfast") as [E|_].
  { destruct (NlpUtils.is_yes _) as [b|]; [|constructor].
    apply (stores_field st 4 "breakfast" "payment"); rewrite ?E; try done.
    shape. by exists b. }
  destruct (String.eqb_spec (step st) "payment") as [E|_].
  { destruct (summary _);
      (apply (stores_field st 5 "payment_method" "confirm");
       rewrite ?E; try done; shape; by eexists). }
  destruct (String.eqb_spec (step st) "confirm") as [E|_].
  { destruct (Py.mem _ affirmative).
    - destruct (save_booking_to_db _ _ _) as [db' [[r|]|e]];
        cbn [fst snd]; by constructor.
    - destruct (Py.mem _ negative); constructor. }
  constructor.
Qed.

Lemma reachable_shape (st : session) :
  reachable st -> in_order st /\ well_formed (data st).
Proof.
  induction 1 as [sid now | db st msg _ [IHo IHw]].
  - split.
    + exists 0%nat. split; [done|]. cbn. set_solver.
    + intros key v. cbn. by rewrite lookup_empty.
  - split.
    + eapply moves_in_order; [exact IHo | apply turn_moves].
    + eapply stores_well_formed; [exact IHo | exact IHw | apply turn_stores].
Qed.

(** X6.  In every session reachable from a fresh one the data hold
    fields of known shape only: the name and the check-in date are
    non-empty strings; a check-out date is a string that
    [validate_date_order] accepts after the check-in date held with it; the
    number of guests is an integer from 1 to 10; the breakfast choice is a
    boolean; the payment method is a string; and no key other than these
    six is present. *)
Theorem reachable_data_shape (st : session) :
  reachable st ->
  (forall v, data st !! "name" = Some v -> exists s, v = VStr s /\ s <> "")
  /\ (forall v, data st !! "checkin_date" = Some v ->
                exists s, v = VStr s /\ s <> "")
  /\ (forall v, data st !! "checkout_date" = Some v ->
                exists ci co,
                  v = VStr co /\ data st !! "checkin_date" = Some (VStr ci)
                  /\ NlpUtils.validate_date_order ci co = Ok true)
  /\ (forall v, data st !! "guests" = Some v ->
                exists n, v = VInt n /\ 1 <= n <= 10)
  /\ (forall v, data st !! "breakfast" = Some v -> exists b, v = VBool b)
  /\ (forall v, data st !! "payment_method" = Some v -> exists s, v = VStr s)
  /\ (forall key, is_Some (data st !! key) -> In key fields).
Proof.
  intros [(k & Hk & Hdom) Hwf]%reachable_shape.
  repeat split;
    try (intros v Hv; destruct (Hwf _ _ Hv) as (H1 & H2 & H3 & H4 & H5 & H6);
         by auto).
  intros key Hkey%elem_of_dom. rewrite Hdom in Hkey.
  apply elem_of_list_to_set in Hkey. apply list_elem_of_In.
  by eapply subseteq_take.
Qed.

Lemma shape_turn_raises (db db' : database) (st st' : session) (msg : string)
      (e : exn) :
  in_order st -> well_formed (data st) ->
  turn db st msg = (db', st', Raise e) ->
  e = OperationalError /\ bookings db = None /\ step st = "confirm"
  /\ In (Py.strip (Py.lower msg)) affirmative /\ db' = db /\ st' = st.
Proof.
  intros Hord Hwf. unfold process_conversation_step.
  destruct (String.eqb_spec (step st) "name") as [E|_].
  { destruct (NlpUtils.extract_name _ _) as [name|]; [|done].
    by destruct (Py.truthy name). }
  destruct (String.eqb_spec (step st) "checkin") as [E|_].
  { destruct (NlpUtils.parse_date _ _ _) as [d|]; [|done].
    by destruct (Py.truthy d). }
  destruct (String.eqb_spec (step st) "checkout") as [E|_].
  { destruct (NlpUtils.parse_date _ _ _) as [d|]; [|done].
    destruct (Py.truthy d); [|done].
    destruct (present st 2 1 "checkin_date" Hord) as [v Hv];
      [by rewrite E | done | lia |].
    destruct (Hwf _ _ Hv) as (_ & H2 & _).
    destruct (H2 eq_refl) as (ci & -> & _).
    unfold getitem. rewrite Hv. cbn [bind as_str].
    destruct (validate_total ci d) as [[] ->]; by cbn [bind]. }
  destruct (String.eqb_spec (step st) "guests") as [E|_].
  { destruct (NlpUtils.parse_guests _) as [n|]; [|done].
    by destruct (negb _). }
  destruct (String.eqb_spec (step st) "breakfast") as [E|_].
  { by destruct (NlpUtils.is_yes _). }
  destruct (String.eqb_spec (step st) "payment") as [E|_].
  { destruct (summary_ok (data (set_step (store st "payment_method"
                (VStr (payment_value (Py.lower (Py.strip msg))))) "confirm")))
      as [text ->]; [..|done]; cbn [data set_step store set_data];
      (rewrite lookup_insert_ne by done);
      [apply (present st 5 0) | apply (present st 5 1)
       | apply (present st 5 2) | apply (present st 5 3)];
      rewrite ?E; try done; lia. }
  destruct (String.eqb_spec (step st) "confirm") as [E|_].
  { destruct (Py.mem _ affirmative) eqn:A.
    - destruct (present st 6 0 "name" Hord) as [vn Hn];
        [by rewrite E | done | lia |].
      destruct (present st 6 1 "checkin_date" Hord) as [vi Hi];
        [by rewrite E | done | lia |].
      destruct (present st 6 2 "checkout_date" Hord) as [vo Ho];
        [by rewrite E | done | lia |].
      destruct (present st 6 3 "guests" Hord) as [vg Hg];
        [by rewrite E | done | lia |].
      destruct (bookings db) as [rows|] eqn:B.
      + by rewrite (save_booking_ok db _ _ rows vn vi vo vg B Hn Hi Ho Hg).
      + rewrite (save_booking_no_table db _ _ vn vi vo vg B Hn Hi Ho Hg).
        intros [= <- <- <-]. by apply mem_spec in A.
    - by destruct (Py.mem _ negative). }
  done.
Qed.


Lemma booking_only_on_confirm (db db' : database) (st st' : session)
      (msg : string) (resp : response) (r : booking_record) :
  turn db st msg = (db', st', Ok resp) -> booking resp = Some r ->
  step st = "confirm" /\ In (Py.strip (Py.lower msg)) affirmative.
Proof.
  unfold process_conversation_step.
  destruct (String.eqb_spec (step st) "name") as [E|_].
  { destruct (NlpUtils.extract_name _ _) as [name|];
      [destruct (Py.truthy name)|]; by intros [= <- <- <-]. }
  destruct (String.eqb_spec (step st) "checkin") as [E|_].
  { destruct (NlpUtils.parse_date _ _ _) as [d|];
      [destruct (Py.truthy d)|]; by intros [= <- <- <-]. }
  destruct (String.eqb_spec (step st) "checkout") as [E|_].
  { destruct (NlpUtils.parse_date _ _ _) as [d|];
      [destruct (Py.truthy d); [destruct (bind _ _) as [[v []]|]|]|];
      try done; by intros [= <- <- <-]. }
  destruct (String.eqb_spec (step st) "guests") as [E|_].
  { destruct (NlpUtils.parse_guests _) as [n|];
      [destruct (negb _)|]; by intros [= <- <- <-]. }
  destruct (String.eqb_spec (step st) "breakfast") as [E|_].
  { destruct (NlpUtils.is_yes _) as [b|]; by intros [= <- <- <-]. }
  destruct (String.eqb_spec (step st) "payment") as [E|_].
  { destruct (summary _); [|done]. by intros [= <- <- <-]. }
  destruct (String.eqb_spec (step st) "confirm") as [E|_].
  { destruct (Py.mem _ affirmative) eqn:A.
    - intros _ _. by apply mem_spec in A.
    - destruct (Py.mem _ negative); by intros [= <- <- <-]. }
  by intros [= <- <- <-].
Qed.

(** X8.  When a turn of a reachable session returns a booking, the step
    was [confirm] and is now [complete], the response is marked complete,
    and the booking is a sound one: its name is a non-empty string, its
    dates are strings of which [validate_date_order] accepts the check-out
    after the check-in, its number of guests lies between 1 and 10, its
    payment method is a string, and its key is larger than the key of
    every booking the table held; the table holds the same rows as before
    and one more, which carries that key. *)
Theorem booking_of_reachable_session
        (db db' : database) (st st' : session) (msg : string)
        (resp : response) (r : booking_record) :
  reachable st ->
  turn db st msg = (db', st', Ok resp) -> booking resp = Some r ->
  step st = "confirm" /\ st' = set_step st "complete" /\ complete resp = true
  /\ (exists n ci co g p,
         name r = VStr n /\ n <> "" /\ checkin r = VStr ci
         /\ checkout r = VStr co
         /\ NlpUtils.validate_date_order ci co = Ok true
         /\ guests r = VInt g /\ 1 <= g <= 10 /\ payment_method r = VStr p)
  /\ (exists rows new,
         bookings db = Some rows /\ bookings db' = Some (rows ++ [new])
         /\ row_id new = id r
         /\ forall old, In old rows -> row_id old < id r).
Proof.
  intros [Hord Hwf]%reachable_shape Hturn Hbooking.
  destruct (booking_only_on_confirm _ _ _ _ _ _ _ Hturn Hbooking) as [E A].
  destruct (present st 6 0 "name" Hord) as [vn Hn];
    [by rewrite E | done | lia |].
  destruct (present st 6 1 "checkin_date" Hord) as [vi Hi];
    [by rewrite E | done | lia |].
  destruct (present st 6 2 "checkout_date" Hord) as [vo Ho];
    [by rewrite E | done | lia |].
  destruct (present st 6 3 "guests" Hord) as [vg Hg];
    [by rewrite E | done | lia |].
  destruct (present st 6 5 "payment_method" Hord) as [vp Hp];
    [by rewrite E | done | lia |].
  destruct (bookings db) as [rows|] eqn:B.
  2: { rewrite (turn_confirm _ _ db st msg E) in Hturn. cbv zeta in Hturn.
       apply mem_spec in A. rewrite A in Hturn.
       by rewrite (save_booking_no_table db _ _ vn vi vo vg B Hn Hi Ho Hg)
         in Hturn. }
  rewrite (turn_affirmative _ _ db st msg rows vn vi vo vg E A B Hn Hi Ho Hg)
    in Hturn.
  injection Hturn as <- <- <-. cbn [booking] in Hbooking.
  injection Hbooking as <-. cbn [complete].
  repeat split; try done.
  - destruct (Hwf _ _ Hn) as (H1 & _). destruct (H1 eq_refl) as (n & -> & Hne).
    destruct (Hwf _ _ Ho) as (_ & _ & H3 & _).
    destruct (H3 eq_refl) as (ci & co & -> & Hci & Hv).
    destruct (Hwf _ _ Hg) as (_ & _ & _ & H4 & _).
    destruct (H4 eq_refl) as (g & -> & Hrange).
    destruct (Hwf _ _ Hp) as (_ & _ & _ & _ & _ & H6).
    destruct (H6 eq_refl) as (p & ->).
    rewrite Hci in Hi. injection Hi as <-.
    exists n, ci, co, g, p. cbn. rewrite Hp. cbn.
    repeat split; try done; lia.
  - exists rows. eexists. repeat split; try done.
    intros old Hold. by apply next_id_above.
Qed.

Lemma save_frame (db : database) (sid : string) (d : gmap string value) :
  fst (save_booking_to_db db sid d) = db
  \/ exists rows new,
      bookings db = Some rows
      /\ fst (save_booking_to_db db sid d)
         = mkdb (Some (rows ++ [new])) (row_id new) (current_timestamp db)
      /\ row_session_id new = sid
      /\ row_id new = next_id rows (sequence db)
      /\ forall old, In old rows -> row_id old < row_id new.
Proof.
  unfold save_booking_to_db, getitem.
  destruct (d !! "name") as [vn|]; [|by left].
  destruct (d !! "checkin_date") as [vi|]; [|by left].
  destruct (d !! "checkout_date") as [vo|]; [|by left].
  destruct (d !! "guests") as [vg|]; [|by left]. cbn [bind].
  destruct (bookings db) as [rows|] eqn:B; [|by left]. right.
  exists rows, (row_of db sid d vn vi vo vg (next_id rows (sequence db))).
  split; [done|]. split.
  - destruct (select_by_id _ _); reflexivity.
  - split; [done|]. split; [done|]. intros old Hold. by apply next_id_above.
Qed.

Lemma turn_database (db : database) (st : session) (msg : string) :
  fst (fst (turn db st msg)) = db
  \/ fst (fst (turn db st msg))
     = fst (save_booking_to_db db (default "" (session_id st)) (data st)).
Proof.
  unfold process_conversation_step.
  destruct (String.eqb (step st) "name").
  { destruct (NlpUtils.extract_name _ _) as [name|];
      [destruct (Py.truthy name)|]; by left. }
  destruct (String.eqb (step st) "checkin").
  { destruct (NlpUtils.parse_date _ _ _) as [d|];
      [destruct (Py.truthy d)|]; by left. }
  destruct (String.eqb (step st) "checkout").
  { destruct (NlpUtils.parse_date _ _ _) as [d|];
      [destruct (Py.truthy d); [destruct (bind _ _) as [[v []]|]|]|];
      by left. }
  destruct (String.eqb (step st) "guests").
  { destruct (NlpUtils.parse_guests _) as [n|];
      [destruct (negb _)|]; by left. }
  destruct (String.eqb (step st) "breakfast").
  { destruct (NlpUtils.is_yes _) as [b|]; by left. }
  destruct (String.eqb (step st) "payment").
  { destruct (summary _); by left. }
  destruct (String.eqb (step st) "confirm"); [|by left].
  destruct (Py.mem _ affirmative).
  - right. by destruct (save_booking_to_db _ _ _) as [db1 [[r|]|e]].
  - destruct (Py.mem _ negative); by left.
Qed.

(** X9.  What a turn leaves alone, whatever the session: the session
    keeps its id and its creation time; the step is the same step, the
    next step in the forward order, or [name]; and the database is the
    same database unless the step is [confirm] and the reply an
    affirmative one, in which case at most one row is added, after the
    rows already there, under the session's id and a key larger than
    theirs. *)
Theorem turn_frame (db : database) (st : session) (msg : string) :
  let db' := fst (fst (turn db st msg)) in
  let st' := snd (fst (turn db st msg)) in
  session_id st' = session_id st /\ created_at st' = created_at st
  /\ (step st' = step st
      \/ (exists k, steps !! k = Some (step st)
                    /\ steps !! S k = Some (step st'))
      \/ step st' = "name")
  /\ (db' = db
      \/ step st = "confirm" /\ In (Py.strip (Py.lower msg)) affirmative
         /\ exists rows new,
             bookings db = Some rows
             /\ db' = mkdb (Some (rows ++ [new])) (row_id new)
                           (current_timestamp db)
             /\ row_session_id new = default "" (session_id st)
             /\ forall old, In old rows -> row_id old < row_id new).
Proof.
  cbv zeta.
  change (snd (fst (turn db st msg))) with (after db st msg).
  split; [|split; [|split]].
  - by destruct (turn_moves nlp_persons dateparser_parse db st msg).
  - by destruct (turn_moves nlp_persons dateparser_parse db st msg).
  - destruct (turn_moves nlp_persons dateparser_parse db st msg)
      as [|k key next v Hk Hkey Hnext|E|]; cbn [step set_step store set_data].
    + by left.
    + right. left. by exists k.
    + right. left. exists 6%nat. by rewrite E.
    + by right; right.
  - unfold process_conversation_step.
    destruct (String.eqb_spec (step st) "name") as [E|_].
    { destruct (NlpUtils.extract_name _ _) as [name|];
        [destruct (Py.truthy name)|]; by left. }
    destruct (String.eqb_spec (step st) "checkin") as [E|_].
    { destruct (NlpUtils.parse_date _ _ _) as [d|];
        [destruct (Py.truthy d)|]; by left. }
    destruct (String.eqb_spec (step st) "checkout") as [E|_].
    { destruct (NlpUtils.parse_date _ _ _) as [d|];
        [destruct (Py.truthy d); [destruct (bind _ _) as [[v []]|]|]|];
        by left. }
    destruct (String.eqb_spec (step st) "guests") as [E|_].
    { destruct (NlpUtils.parse_guests _) as [n|];
        [destruct (negb _)|]; by left. }
    destruct (String.eqb_spec (step st) "breakfast") as [E|_].
    { destruct (NlpUtils.is_yes _) as [b|]; by left. }
    destruct (String.eqb_spec (step st) "payment") as [E|_].
    { destruct (summary _); by left. }
    destruct (String.eqb_spec (step st) "confirm") as [E|_].
    { destruct (Py.mem _ affirmative) eqn:A.
      - apply mem_spec in A.
        destruct (save_frame db (default "" (session_id st)) (data st))
          as [Hsame|(rows & new & B & Hdb & Hsid & _ & Hfresh)].
        + left. destruct (save_booking_to_db _ _ _) as [db1 [[r|]|e]];
            exact Hsame.
        + right. repeat split; try done. exists rows, new.
          repeat split; try done.
          destruct (save_booking_to_db _ _ _) as [db1 [[r|]|e]]; exact Hdb.
      - destruct (Py.mem _ negative); by left. }
    by left.
Qed.

(** X10.  The number of guests [parse_guests] returns lies between 1 and
    10, whatever the text; so at the step [guests] the turn stores every
    number the extractor returns and moves on to [breakfast]: the test of
    the number for truth that follows the extractor never fails. *)
Theorem parse_guests_range (db : database) (st : session) (msg : string)
        (n : Z) :
  NlpUtils.parse_guests msg = Some n ->
  1 <= n <= 10
  /\ (step st = "guests" ->
      exists text,
        turn db st msg
        = (db, mksession "breakfast" (<["guests" := VInt n]> (data st))
                         (session_id st) (created_at st),
           Ok (say text))).
Proof.
  intros Hn. pose proof (parse_guests_bounds msg n Hn) as Hr.
  split; [done|]. intros E. unfold process_conversation_step.
  rewrite E, Hn. cbn [String.eqb Ascii.eqb Bool.eqb].
  assert ((n =? 0) = false) as -> by lia. cbn [negb]. by eexists.
Qed.

(** X11.  Case and surrounding white space never matter to a yes/no
    answer: two texts that agree once trimmed and lower-cased get the same
    answer from [is_yes], and the same turn at the steps [breakfast],
    [payment] and [confirm]. *)
Theorem answers_ignore_case_and_margins
        (db : database) (st : session) (a b : string) :
  normal a = normal b ->
  NlpUtils.is_yes a = NlpUtils.is_yes b
  /\ (step st = "breakfast" \/ step st = "payment" \/ step st = "confirm" ->
      turn db st a = turn db st b).
Proof.
  intros H. pose proof (is_yes_normal a b H) as Hyes. split; [done|].
  unfold normal in H. unfold process_conversation_step.
  intros [E|[E|E]]; rewrite E; cbn [String.eqb Ascii.eqb Bool.eqb].
  - by rewrite Hyes.
  - by rewrite H.
  - by rewrite <- !lower_strip, H.
Qed.

End ShapeFacts.

(** ** The bookings table *)

Section TableFacts.

Import App Spec Shape.

(** X12.  [save_booking_to_db] on data that lack one of the keys [name],
    [checkin_date], [checkout_date] and [guests]: the call raises the key
    error of the first of them that is missing, in this order, and leaves
    the database as it was, whether or not the bookings table exists. *)
Theorem save_booking_missing_key
        (db : database) (sid : string) (d : gmap string value) (key : string) :
  first_such (fun k => d !! k = None) mandatory key ->
  save_booking_to_db db sid d = (db, Raise (KeyError key)).
Proof.
  intros (l1 & l2 & Hl & Hbefore & Hkey).
  unfold save_booking_to_db, getitem.
  unfold mandatory in Hl.
  destruct l1 as [|k1 l1]; [injection Hl as <- _; by rewrite Hkey|].
  injection Hl as <- Hl. apply Forall_cons in Hbefore as [H1 Hbefore].
  destruct (d !! "name") as [vn|]; [clear H1|done]. cbn [bind].
  destruct l1 as [|k2 l1]; [injection Hl as <- _; by rewrite Hkey|].
  injection Hl as <- Hl. apply Forall_cons in Hbefore as [H2 Hbefore].
  destruct (d !! "checkin_date") as [vi|]; [clear H2|done]. cbn [bind].
  destruct l1 as [|k3 l1]; [injection Hl as <- _; by rewrite Hkey|].
  injection Hl as <- Hl. apply Forall_cons in Hbefore as [H3 Hbefore].
  destruct (d !! "checkout_date") as [vo|]; [clear H3|done]. cbn [bind].
  destruct l1 as [|k4 l1]; [injection Hl as <- _; by rewrite Hkey|].
  injection Hl as <- Hl. by destruct l1.
Qed.



Lemma fold_max_bounded (rows : list row) (m : Z) :
  (forall r, In r rows -> row_id r <= m) ->
  List.fold_right (fun r m => Z.max (row_id r) m) m rows = m.
Proof.
  induction rows as [|x rows IH]; intros Hle; [done|].
  cbn [List.fold_right]. rewrite IH by (intros r Hr; apply Hle; by right).
  specialize (Hle x (or_introl eq_refl)). lia.
Qed.

Lemma next_id_after (rows : list row) (seq : Z) (new : row) :
  row_id new = next_id rows seq ->
  next_id (rows ++ [new]) (row_id new) = row_id new + 1.
Proof.
  intros Hnew. unfold next_id in *.
  rewrite fold_right_app. cbn [List.fold_right].
  rewrite Z.max_id. rewrite fold_max_bounded; [lia|].
  intros r Hr. pose proof (next_id_above rows seq r Hr) as Hlt.
  unfold next_id in Hlt. lia.
Qed.


(** *** Keys *)

Lemma keys_select (rows : list row) (r : row) :
  List.NoDup (List.map row_id rows) -> In r rows ->
  select_by_id rows (row_id r) = Some r.
Proof.
  unfold select_by_id. induction rows as [|x rows IH]; [done|].
  cbn [List.map List.find]. intros Hnd Hin. inversion Hnd as [|? ? Hx Hnd']; subst.
  destruct Hin as [->|Hin]; [by rewrite Z.eqb_refl|].
  destruct (Z.eqb_spec (row_id x) (row_id r)) as [Heq|_]; [|by apply IH].
  destruct Hx. rewrite Heq. by apply in_map.
Qed.

Lemma keys_ok_append (rows : list row) (seq : Z) (new : row) :
  List.NoDup (List.map row_id rows) ->
  (forall r, In r rows -> row_id r <= seq) ->
  row_id new = next_id rows seq ->
  List.NoDup (List.map row_id (rows ++ [new]))
  /\ forall r, In r (rows ++ [new]) -> row_id r <= row_id new.
Proof.
  intros Hnd Hle Hnew. split.
  - rewrite List.map_app. cbn [List.map].
    apply NoDup_ListNoDup, NoDup_app. repeat split.
    + by apply NoDup_ListNoDup.
    + intros i Hi%list_elem_of_In [->|[]%elem_of_nil]%elem_of_cons.
      apply in_map_iff in Hi as (r & Hr & Hin).
      pose proof (next_id_above rows seq r Hin). lia.
    + apply NoDup_singleton.
  - intros r [Hin|[<-|[]]]%in_app_iff; [|lia].
    pose proof (next_id_above rows seq r Hin). lia.
Qed.

Lemma keys_ok_save (db : database) (sid : string) (d : gmap string value) :
  keys_ok db -> keys_ok (fst (save_booking_to_db db sid d)).
Proof.
  intros Hok.
  destruct (save_frame db sid d)
    as [->|(rows & new & B & -> & _ & Hnew & Hfresh)]; [done|].
  destruct (Hok rows B) as [Hnd Hle].
  intros rows' [= <-]. cbn [sequence].
  by apply keys_ok_append with (seq := sequence db).
Qed.

Lemma insert_booking_ok (db : database) (rows : list row) (sid : string)
      (vn vi vo vg vb vp : value) :
  bookings db = Some rows ->
  InitDb.insert_booking db sid vn vi vo vg vb vp
  = Ok (mkdb (Some (rows ++ [mkrow (next_id rows (sequence db)) sid vn vi vo
                                   vg vb vp (current_timestamp db)]))
             (next_id rows (sequence db)) (current_timestamp db)).
Proof. intros B. unfold InitDb.insert_booking. by rewrite B. Qed.

Lemma keys_ok_insert_sample (db db' : database) (booking : InitDb.sample) :
  keys_ok db -> InitDb.insert_sample db booking = Ok db' -> keys_ok db'.
Proof.
  intros Hok. unfold InitDb.insert_sample, InitDb.insert_booking.
  destruct (bookings db) as [rows|] eqn:B; [|done]. intros [= <-].
  destruct (Hok rows B) as [Hnd Hle]. intros rows' [= <-]. cbn [sequence].
  by apply (keys_ok_append rows (sequence db)
              (mkrow (next_id rows (sequence db)) _ _ _ _ _ _ _ _)).
Qed.

Lemma keys_ok_insert_all (bookings : list InitDb.sample) (db db' : database) :
  keys_ok db -> InitDb.insert_all db bookings = Ok db' -> keys_ok db'.
Proof.
  revert db. induction bookings as [|b bookings IH]; intros db Hok;
    cbn [InitDb.insert_all].
  - by intros [= <-].
  - destruct (InitDb.insert_sample db b) as [db1|e] eqn:E; [|done].
    cbn [bind]. apply IH. by eapply keys_ok_insert_sample.
Qed.

Section Keys.

Variable nlp_persons : string -> list string.
Variable dateparser_parse : bool -> string -> result (option DateTime.date).

(** X14.  The keys of the bookings table stay distinct, and none exceeds
    the sequence, under everything that writes the table: creating it,
    saving a booking, a turn of the dialogue, adding the sample bookings
    and clearing the table.  While this holds, every row of the table is
    the one read back under its key. *)
Theorem primary_keys_stay_distinct (db : database) :
  keys_ok db ->
  keys_ok (init_database db)
  /\ (forall sid d, keys_ok (fst (save_booking_to_db db sid d)))
  /\ (forall st msg,
         keys_ok (fst (fst (process_conversation_step
                              nlp_persons dateparser_parse db st msg))))
  /\ keys_ok (fst (InitDb.add_sample_data db))
  /\ (forall file_exists response,
         keys_ok (fst (InitDb.clear_database file_exists response db)))
  /\ (forall rows r, bookings db = Some rows -> In r rows ->
                     select_by_id rows (row_id r) = Some r).
Proof.
  intros Hok. split; [|split; [|split; [|split; [|split]]]].
  - unfold init_database. destruct (bookings db) eqn:B; [done|].
    intros rows [= <-]. split; [constructor | by intros r []].
  - intros sid d. by apply keys_ok_save.
  - intros st msg.
    destruct (turn_database nlp_persons dateparser_parse db st msg) as [->| ->];
      [done | by apply keys_ok_save].
  - unfold InitDb.add_sample_data.
    destruct (InitDb.insert_all db _) as [db'|e] eqn:E; [|done].
    by eapply keys_ok_insert_all.
  - intros file_exists response. unfold InitDb.clear_database.
    destruct (negb file_exists); [done|].
    destruct (negb (Py.mem _ _)); [done|].
    destruct (bookings db); [|done].
    intros rows [= <-]. split; [constructor | by intros r []].
  - intros rows r B Hin. destruct (Hok rows B) as [Hnd _].
    by apply keys_select.
Qed.


End Keys.

(** X16.  [add_sample_data] with the table in place adds the three sample
    bookings after the rows already there, in the order of the script,
    under three consecutive keys that follow every key in use or ever
    used, and reports success; without the table it reports failure and
    changes nothing.  It does not look at what the table holds, so a
    second run adds the three bookings once more. *)
Theorem add_sample_data_appends (db : database) :
  (forall rows,
      bookings db = Some rows ->
      let i := next_id rows (sequence db) in
      let ts := current_timestamp db in
      InitDb.add_sample_data db
      = (mkdb (Some (rows ++
           [mkrow i "sample-session-1" (VStr "John Smith") (VStr "2024-01-15")
                  (VStr "2024-01-18") (VInt 2) (VBool true)
                  (VStr "Credit Card") ts;
            mkrow (i + 1) "sample-session-2" (VStr "Alice Johnson")
                  (VStr "2024-01-20") (VStr "2024-01-22") (VInt 1)
                  (VBool false) (VStr "PayPal") ts;
            mkrow (i + 2) "sample-session-3" (VStr "Bob Wilson")
                  (VStr "2024-01-25") (VStr "2024-01-28") (VInt 4)
                  (VBool true) (VStr "Debit Card") ts]))
              (i + 2) ts, true)
      /\ (forall old, In old rows -> row_id old < i)
      /\ exists rows',
          bookings (fst (InitDb.add_sample_data
                           (fst (InitDb.add_sample_data db)))) = Some rows'
          /\ List.length rows' = (List.length rows + 6)%nat)
  /\ (bookings db = None -> InitDb.add_sample_data db = (db, false)).
Proof.
  assert (forall db rows,
             bookings db = Some rows ->
             let i := next_id rows (sequence db) in
             let ts := current_timestamp db in
             InitDb.add_sample_data db
             = (mkdb (Some (rows ++
                  [mkrow i "sample-session-1" (VStr "John Smith")
                         (VStr "2024-01-15") (VStr "2024-01-18") (VInt 2)
                         (VBool true) (VStr "Credit Card") ts;
                   mkrow (i + 1) "sample-session-2" (VStr "Alice Johnson")
                         (VStr "2024-01-20") (VStr "2024-01-22") (VInt 1)
                         (VBool false) (VStr "PayPal") ts;
                   mkrow (i + 2) "sample-session-3" (VStr "Bob Wilson")
                         (VStr "2024-01-25") (VStr "2024-01-28") (VInt 4)
                         (VBool true) (VStr "Debit Card") ts]))
                     (i + 2) ts, true)) as Hrun.
  { clear db. intros db rows B i ts.
    unfold InitDb.add_sample_data, InitDb.sample_bookings.
    cbn [InitDb.insert_all]. unfold InitDb.insert_sample.
    cbn [InitDb.s_session_id InitDb.s_name InitDb.s_checkin InitDb.s_checkout
         InitDb.s_guests InitDb.s_breakfast InitDb.s_payment_method].
    rewrite (insert_booking_ok db rows) by done. cbn [bind]. fold i ts.
    set (r1 := mkrow i "sample-session-1" _ _ _ _ _ _ _).
    rewrite (insert_booking_ok _ (rows ++ [r1])) by done. cbn [bind].
    cbn [sequence current_timestamp].
    assert (next_id (rows ++ [r1]) i = i + 1) as ->
        by apply (next_id_after rows (sequence db) r1 eq_refl).
    set (r2 := mkrow (i + 1) "sample-session-2" _ _ _ _ _ _ _).
    rewrite (insert_booking_ok _ ((rows ++ [r1]) ++ [r2])) by done.
    cbn [bind sequence current_timestamp].
    assert (next_id ((rows ++ [r1]) ++ [r2]) (i + 1) = i + 2) as ->.
    { transitivity (row_id r2 + 1); [|cbn; lia].
      apply (next_id_after (rows ++ [r1]) i r2). symmetry.
      apply (next_id_after rows (sequence db) r1 eq_refl). }
    by rewrite <- !app_assoc. }
  split.
  - intros rows B i ts. split; [by apply Hrun|].
    split; [intros old Hold; by apply next_id_above|].
    rewrite (Hrun db rows B). cbn [fst].
    eexists. erewrite Hrun by reflexivity. cbn [fst bookings].
    split; [reflexivity|]. rewrite !length_app. cbn. lia.
  - intros B. unfold InitDb.add_sample_data, InitDb.sample_bookings.
    cbn [InitDb.insert_all]. unfold InitDb.insert_sample, InitDb.insert_booking.
    by rewrite B.
Qed.

(** X17.  [clear_database] empties the table exactly when the database
    file exists, the operator's answer is yes or y in any mix of cases,
    with no blank before or after it, and the table exists; it then
    reports success, and the next booking saved gets the key 1 again,
    whatever keys were in use.  In every other case it reports failure
    and changes nothing. *)
Theorem clear_database_confirmed
        (file_exists : bool) (response : string) (db : database) :
  let db' := fst (InitDb.clear_database file_exists response db) in
  let done := snd (InitDb.clear_database file_exists response db) in
  (done = true <->
   file_exists = true
   /\ (Py.lower response = "yes" \/ Py.lower response = "y")
   /\ bookings db <> None)
  /\ (done = true ->
      bookings db' = Some []
      /\ forall sid d vn vi vo vg,
          d !! "name" = Some vn -> d !! "checkin_date" = Some vi ->
          d !! "checkout_date" = Some vo -> d !! "guests" = Some vg ->
          exists db2 r,
            save_booking_to_db db' sid d = (db2, Ok (Some r)) /\ id r = 1)
  /\ (done = false -> db' = db).
Proof.
  cbv zeta. unfold InitDb.clear_database.
  destruct file_exists; cbn [negb];
    [|by split; [split; [|intros (? & _)] | split]].
  pose proof (mem_spec (Py.lower response) ["yes"; "y"]) as Hmem.
  destruct (Py.mem (Py.lower response) ["yes"; "y"]); cbn [negb].
  - assert (Py.lower response = "yes" \/ Py.lower response = "y") as Hyes.
    { destruct (proj1 Hmem eq_refl) as [<-|[<-|[]]]; auto. }
    destruct (bookings db) as [rows|] eqn:B; cbn [fst snd].
    + split; [by split|]. split; [|done]. intros _. split; [done|].
      intros sid d vn vi vo vg Hn Hi Ho Hg. eexists. eexists. split.
      * by apply (save_booking_ok _ sid d [] vn vi vo vg).
      * reflexivity.
    + split; [split; [done | by intros (_ & _ & ?)]|]. by split.
  - cbn [fst snd]. split; [split; [done|]|by split].
    intros (_ & [H|H] & _); rewrite H in Hmem; by apply Hmem; cbn; auto.
Qed.

End TableFacts.

(** ** The chat endpoint *)

Section EndpointFacts.

Import App Spec Shape Endpoint.

Variable nlp_persons : string -> list string.
Variable dateparser_parse : bool -> string -> result (option DateTime.date).

Local Abbreviation turn :=
  (process_conversation_step nlp_persons dateparser_parse).
Local Abbreviation chat := (chat_endpoint nlp_persons dateparser_parse).
Local Abbreviation respond := (Endpoint.respond nlp_persons dateparser_parse).

Lemma truthy_dict (d : gmap string json) (key : string) (v : json) :
  d !! key = Some v -> truthy (JDict d) = true.
Proof.
  intros H. cbn [truthy]. destruct (size d) eqn:S; [|done].
  apply map_size_empty_inv in S as ->. by rewrite lookup_empty in H.
Qed.

Lemma chat_message (uuid now : string) (w : world) (d : gmap string json)
      (m : string) :
  d !! "message" = Some (JStr m) -> Py.strip m <> "" ->
  chat uuid now w (mkrequest true (Some (JDict d)))
  = match get_or_create_session (active_sessions w) uuid now
            (default JNull (d !! "session_id")) with
    | None => server_error w None
    | Some (sessions, s, st) =>
        respond w sessions s (file_under st s) (Py.strip m)
    end.
Proof.
  intros Hm Hne. unfold chat_endpoint. cbn [is_json get_json negb].
  rewrite (truthy_dict d _ _ Hm). cbn [negb contains getitem].
  rewrite bool_decide_eq_true_2 by by rewrite Hm.
  rewrite Hm. cbn [mbind option_bind strip].
  apply truthy_iff in Hne. rewrite Hne. cbn [negb get mbind option_bind].
  reflexivity.
Qed.

Lemma save_outcome (db : database) (sid : string) (d : gmap string value) :
  (exists e, save_booking_to_db db sid d = (db, Raise e))
  \/ exists db' r, save_booking_to_db db sid d = (db', Ok (Some r)).
Proof.
  destruct (d !! "name") as [vn|] eqn:Hn.
  2: { left. eexists. unfold save_booking_to_db, App.getitem. by rewrite Hn. }
  destruct (d !! "checkin_date") as [vi|] eqn:Hi.
  2: { left. eexists. unfold save_booking_to_db, App.getitem. by rewrite Hn, Hi. }
  destruct (d !! "checkout_date") as [vo|] eqn:Ho.
  2: { left. eexists. unfold save_booking_to_db, App.getitem.
       by rewrite Hn, Hi, Ho. }
  destruct (d !! "guests") as [vg|] eqn:Hg.
  2: { left. eexists. unfold save_booking_to_db, App.getitem.
       by rewrite Hn, Hi, Ho, Hg. }
  destruct (bookings db) as [rows|] eqn:B.
  - right. eexists. eexists. by apply (save_booking_ok db sid d rows vn vi vo vg).
  - left. eexists. by apply (save_booking_no_table db sid d vn vi vo vg).
Qed.

Lemma turn_raise_keeps_database (db db' : database) (st st' : session)
      (msg : string) (e : exn) :
  turn db st msg = (db', st', Raise e) -> db' = db.
Proof.
  unfold process_conversation_step.
  destruct (String.eqb (step st) "name").
  { destruct (NlpUtils.extract_name _ _) as [name|];
      [destruct (Py.truthy name)|]; by intros [= <- _ _]. }
  destruct (String.eqb (step st) "checkin").
  { destruct (NlpUtils.parse_date _ _ _) as [d|];
      [destruct (Py.truthy d)|]; by intros [= <- _ _]. }
  destruct (String.eqb (step st) "checkout").
  { destruct (NlpUtils.parse_date _ _ _) as [d|];
      [destruct (Py.truthy d); [destruct (bind _ _) as [[v []]|]|]|];
      by intros [= <- _ _]. }
  destruct (String.eqb (step st) "guests").
  { destruct (NlpUtils.parse_guests _) as [n|];
      [destruct (negb _)|]; by intros [= <- _ _]. }
  destruct (String.eqb (step st) "breakfast").
  { destruct (NlpUtils.is_yes _) as [b|]; by intros [= <- _ _]. }
  destruct (String.eqb (step st) "payment").
  { destruct (summary _); by intros [= <- _ _]. }
  destruct (String.eqb (step st) "confirm"); [|by intros [= <- _ _]].
  destruct (Py.mem _ affirmative).
  - destruct (save_outcome db (default "" (session_id st)) (data st))
      as [[e' ->]|(db1 & r & ->)]; [by intros [= <- _ _] | done].
  - destruct (Py.mem _ negative); by intros [= <- _ _].
Qed.

Lemma respond_status (w : world) (sessions : gmap string session)
      (s : string) (st : session) (msg : string) :
  let out := respond w sessions s st msg in
  (status (snd out) = 200 \/ status (snd out) = 500)
  /\ (status (snd out) <> 200 -> bookings_db (fst out) = bookings_db w).
Proof.
  unfold Endpoint.respond.
  destruct (turn (bookings_db w) st msg) as [[db st'] [r|e]] eqn:T;
    cbn [fst snd status server_error].
  - split; [by left | done].
  - split; [by right|]. intros _. by eapply turn_raise_keeps_database.
Qed.

Lemma mem_message (l : list json) :
  existsb (fun x => match x with
                    | JStr s => String.eqb s "message"
                    | _ => false
                    end) l = true <-> In (JStr "message") l.
Proof.
  rewrite existsb_exists. split.
  - intros (x & Hin & Hx). destruct x; try done.
    by apply String.eqb_eq in Hx as ->.
  - intros H. exists (JStr "message"). by split.
Qed.

(** X18.  Requests the endpoint refuses.  Without a JSON content type the
    answer is 400; so it is for a body that is null, false, zero, empty,
    a dict without the key [message] or a list without the string
    [message], and for a message that holds white space only.  A body
    that cannot be read, a number or [true], and a body that is a string
    or a list holding [message] are answered 500 without a session id, as
    is a message that is not a string.  None of these requests changes
    the registry or the database; and whatever the request the status is
    200, 400 or 500, nothing at all changing under 400 and the database
    changing under 200 only. *)
Theorem chat_endpoint_refusals (uuid now : string) (w : world) (req : request) :
  let out := chat uuid now w req in
  (is_json req = false ->
   out = bad_request w "Content-Type must be application/json")
  /\ (is_json req = true ->
      (get_json req = None -> out = server_error w None)
      /\ (forall data, get_json req = Some data -> truthy data = false ->
                       out = bad_request w "Missing required field: message")
      /\ (forall n, get_json req = Some (JNum n) -> n <> 0 ->
                    out = server_error w None)
      /\ (get_json req = Some (JBool true) -> out = server_error w None)
      /\ (forall s, get_json req = Some (JStr s) -> s <> "" ->
                    out = if Py.contains "message" s
                          then server_error w None
                          else bad_request w "Missing required field: message")
      /\ (forall l, get_json req = Some (JList l) -> l <> [] ->
                    (In (JStr "message") l -> out = server_error w None)
                    /\ (~ In (JStr "message") l ->
                        out = bad_request w "Missing required field: message"))
      /\ (forall d, get_json req = Some (JDict d) -> d !! "message" = None ->
                    out = bad_request w "Missing required field: message")
      /\ (forall d v, get_json req = Some (JDict d) ->
                      d !! "message" = Some v ->
                      (forall m, v <> JStr m) -> out = server_error w None)
      /\ (forall d m, get_json req = Some (JDict d) ->
                      d !! "message" = Some (JStr m) ->
                      all_chars Py.isspace m = true ->
                      out = bad_request w "Message cannot be empty"))
  /\ (status (snd out) = 200 \/ status (snd out) = 400
      \/ status (snd out) = 500)
  /\ (status (snd out) = 400 -> fst out = w)
  /\ (status (snd out) <> 200 -> bookings_db (fst out) = bookings_db w).
Proof.
  cbv zeta. split; [|split].
  - intros H. unfold chat_endpoint. by rewrite H.
  - intros H. unfold chat_endpoint. rewrite H. cbn [negb].
    split; [by intros ->|]. split; [by intros data -> ->|].
    split.
    { intros n -> Hn. cbn [truthy]. by destruct (Z.eqb_spec n 0). }
    split; [by intros ->|]. split.
    { intros s -> Hs. cbn [truthy contains].
      apply truthy_iff in Hs. rewrite Hs. cbn [negb].
      by destruct (Py.contains "message" s). }
    split.
    { intros l -> Hl. cbn [truthy contains]. destruct l as [|x l]; [done|].
      cbn [negb]. pose proof (mem_message (x :: l)) as Hmem.
      destruct (existsb _ (x :: l)).
      - split; [done|]. intros Hn. destruct Hn. by apply Hmem.
      - split; [|done]. intros Hin%Hmem. done. }
    split.
    { intros d -> Hd. destruct (truthy (JDict d)); [|done]. cbn [negb contains].
      rewrite bool_decide_eq_false_2; [done|]. rewrite Hd. by intros [? ?]. }
    split.
    { intros d v -> Hv Hns. rewrite (truthy_dict d _ _ Hv).
      cbn [negb contains getitem].
      rewrite bool_decide_eq_true_2 by by rewrite Hv.
      rewrite Hv. cbn [mbind option_bind].
      destruct v as [| | |m| |]; try done. by destruct (Hns m). }
    { intros d m -> Hm Hsp. rewrite (truthy_dict d _ _ Hm).
      cbn [negb contains getitem].
      rewrite bool_decide_eq_true_2 by by rewrite Hm.
      rewrite Hm. cbn [mbind option_bind strip].
      by rewrite (all_space_strip m Hsp). }
  - unfold chat_endpoint. destruct (negb (is_json req)).
    { cbn. split; [auto|]. by split. }
    destruct (get_json req) as [data|]; [|cbn; split; [auto|by split]].
    destruct (negb (truthy data)); [cbn; split; [auto|by split]|].
    destruct (contains "message" data) as [[]|];
      [|cbn; split; [auto|by split]..].
    destruct (getitem "message" data ≫= strip) as [user_message|];
      [|cbn; split; [auto|by split]].
    destruct (negb (Py.truthy user_message)); [cbn; split; [auto|by split]|].
    destruct (get "session_id" data ≫= _) as [[[sessions s] st]|];
      [|cbn; split; [auto|by split]].
    destruct (respond_status w sessions s (file_under st s) user_message)
      as [Hst Hdb].
    split; [tauto|]. split; [|done]. intros H400. destruct Hst; lia.
Qed.

Lemma get_or_create_cases (sessions : gmap string session)
      (uuid now : string) (v : json) :
  get_or_create_session sessions uuid now v = None
  \/ (exists s st, v = JStr s /\ s <> "" /\ sessions !! s = Some st
                   /\ get_or_create_session sessions uuid now v
                      = Some (sessions, s, st))
  \/ (unknown_id sessions v
      /\ get_or_create_session sessions uuid now v
         = Some (<[uuid := new_session now]> sessions, uuid, new_session now)).
Proof.
  unfold get_or_create_session, unknown_id.
  destruct (truthy v) eqn:T; [|right; right; by split; [left|]].
  destruct v as [|b|n|s|l|d']; try (by left).
  - right; right. split; [|done]. by right; right; right; exists b.
  - right; right. split; [|done]. by right; right; left; exists n.
  - destruct (sessions !! s) as [st|] eqn:L.
    + right; left. exists s, st. repeat split; try done.
      cbn in T. by apply truthy_iff.
    + right; right. split; [|done]. right; left. by exists s.
Qed.

Lemma unknown_creates (sessions : gmap string session) (uuid now : string)
      (v : json) :
  unknown_id sessions v ->
  get_or_create_session sessions uuid now v
  = Some (<[uuid := new_session now]> sessions, uuid, new_session now).
Proof.
  unfold get_or_create_session.
  intros [T|[(s & -> & L)|[(n & ->)|(b & ->)]]].
  - by rewrite T.
  - rewrite L. by destruct (truthy (JStr s)).
  - by destruct (truthy (JNum n)).
  - by destruct (truthy (JBool b)).
Qed.

(** X19.  A request that carries a message with something in it and the
    id of a session of the registry is answered by one turn of that
    session on the trimmed message: the registry holds the session as the
    turn leaves it, filed under the same id, which the answer repeats;
    the status is 200 when the turn returns and 500 when it raises.  No
    session is created and no other session is touched. *)
Theorem chat_endpoint_known_session
        (uuid now : string) (w : world) (d : gmap string json)
        (m s : string) (st : session) :
  d !! "message" = Some (JStr m) -> Py.strip m <> "" ->
  d !! "session_id" = Some (JStr s) -> s <> "" ->
  active_sessions w !! s = Some st ->
  let out := chat uuid now w (mkrequest true (Some (JDict d))) in
  let t := turn (bookings_db w) (file_under st s) (Py.strip m) in
  fst out = mkworld (<[s := snd (fst t)]> (active_sessions w)) (fst (fst t))
  /\ snd out
     = match snd t with
       | Ok response => mkreply (Chat response s) 200
       | Raise _ =>
           mkreply (ServerError "Internal server error. Please try again."
                                (Some s)) 500
       end
  /\ session_id (snd (fst t)) = Some s
  /\ dom (active_sessions (fst out)) = dom (active_sessions w)
  /\ forall k, k <> s ->
               active_sessions (fst out) !! k = active_sessions w !! k.
Proof.
  intros Hm Hne Hs Hs' Hst out t.
  assert (out = Endpoint.respond nlp_persons dateparser_parse w
                  (active_sessions w) s (file_under st s) (Py.strip m)) as Hout.
  { unfold out. rewrite (chat_message _ _ _ _ _ Hm Hne), Hs.
    change (default JNull (Some (JStr s))) with (JStr s).
    unfold get_or_create_session. apply truthy_iff in Hs'. cbn [truthy].
    by rewrite Hs', Hst. }
  assert (session_id (snd (fst t)) = Some s) as Hid.
  { unfold t.
    change (session_id (Spec.after nlp_persons dateparser_parse
                          (bookings_db w) (file_under st s) (Py.strip m))
            = Some s).
    by destruct (turn_moves nlp_persons dateparser_parse (bookings_db w)
                            (file_under st s) (Py.strip m)). }
  assert (fst out = mkworld (<[s := snd (fst t)]> (active_sessions w))
                            (fst (fst t))) as Hw.
  { rewrite Hout. unfold Endpoint.respond. fold t.
    by destruct t as [[db st'] [r|e]]. }
  split; [done|]. split.
  { rewrite Hout. unfold Endpoint.respond. fold t.
    by destruct t as [[db st'] [r|e]]. }
  split; [done|]. rewrite Hw. cbn [active_sessions]. split.
  - apply dom_insert_lookup_L. by exists st.
  - intros k Hk. by rewrite lookup_insert_ne.
Qed.

(** X20.  A request that carries a message with something in it and no
    usable session id (none, null, an empty one, a string that is no key
    of the registry, a number or a boolean) opens a session under the
    fresh id, which is the id the answer gives, never one the client
    sent.  The message is taken as the answer to the first question: the
    session is left at the step [checkin] with the name found, or at the
    step [name] without data when none is found; the status is 200 and the
    database is untouched.  A session id that is a list or a dict with
    something in it is answered 500, without a session id, nothing being
    changed. *)
Theorem chat_endpoint_new_session
        (uuid now : string) (w : world) (d : gmap string json) (m : string) :
  d !! "message" = Some (JStr m) -> Py.strip m <> "" ->
  let out := chat uuid now w (mkrequest true (Some (JDict d))) in
  let v := default JNull (d !! "session_id") in
  (unknown_id (active_sessions w) v ->
   exists st' text,
     out = (mkworld (<[uuid := st']> (active_sessions w)) (bookings_db w),
            mkreply (Chat (say text) uuid) 200)
     /\ (st' = mksession "name" ∅ (Some uuid) now
         \/ exists n, n <> ""
                      /\ NlpUtils.extract_name nlp_persons (Py.strip m) = Some n
                      /\ st' = mksession "checkin" {["name" := VStr n]}
                                         (Some uuid) now))
  /\ (truthy v = true -> (exists l, v = JList l) \/ (exists d', v = JDict d') ->
      out = server_error w None).
Proof.
  intros Hm Hne out v. unfold out. rewrite (chat_message _ _ _ _ _ Hm Hne).
  fold v. split.
  - intros Hv. rewrite (unknown_creates _ _ _ _ Hv).
    unfold Endpoint.respond, process_conversation_step, file_under, new_session.
    cbn [step data session_id created_at String.eqb Ascii.eqb Bool.eqb].
    destruct (NlpUtils.extract_name _ _) as [n|] eqn:En.
    + destruct (Py.truthy n) eqn:Tn.
      * eexists. eexists. rewrite insert_insert_eq. split; [reflexivity|].
        right. exists n. split; [by apply truthy_iff|]. split; [done|].
        unfold set_step, store, set_data. cbn. by rewrite insert_empty.
      * eexists. eexists. rewrite insert_insert_eq. split; [reflexivity|].
        by left.
    + eexists. eexists. rewrite insert_insert_eq. split; [reflexivity|].
      by left.
  - intros T [[l ->]|[d' ->]]; unfold get_or_create_session; by rewrite T.
Qed.

Lemma turn_keeps_table (db : database) (st : session) (msg : string) :
  bookings db <> None -> bookings (fst (fst (turn db st msg))) <> None.
Proof.
  intros B.
  destruct (turn_database nlp_persons dateparser_parse db st msg) as [->| ->];
    [done|].
  destruct (save_frame db (default "" (session_id st)) (data st))
    as [->|(rows & new & _ & -> & _)]; done.
Qed.

Lemma respond_sound (w : world) (sessions : gmap string session)
      (s : string) (st : session) (msg : string) :
  (forall k st0, k <> s -> sessions !! k = Some st0 ->
                 session_id st0 = Some k /\ in_order st0
                 /\ well_formed (data st0)) ->
  in_order st -> well_formed (data st) ->
  keys_ok (bookings_db w) ->
  let out := respond w sessions s (file_under st s) msg in
  registered (active_sessions (fst out)) /\ keys_ok (bookings_db (fst out))
  /\ dom sessions ⊆ dom (active_sessions (fst out))
  /\ (bookings (bookings_db w) <> None ->
      bookings (bookings_db (fst out)) <> None
      /\ status (snd out) = 200).
Proof.
  intros Hothers Hord Hwf Hkeys. cbv zeta.
  set (st0 := file_under st s).
  pose proof (turn_moves nlp_persons dateparser_parse (bookings_db w) st0 msg)
    as Hmoves.
  pose proof (turn_stores nlp_persons dateparser_parse (bookings_db w) st0 msg)
    as Hstores.
  assert (in_order st0) as Hord0.
  { destruct Hord as (k & Hk & Hdom). by exists k. }
  assert (well_formed (data st0)) as Hwf0 by done.
  pose proof (moves_in_order _ _ Hord0 Hmoves) as Hord'.
  pose proof (stores_well_formed _ _ Hord0 Hwf0 Hstores) as Hwf'.
  assert (session_id (Spec.after nlp_persons dateparser_parse
                                 (bookings_db w) st0 msg) = Some s) as Hid.
  { by destruct Hmoves. }
  assert (keys_ok (fst (fst (turn (bookings_db w) st0 msg)))) as Hkeys'.
  { destruct (turn_database nlp_persons dateparser_parse (bookings_db w)
                            st0 msg) as [->| ->];
      [done | by apply keys_ok_save]. }
  pose proof (turn_keeps_table (bookings_db w) st0 msg) as Htable.
  pose proof (shape_turn_raises nlp_persons dateparser_parse (bookings_db w))
    as Hraise.
  assert (registered
            (<[s := Spec.after nlp_persons dateparser_parse
                               (bookings_db w) st0 msg]> sessions)) as Hreg'.
  { intros key stk. destruct (decide (key = s)) as [->|Hk].
    - rewrite lookup_insert_eq. by intros [= <-].
    - rewrite lookup_insert_ne by done. by apply Hothers. }
  unfold Endpoint.respond, Spec.after in *.
  destruct (turn (bookings_db w) st0 msg) as [[db st'] [r|e]] eqn:T;
    cbn [fst snd active_sessions bookings_db server_error status] in *.
  - split; [done|]. split; [done|]. split.
    + rewrite dom_insert_L. apply union_subseteq_r.
    + intros B. split; [by apply Htable | done].
  - split; [done|]. split; [done|]. split.
    + rewrite dom_insert_L. apply union_subseteq_r.
    + intros B. by destruct (Hraise _ _ _ _ _ Hord0 Hwf0 T) as (_ & ? & _).
Qed.

Lemma new_session_in_order (now : string) : in_order (new_session now).
Proof. exists 0%nat. split; [done|]. cbn. by rewrite dom_empty_L. Qed.

Lemma new_session_well_formed (now : string) :
  well_formed (data (new_session now)).
Proof. intros key val. cbn. by rewrite lookup_empty. Qed.

Lemma fresh_others (sessions : gmap string session) (uuid : string)
      (st : session) :
  registered sessions ->
  forall k st0, k <> uuid -> <[uuid := st]> sessions !! k = Some st0 ->
                session_id st0 = Some k /\ in_order st0
                /\ well_formed (data st0).
Proof. intros Hreg k st0 Hk. rewrite lookup_insert_ne by done. apply Hreg. Qed.

Lemma chat_sound (uuid now : string) (w : world) (req : request) :
  registered (active_sessions w) -> keys_ok (bookings_db w) ->
  let out := chat uuid now w req in
  registered (active_sessions (fst out)) /\ keys_ok (bookings_db (fst out))
  /\ dom (active_sessions w) ⊆ dom (active_sessions (fst out))
  /\ (bookings (bookings_db w) <> None ->
      bookings (bookings_db (fst out)) <> None).
Proof.
  intros Hreg Hkeys. cbv zeta. unfold chat_endpoint.
  assert (registered (active_sessions w) /\ keys_ok (bookings_db w)
          /\ dom (active_sessions w) ⊆ dom (active_sessions w)
          /\ (bookings (bookings_db w) <> None ->
              bookings (bookings_db w) <> None)) as Hsame by done.
  destruct (negb (is_json req)); [done|].
  destruct (get_json req) as [data|]; [|done].
  destruct (negb (truthy data)); [done|].
  destruct (contains "message" data) as [[]|]; [|done..].
  destruct (getitem "message" data ≫= Endpoint.strip) as [user_message|];
    [|done].
  destruct (negb (Py.truthy user_message)); [done|].
  destruct (get "session_id" data) as [v|]; [|done]. cbn [mbind option_bind].
  destruct (get_or_create_cases (active_sessions w) uuid now v)
    as [->|[(s & st & -> & Hs & Hst & ->)|[Hv ->]]]; [done| |].
  - destruct (Hreg s st Hst) as (_ & Hord & Hwf).
    destruct (respond_sound w (active_sessions w) s st user_message
                            (fun k st0 _ => Hreg k st0) Hord Hwf Hkeys)
      as (H1 & H2 & H3 & H4).
    split; [done|]. split; [done|]. split; [done|]. intros B. by apply H4.
  - destruct (respond_sound w (<[uuid := new_session now]> (active_sessions w))
                            uuid (new_session now) user_message
                            (fresh_others _ _ _ Hreg) (new_session_in_order now)
                            (new_session_well_formed now) Hkeys)
      as (H1 & H2 & H3 & H4).
    split; [done|]. split; [done|]. split.
    + etrans; [|exact H3]. rewrite dom_insert_L. apply union_subseteq_r.
    + intros B. by apply H4.
Qed.

(** X21.  The registry stays sound under any sequence of requests: every
    session is filed under the id it records, is at a step of the forward
    order holding exactly the fields of the earlier steps, and holds
    fields of the expected shape.  Sessions are never dropped, the keys of
    the bookings table stay distinct, the table is never removed, and
    every request gets one answer. *)
Theorem registry_stays_sound
        (w : world) (calls : list (string * string * request)) :
  registered (active_sessions w) -> keys_ok (bookings_db w) ->
  let out := serve nlp_persons dateparser_parse w calls in
  registered (active_sessions (fst out)) /\ keys_ok (bookings_db (fst out))
  /\ dom (active_sessions w) ⊆ dom (active_sessions (fst out))
  /\ (bookings (bookings_db w) <> None ->
      bookings (bookings_db (fst out)) <> None)
  /\ List.length (snd out) = List.length calls.
Proof.
  revert w. induction calls as [|[[uuid now] req] calls IH]; intros w Hreg Hkeys.
  - cbn. by split; [|split; [|split; [|split]]].
  - cbn [serve].
    destruct (chat_sound uuid now w req Hreg Hkeys) as (H1 & H2 & H3 & H4).
    destruct (chat uuid now w req) as [w1 r]. cbn [fst] in *.
    specialize (IH w1 H1 H2). cbv zeta in IH.
    destruct (serve _ _ w1 calls) as [w2 rs]. cbn [fst snd] in *.
    destruct IH as (I1 & I2 & I3 & I4 & I5).
    split; [done|]. split; [done|]. split; [by etrans|]. split.
    + intros B. by apply I4, H4.
    + cbn. by rewrite I5.
Qed.


End EndpointFacts.

(** ** A whole conversation *)

Section Conversation.

Import App Spec Shape Endpoint.

Variable nlp_persons : string -> list string.
Variable dateparser_parse : bool -> string -> result (option DateTime.date).

Local Abbreviation turn :=
  (process_conversation_step nlp_persons dateparser_parse).
Local Abbreviation chat := (chat_endpoint nlp_persons dateparser_parse).
Local Abbreviation serve := (Endpoint.serve nlp_persons dateparser_parse).

Lemma chat_first (uuid now : string) (sessions : gmap string session)
      (db db' : database) (m : string) (st' : session) (r : response) :
  Py.strip m <> "" ->
  turn db (file_under (new_session now) uuid) (Py.strip m) = (db', st', Ok r) ->
  chat uuid now (mkworld sessions db) (post m None)
  = (mkworld (<[uuid := st']> sessions) db', mkreply (Chat r uuid) 200).
Proof.
  intros Hne T. unfold post.
  rewrite (chat_message _ _ _ _ _ _ m (lookup_insert_eq _ _ _) Hne).
  rewrite lookup_insert_ne, lookup_empty by done.
  unfold get_or_create_session. cbn [default from_option truthy].
  unfold Endpoint.respond. cbn [bookings_db]. rewrite T.
  by rewrite insert_insert_eq.
Qed.

Lemma chat_next (c : string * string) (uuid : string)
      (sessions : gmap string session) (db db' : database) (m : string)
      (st st' : session) (r : response) :
  uuid <> "" -> Py.strip m <> "" ->
  turn db (file_under st uuid) (Py.strip m) = (db', st', Ok r) ->
  chat (fst c) (snd c) (mkworld (<[uuid := st]> sessions) db)
       (post m (Some uuid))
  = (mkworld (<[uuid := st']> sessions) db', mkreply (Chat r uuid) 200).
Proof.
  intros Hu Hne T. unfold post.
  rewrite (chat_message _ _ _ _ _ _ m (lookup_insert_eq _ _ _) Hne).
  rewrite lookup_insert_ne, lookup_singleton_eq by done.
  unfold get_or_create_session.
  change (default JNull (Some (JStr uuid))) with (JStr uuid).
  cbn [truthy active_sessions]. apply truthy_iff in Hu. rewrite Hu.
  rewrite lookup_insert_eq.
  unfold Endpoint.respond. cbn [bookings_db]. rewrite T.
  by rewrite insert_insert_eq.
Qed.

Lemma serve_cons (w w1 : world) (c : string * string) (req : request)
      (r : reply) (calls : list (string * string * request)) :
  chat (fst c) (snd c) w req = (w1, r) ->
  serve w ((c, req) :: calls)
  = (fst (serve w1 calls), r :: snd (serve w1 calls)).
Proof.
  intros H. destruct c as [uuid now]. cbn [Endpoint.serve fst snd] in *.
  rewrite H. by destruct (Endpoint.serve _ _ w1 calls).
Qed.

Lemma not_blank (A : Type) (f : string -> option A) (u : string) (x : A) :
  (NlpUtils.blank u = true -> f u = None) -> f u = Some x -> u <> "".
Proof. intros Hf Hu ->. by rewrite Hf in Hu. Qed.

(** X23.  A whole conversation through the endpoint.  A client that
    sends seven messages, the first without a session id and the others
    with the id it was given, gets a booking when the extractors find a
    name in the first, dates in the second and the third, the later one
    accepted by [validate_date_order], a number of guests in the fourth
    and a yes or no in the fifth, when the sixth is not blank, the seventh
    is an affirmative reply and the bookings table exists.  The first six
    answers are plain replies under the id of the session; the seventh
    carries the booking, whose fields are the values found, the payment
    method being the one the sixth message resolves to, and whose key is
    the next key of the table.  The table ends with the row of the
    booking and the session is left at the step [complete]. *)
Theorem booking_conversation
        (sessions : gmap string session) (db : database) (rows : list row)
        (uuid now : string) (c2 c3 c4 c5 c6 c7 : string * string)
        (m1 m2 m3 m4 m5 m6 m7 : string)
        (n ci co : string) (g : Z) (b : bool) :
  uuid <> "" -> bookings db = Some rows ->
  NlpUtils.extract_name nlp_persons (Py.strip m1) = Some n -> n <> "" ->
  NlpUtils.parse_date dateparser_parse (Py.strip m2) true = Some ci ->
  NlpUtils.parse_date dateparser_parse (Py.strip m3) true = Some co ->
  NlpUtils.validate_date_order ci co = Ok true ->
  NlpUtils.parse_guests (Py.strip m4) = Some g ->
  NlpUtils.is_yes (Py.strip m5) = Some b ->
  Py.strip m6 <> "" ->
  In (Py.strip (Py.lower (Py.strip m7))) affirmative ->
  let calls :=
    [((uuid, now), post m1 None); (c2, post m2 (Some uuid));
     (c3, post m3 (Some uuid)); (c4, post m4 (Some uuid));
     (c5, post m5 (Some uuid)); (c6, post m6 (Some uuid));
     (c7, post m7 (Some uuid))] in
  let i := next_id rows (sequence db) in
  let p := VStr (payment_value (normal (Py.strip m6))) in
  let collected :=
    <["payment_method" := p]>
      (<["breakfast" := VBool b]>
         (<["guests" := VInt g]>
            (<["checkout_date" := VStr co]>
               (<["checkin_date" := VStr ci]>
                  (<["name" := VStr n]> ∅))))) in
  let r := mkrecord i uuid (VStr n) (VStr ci) (VStr co) (VInt g) b p
                    (current_timestamp db) in
  let ok text := mkreply (Chat (say text) uuid) 200 in
  exists t1 t2 t3 t4 t5 t6,
    serve (mkworld sessions db) calls
    = (mkworld (<[uuid := mksession "complete" collected (Some uuid) now]>
                  sessions)
               (mkdb (Some (rows ++
                        [mkrow i uuid (VStr n) (VStr ci) (VStr co) (VInt g)
                               (VBool b) p (current_timestamp db)]))
                     i (current_timestamp db)),
       [ok t1; ok t2; ok t3; ok t4; ok t5; ok t6;
        mkreply (Chat (mkresponse (confirmed i) true (Some r)) uuid) 200]).
Proof.
  intros Hu B H1 Hn H2 H3 Hv H4 H5 H6 H7 calls i p collected r ok.
  subst collected.
  assert (Py.strip m1 <> "") as N1.
  { apply (not_blank _ (NlpUtils.extract_name nlp_persons) _ n); [|done].
    intros Hb. unfold NlpUtils.extract_name. by rewrite Hb. }
  assert (Py.strip m2 <> "") as N2.
  { apply (not_blank _ (fun u => NlpUtils.parse_date dateparser_parse u true)
                     _ ci); [|done].
    intros Hb. unfold NlpUtils.parse_date. by rewrite Hb. }
  assert (Py.strip m3 <> "") as N3.
  { apply (not_blank _ (fun u => NlpUtils.parse_date dateparser_parse u true)
                     _ co); [|done].
    intros Hb. unfold NlpUtils.parse_date. by rewrite Hb. }
  assert (Py.strip m4 <> "") as N4.
  { apply (not_blank _ NlpUtils.parse_guests _ g); [|done].
    intros Hb. unfold NlpUtils.parse_guests. by rewrite Hb. }
  assert (Py.strip m5 <> "") as N5.
  { apply (not_blank _ NlpUtils.is_yes _ b); [|done].
    intros Hb. unfold NlpUtils.is_yes. by rewrite Hb. }
  assert (Py.strip m7 <> "") as N7.
  { intros E. rewrite E in H7. cbn in H7.
    repeat (destruct H7 as [H7|H7]; [discriminate H7|]). done. }
  pose proof (parse_date_truthy dateparser_parse _ _ _ H2) as Tci.
  pose proof (parse_date_truthy dateparser_parse _ _ _ H3) as Tco.
  apply truthy_iff in Hn as Tn.
  pose proof (parse_guests_bounds _ _ H4) as Hg.
  (* the seven turns *)
  set (d1 := <["name" := VStr n]> (∅ : gmap string value)).
  set (d2 := <["checkin_date" := VStr ci]> d1).
  set (d3 := <["checkout_date" := VStr co]> d2).
  set (d4 := <["guests" := VInt g]> d3).
  set (d5 := <["breakfast" := VBool b]> d4).
  set (collected := <["payment_method" := p]> d5).
  assert (exists t1, turn db (file_under (new_session now) uuid) (Py.strip m1)
                     = (db, mksession "checkin" d1 (Some uuid) now,
                        Ok (say t1))) as [t1 T1].
  { eexists. unfold process_conversation_step.
    cbn [file_under new_session step String.eqb Ascii.eqb Bool.eqb].
    rewrite H1, Tn. reflexivity. }
  assert (exists t2, turn db (file_under (mksession "checkin" d1 (Some uuid) now)
                                         uuid) (Py.strip m2)
                     = (db, mksession "checkout" d2 (Some uuid) now,
                        Ok (say t2))) as [t2 T2].
  { eexists. unfold process_conversation_step.
    cbn [file_under step String.eqb Ascii.eqb Bool.eqb].
    rewrite H2, Tci. reflexivity. }
  assert (exists t3, turn db (file_under (mksession "checkout" d2 (Some uuid) now)
                                         uuid) (Py.strip m3)
                     = (db, mksession "guests" d3 (Some uuid) now,
                        Ok (say t3))) as [t3 T3].
  { eexists. unfold process_conversation_step.
    cbn [file_under step data String.eqb Ascii.eqb Bool.eqb].
    rewrite H3, Tco. unfold App.getitem.
    assert (d2 !! "checkin_date" = Some (VStr ci)) as ->
        by apply lookup_insert_eq.
    cbn [bind as_str]. rewrite Hv. reflexivity. }
  assert (exists t4, turn db (file_under (mksession "guests" d3 (Some uuid) now)
                                         uuid) (Py.strip m4)
                     = (db, mksession "breakfast" d4 (Some uuid) now,
                        Ok (say t4))) as [t4 T4].
  { eexists. unfold process_conversation_step.
    cbn [file_under step String.eqb Ascii.eqb Bool.eqb].
    rewrite H4. assert ((g =? 0) = false) as -> by lia. reflexivity. }
  assert (exists t5, turn db (file_under (mksession "breakfast" d4 (Some uuid)
                                                    now) uuid) (Py.strip m5)
                     = (db, mksession "payment" d5 (Some uuid) now,
                        Ok (say t5))) as [t5 T5].
  { eexists. unfold process_conversation_step.
    cbn [file_under step String.eqb Ascii.eqb Bool.eqb].
    rewrite H5. reflexivity. }
  assert (exists t6, turn db (file_under (mksession "payment" d5 (Some uuid) now)
                                         uuid) (Py.strip m6)
                     = (db, mksession "confirm" collected (Some uuid) now,
                        Ok (say t6))) as [t6 T6].
  { rewrite turn_payment by done. cbv zeta.
    cbn [file_under step data session_id created_at]. fold p collected.
    destruct (summary_ok collected) as [text ->];
      [by eexists; unfold collected, d5, d4, d3, d2, d1; simplify_map_eq..|].
    by eexists. }
  assert (turn db (file_under (mksession "confirm" collected (Some uuid) now)
                              uuid) (Py.strip m7)
          = (mkdb (Some (rows ++
                     [mkrow i uuid (VStr n) (VStr ci) (VStr co) (VInt g)
                            (VBool b) p (current_timestamp db)]))
                  i (current_timestamp db),
             mksession "complete" collected (Some uuid) now,
             Ok (mkresponse (confirmed i) true (Some r)))) as T7.
  { assert (collected !! "name" = Some (VStr n)) as Ln
        by by unfold collected, d5, d4, d3, d2, d1; simplify_map_eq.
    assert (collected !! "checkin_date" = Some (VStr ci)) as Li
        by by unfold collected, d5, d4, d3, d2, d1; simplify_map_eq.
    assert (collected !! "checkout_date" = Some (VStr co)) as Lo
        by by unfold collected, d5, d4, d3, d2, d1; simplify_map_eq.
    assert (collected !! "guests" = Some (VInt g)) as Lg
        by by unfold collected, d5, d4, d3, d2, d1; simplify_map_eq.
    assert (collected !! "breakfast" = Some (VBool b)) as Lb
        by by unfold collected, d5, d4, d3, d2, d1; simplify_map_eq.
    assert (collected !! "payment_method" = Some p) as Lp
        by by unfold collected; simplify_map_eq.
    rewrite (turn_affirmative _ _ db
               (file_under (mksession "confirm" collected (Some uuid) now)
                           uuid)
               (Py.strip m7) rows (VStr n) (VStr ci) (VStr co) (VInt g)
               eq_refl H7 B Ln Li Lo Lg).
    cbn [file_under step data session_id created_at].
    unfold row_of, record_of, r. rewrite Lb, Lp. reflexivity. }
  exists t1, t2, t3, t4, t5, t6. unfold calls.
  rewrite (serve_cons _ _ (uuid, now) _ _ _
             (chat_first uuid now sessions db db m1 _ _ N1 T1)).
  rewrite (serve_cons _ _ c2 _ _ _
             (chat_next c2 uuid sessions db db m2 _ _ _ Hu N2 T2)).
  rewrite (serve_cons _ _ c3 _ _ _
             (chat_next c3 uuid sessions db db m3 _ _ _ Hu N3 T3)).
  rewrite (serve_cons _ _ c4 _ _ _
             (chat_next c4 uuid sessions db db m4 _ _ _ Hu N4 T4)).
  rewrite (serve_cons _ _ c5 _ _ _
             (chat_next c5 uuid sessions db db m5 _ _ _ Hu N5 T5)).
  rewrite (serve_cons _ _ c6 _ _ _
             (chat_next c6 uuid sessions db db m6 _ _ _ Hu H6 T6)).
  rewrite (serve_cons _ _ c7 _ _ _
             (chat_next c7 uuid sessions db _ m7 _ _ _ Hu N7 T7)).
  reflexivity.
Qed.

End Conversation.

(** ** Dates written day first *)

Section DayFirst.

Import NlpUtils Spec Shape.

Lemma digit_not_sep (c : ascii) :
  Py.isdigit c = true ->
  Ascii.eqb "-" c = false /\ Ascii.eqb "/" c = false.
Proof. by destruct c as [[] [] [] [] [] [] [] []]. Qed.

Ltac regex H1 H2 H3 H4 H5 H6 H7 H8 :=
  unfold sep3, Re.digit4, Re.digit12, Re.digit, Re.chr;
  repeat (unfold Re.match_;
          cbn [Re.search Re.matches flat_map List.map app fst snd
               List.head append];
          rewrite ?H1, ?H2, ?H3, ?H4, ?H5, ?H6, ?H7, ?H8,
            ?(proj1 (digit_not_sep _ H1)), ?(proj2 (digit_not_sep _ H1)),
            ?(proj1 (digit_not_sep _ H2)), ?(proj2 (digit_not_sep _ H2)),
            ?(proj1 (digit_not_sep _ H3)), ?(proj2 (digit_not_sep _ H3)),
            ?(proj1 (digit_not_sep _ H4)), ?(proj2 (digit_not_sep _ H4)),
            ?(proj1 (digit_not_sep _ H5)), ?(proj2 (digit_not_sep _ H5)),
            ?(proj1 (digit_not_sep _ H6)), ?(proj2 (digit_not_sep _ H6)),
            ?(proj1 (digit_not_sep _ H7)), ?(proj2 (digit_not_sep _ H7)),
            ?(proj1 (digit_not_sep _ H8)), ?(proj2 (digit_not_sep _ H8));
          change (Py.isdigit "-") with false;
          change (Py.isdigit "/") with false;
          change (Ascii.eqb "-" "-") with true;
          change (Ascii.eqb "/" "/") with true;
          change (Ascii.eqb "-" "/") with false;
          change (Ascii.eqb "/" "-") with false).

Lemma search_day_first (sep : ascii) (d1 d2 m1 m2 y1 y2 y3 y4 : ascii) :
  sep = "/"%char \/ sep = "-"%char ->
  Py.isdigit d1 = true -> Py.isdigit d2 = true ->
  Py.isdigit m1 = true -> Py.isdigit m2 = true ->
  Py.isdigit y1 = true -> Py.isdigit y2 = true ->
  Py.isdigit y3 = true -> Py.isdigit y4 = true ->
  let text :=
    String d1 (String d2 (String sep (String m1 (String m2 (String sep
   (String y1 (String y2 (String y3 (String y4 ""))))))))) in
  Re.search (sep3 Re.digit4 "-" Re.digit12 Re.digit12) text = None
  /\ Re.search (sep3 Re.digit12 sep Re.digit12 Re.digit4) text = Some text
  /\ (sep = "-"%char ->
      Re.search (sep3 Re.digit12 "/" Re.digit12 Re.digit4) text = None).
Proof.
  intros Hsep H1 H2 H3 H4 H5 H6 H7 H8 text. unfold text.
  destruct Hsep as [-> | ->].
  - split; [|split; [|done]].
    + regex H1 H2 H3 H4 H5 H6 H7 H8. reflexivity.
    + regex H1 H2 H3 H4 H5 H6 H7 H8. reflexivity.
  - split; [|split; [|intros _]].
    + regex H1 H2 H3 H4 H5 H6 H7 H8. reflexivity.
    + regex H1 H2 H3 H4 H5 H6 H7 H8. reflexivity.
    + regex H1 H2 H3 H4 H5 H6 H7 H8. reflexivity.
Qed.

Lemma fmt_matches_app (l1 l2 : list DateTime.item) (s : string)
      (g : DateTime.groups) :
  DateTime.fmt_matches (l1 ++ l2) s g
  = flat_map (fun p => DateTime.fmt_matches l2 (snd p) (fst p))
             (DateTime.fmt_matches l1 s g).
Proof.
  revert s g. induction l1 as [|it l1 IH]; intros s g.
  - cbn. by rewrite app_nil_r.
  - cbn [app]. rewrite !fmt_matches_cons.
    induction (Re.matches (DateTime.item_re it) s) as [|m ms IHm]; [done|].
    cbn [flat_map]. by rewrite flat_map_app, IH, IHm.
Qed.

Lemma day_month_groups (g : DateTime.groups) (rest : string) (m d : Z) :
  1 <= m <= 12 -> 1 <= d <= 31 ->
  (DateTime.fmt_matches
     [DateTime.Dird; DateTime.Lit "/"; DateTime.Dirm; DateTime.Lit "/"]
     (DateTime.zfill 2 d +:+ "/" +:+ DateTime.zfill 2 m +:+ "/" +:+ rest) g
   = [(DateTime.mkgroups (DateTime.gY g) (DateTime.zfill 2 m)
                         (DateTime.zfill 2 d), rest)])
  /\ (DateTime.fmt_matches
        [DateTime.Dird; DateTime.Lit "-"; DateTime.Dirm; DateTime.Lit "-"]
        (DateTime.zfill 2 d +:+ "-" +:+ DateTime.zfill 2 m +:+ "-" +:+ rest) g
      = [(DateTime.mkgroups (DateTime.gY g) (DateTime.zfill 2 m)
                            (DateTime.zfill 2 d), rest)]).
Proof.
  intros Hm%(small_cases 12) Hd%(small_cases 31). destruct g as [y gm0 gd0].
  vm_compute in Hm, Hd.
  repeat (destruct Hm as [<-|Hm]; [| ]); try (by destruct Hm);
    repeat (destruct Hd as [<-|Hd]; [by vm_compute| ]); by destruct Hd.
Qed.

Lemma valid_day (a : DateTime.date) :
  DateTime.valid (DateTime.year a) (DateTime.month a) (DateTime.day a) = true ->
  1 <= DateTime.year a <= 9999 /\ 1 <= DateTime.month a <= 12
  /\ 1 <= DateTime.day a <= 31.
Proof.
  intros (Hy & Hm & Hd)%valid_inv. repeat split; try lia.
  destruct (DateTime.is_leap (DateTime.year a)); unfold DateTime.dim_l in Hd;
    repeat destruct (_ =? _); cbn in Hd; lia.
Qed.

Lemma renders_chars2 (n : Z) :
  Spec.renders 2 n = true ->
  exists c1 c2, DateTime.zfill 2 n = String c1 (String c2 "")
                /\ Py.isdigit c1 = true /\ Py.isdigit c2 = true.
Proof.
  unfold Spec.renders. cbv zeta.
  intros [[Hlen%Nat.eqb_eq Hdig]%andb_true_iff _]%andb_true_iff.
  destruct (DateTime.zfill 2 n) as [|c1 [|c2 [|c3 r]]]; try discriminate Hlen.
  cbn [Spec.all_chars] in Hdig.
  apply andb_true_iff in Hdig as [H1 Hdig].
  apply andb_true_iff in Hdig as [H2 _]. by exists c1, c2.
Qed.

Lemma renders_chars4 (n : Z) :
  Spec.renders 4 n = true ->
  exists c1 c2 c3 c4,
    DateTime.zfill 4 n = String c1 (String c2 (String c3 (String c4 "")))
    /\ Py.isdigit c1 = true /\ Py.isdigit c2 = true
    /\ Py.isdigit c3 = true /\ Py.isdigit c4 = true.
Proof.
  unfold Spec.renders. cbv zeta.
  intros [[Hlen%Nat.eqb_eq Hdig]%andb_true_iff _]%andb_true_iff.
  destruct (DateTime.zfill 4 n) as [|c1 [|c2 [|c3 [|c4 [|c5 r]]]]];
    try discriminate Hlen.
  cbn [Spec.all_chars] in Hdig.
  apply andb_true_iff in Hdig as [H1 Hdig].
  apply andb_true_iff in Hdig as [H2 Hdig].
  apply andb_true_iff in Hdig as [H3 Hdig].
  apply andb_true_iff in Hdig as [H4 _]. by exists c1, c2, c3, c4.
Qed.

Lemma strptime_day_first (a : DateTime.date) :
  DateTime.valid (DateTime.year a) (DateTime.month a) (DateTime.day a) = true ->
  DateTime.strptime DateTime.fmt_dmY_slash (day_first "/" a) = Ok a
  /\ DateTime.strptime DateTime.fmt_dmY_dash (day_first "-" a) = Ok a.
Proof.
  intros Hv. destruct (valid_day a Hv) as (Hy & Hm & Hd).
  pose proof (renders_year _ Hy) as Ry.
  pose proof (renders_day (DateTime.month a) ltac:(lia)) as Rm.
  pose proof (renders_day _ Hd) as Rd.
  pose proof (renders_int _ _ Ry) as Iy.
  pose proof (renders_int _ _ Rm) as Im.
  pose proof (renders_int _ _ Rd) as Id.
  destruct (renders_chars4 _ Ry) as (y1 & y2 & y3 & y4 & Ey & H1 & H2 & H3 & H4).
  assert (forall g,
    DateTime.fmt_matches [DateTime.DirY] (DateTime.zfill 4 (DateTime.year a)) g
    = [(DateTime.mkgroups (DateTime.zfill 4 (DateTime.year a))
                          (DateTime.gm g) (DateTime.gd g), "")]) as HY.
  { intros g. rewrite fmt_matches_cons. cbn [DateTime.item_re].
    unfold DateTime.re_Y. rewrite Ey.
    rewrite (matches_digit4 y1 y2 y3 y4 "" H1 H2 H3 H4). reflexivity. }
  unfold DateTime.strptime, day_first, DateTime.fmt_dmY_slash,
    DateTime.fmt_dmY_dash.
  split.
  - change [DateTime.Dird; DateTime.Lit "/"; DateTime.Dirm; DateTime.Lit "/";
            DateTime.DirY]
      with ([DateTime.Dird; DateTime.Lit "/"; DateTime.Dirm; DateTime.Lit "/"]
              ++ [DateTime.DirY]).
    rewrite fmt_matches_app.
    rewrite (proj1 (day_month_groups _ _ (DateTime.month a) (DateTime.day a)
                      Hm Hd)).
    cbn [flat_map fst snd]. rewrite HY. cbn [app List.head].
    cbn [DateTime.gY DateTime.gm DateTime.gd]. rewrite Iy, Im, Id.
    unfold DateTime.make_date. rewrite Hv. by destruct a.
  - change [DateTime.Dird; DateTime.Lit "-"; DateTime.Dirm; DateTime.Lit "-";
            DateTime.DirY]
      with ([DateTime.Dird; DateTime.Lit "-"; DateTime.Dirm; DateTime.Lit "-"]
              ++ [DateTime.DirY]).
    rewrite fmt_matches_app.
    rewrite (proj2 (day_month_groups _ _ (DateTime.month a) (DateTime.day a)
                      Hm Hd)).
    cbn [flat_map fst snd]. rewrite HY. cbn [app List.head].
    cbn [DateTime.gY DateTime.gm DateTime.gd]. rewrite Iy, Im, Id.
    unfold DateTime.make_date. rewrite Hv. by destruct a.
Qed.

Lemma day_first_chars (sep : ascii) (a : DateTime.date) :
  DateTime.valid (DateTime.year a) (DateTime.month a) (DateTime.day a) = true ->
  exists d1 d2 m1 m2 y1 y2 y3 y4,
    day_first sep a
    = String d1 (String d2 (String sep (String m1 (String m2 (String sep
     (String y1 (String y2 (String y3 (String y4 "")))))))))
    /\ Py.isdigit d1 = true /\ Py.isdigit d2 = true
    /\ Py.isdigit m1 = true /\ Py.isdigit m2 = true
    /\ Py.isdigit y1 = true /\ Py.isdigit y2 = true
    /\ Py.isdigit y3 = true /\ Py.isdigit y4 = true.
Proof.
  intros Hv. destruct (valid_day a Hv) as (Hy & Hm & Hd).
  destruct (renders_chars4 _ (renders_year _ Hy))
    as (y1 & y2 & y3 & y4 & Ey & H5 & H6 & H7 & H8).
  destruct (renders_chars2 _ (renders_day (DateTime.month a) ltac:(lia)))
    as (m1 & m2 & Em & H3 & H4).
  destruct (renders_chars2 _ (renders_day _ Hd)) as (d1 & d2 & Ed & H1 & H2).
  exists d1, d2, m1, m2, y1, y2, y3, y4. unfold day_first.
  rewrite Ey, Em, Ed. by repeat split.
Qed.

Section Patterns.

Variable dateparser_parse : bool -> string -> result (option DateTime.date).

(** X24.  Dates written day first.  On the text DD/MM/YYYY or DD-MM-YYYY
    of a calendar date with a four-digit year, day and month with two
    digits, [parse_date] returns the date as YYYY-MM-DD when the date
    library finds nothing in the text: the pattern with the year first
    does not apply, and the second and third patterns read the first
    number as the day. *)
Theorem parse_date_day_first (a : DateTime.date) (prefer_future : bool)
        (sep : ascii) :
  DateTime.valid (DateTime.year a) (DateTime.month a) (DateTime.day a) = true ->
  1000 <= DateTime.year a ->
  sep = "/"%char \/ sep = "-"%char ->
  dateparser_parse prefer_future (Py.lower (Py.strip (day_first sep a)))
  = Ok None ->
  parse_date dateparser_parse (day_first sep a) prefer_future
  = Some (DateTime.strftime_Ymd a).
Proof.
  intros Hv _ Hsep Hdp.
  destruct (day_first_chars sep a Hv)
    as (d1 & d2 & m1 & m2 & y1 & y2 & y3 & y4 & E
        & H1 & H2 & H3 & H4 & H5 & H6 & H7 & H8).
  destruct (search_day_first sep d1 d2 m1 m2 y1 y2 y3 y4 Hsep
              H1 H2 H3 H4 H5 H6 H7 H8) as (S1 & S2 & S3).
  cbv zeta in S1, S2, S3. rewrite <- E in S1, S2, S3.
  destruct (strptime_day_first a Hv) as [P1 P2].
  unfold parse_date.
  assert (blank (day_first sep a) = false) as ->.
  { destruct (blank _) eqn:Hb; [|done]. apply blank_spec in Hb.
    rewrite E in Hb. cbn [all_chars] in Hb.
    apply andb_true_iff in Hb as [Hs _].
    by rewrite (digit_not_space d1 H1) in Hs. }
  rewrite Hdp. cbn [bind except_Exception]. unfold date_patterns.
  cbn [try_patterns]. rewrite S1.
  destruct Hsep as [-> | ->].
  - rewrite S2, P1. reflexivity.
  - rewrite (S3 eq_refl), S2, P2. reflexivity.
Qed.

End Patterns.

End DayFirst.

(** ** Instances *)

Section Instances.

Import NlpUtils App Spec Shape Sample Endpoint.

Lemma parse_guests_range_witness :
  parse_guests "4 adults" = Some 4
  /\ 1 <= 4 <= 10
  /\ exists text,
      process_conversation_step no_entities no_dateparser empty_db
        (at_step "guests" booked_from_20th) "4 adults"
      = (empty_db,
         at_step "breakfast" (<["guests" := VInt 4]> booked_from_20th),
         Ok (say text)).
Proof.
  assert (H : parse_guests "4 adults" = Some 4) by reflexivity.
  split; [exact H|].
  destruct (parse_guests_range no_entities no_dateparser empty_db
              (at_step "guests" booked_from_20th) "4 adults" 4 H)
    as [Hrange Hturn].
  split; [exact Hrange|]. exact (Hturn eq_refl).
Defined.



Lemma parse_date_of_canonical_witness :
  DateTime.valid 2024 1 20 = true /\ 1000 <= 2024
  /\ parse_date no_dateparser "2024-01-20" true = Some "2024-01-20".
Proof.
  assert (H1 : DateTime.valid 2024 1 20 = true) by reflexivity.
  assert (H2 : 1000 <= 2024) by lia.
  split; [exact H1|]. split; [exact H2|].
  exact (proj1 (proj2 (parse_date_of_canonical no_dateparser
                         (DateTime.mkdate 2024 1 20) true H1 H2)) eq_refl).
Defined.

Lemma parse_date_day_first_witness :
  DateTime.valid 2024 1 15 = true /\ 1000 <= 2024
  /\ parse_date no_dateparser "15/01/2024" true = Some "2024-01-15"
  /\ parse_date no_dateparser "15-01-2024" true = Some "2024-01-15".
Proof.
  assert (H1 : DateTime.valid 2024 1 15 = true) by reflexivity.
  assert (H2 : 1000 <= 2024) by lia.
  split; [exact H1|]. split; [exact H2|]. split.
  - exact (parse_date_day_first no_dateparser (DateTime.mkdate 2024 1 15) true
             "/" H1 H2 (or_introl eq_refl) eq_refl).
  - exact (parse_date_day_first no_dateparser (DateTime.mkdate 2024 1 15) true
             "-" H1 H2 (or_intror eq_refl) eq_refl).
Defined.

Lemma answers_ignore_case_and_margins_witness :
  normal "  YES " = normal "yes"
  /\ is_yes "  YES " = is_yes "yes"
  /\ process_conversation_step no_entities no_dateparser empty_db
       (at_step "confirm" collected) "  YES "
     = process_conversation_step no_entities no_dateparser empty_db
         (at_step "confirm" collected) "yes".
Proof.
  assert (H : normal "  YES " = normal "yes") by reflexivity.
  split; [exact H|].
  destruct (answers_ignore_case_and_margins no_entities no_dateparser empty_db
              (at_step "confirm" collected) "  YES " "yes" H) as [Hyes Hturn].
  split; [exact Hyes|]. apply Hturn. right. right. reflexivity.
Defined.

Lemma confirming_reachable :
  Spec.reachable no_entities no_dateparser Demo.confirming.
Proof.
  unfold Demo.confirming, Demo.answers. cbn [List.fold_left].
  repeat apply Spec.reach_turn. apply Spec.reach_new.
Qed.

Lemma reachable_data_shape_witness :
  Spec.reachable no_entities no_dateparser Demo.confirming
  /\ step Demo.confirming = "confirm"
  /\ (forall v, data Demo.confirming !! "guests" = Some v ->
                exists n, v = VInt n /\ 1 <= n <= 10)
  /\ (forall key, is_Some (data Demo.confirming !! key) -> In key fields).
Proof.
  assert (H : Spec.reachable no_entities no_dateparser Demo.confirming)
    by exact confirming_reachable.
  split; [exact H|]. split; [reflexivity|].
  destruct (reachable_data_shape no_entities no_dateparser Demo.confirming H)
    as (_ & _ & _ & Hguests & _ & _ & Hkeys).
  split; [exact Hguests | exact Hkeys].
Defined.


Lemma booking_of_reachable_session_witness :
  let new := row_of empty_db "s-1" (data Demo.confirming) (VStr "Alice")
                    (VStr "2024-01-20") (VStr "2024-01-22") (VInt 2) 1 in
  Spec.reachable no_entities no_dateparser Demo.confirming
  /\ process_conversation_step no_entities no_dateparser empty_db
       Demo.confirming "confirm"
     = (mkdb (Some [new]) 1 "2024-01-15 10:00:00",
        set_step Demo.confirming "complete",
        Ok (mkresponse (confirmed 1) true (Some (record_of new))))
  /\ exists n ci co g p,
      name (record_of new) = VStr n /\ n <> ""
      /\ checkin (record_of new) = VStr ci
      /\ checkout (record_of new) = VStr co
      /\ validate_date_order ci co = Ok true
      /\ guests (record_of new) = VInt g /\ 1 <= g <= 10
      /\ payment_method (record_of new) = VStr p.
Proof.
  intros new.
  assert (H : Spec.reachable no_entities no_dateparser Demo.confirming)
    by exact confirming_reachable.
  assert (T : process_conversation_step no_entities no_dateparser empty_db
                Demo.confirming "confirm"
              = (mkdb (Some [new]) 1 "2024-01-15 10:00:00",
                 set_step Demo.confirming "complete",
                 Ok (mkresponse (confirmed 1) true (Some (record_of new)))))
    by (vm_compute; reflexivity).
  split; [exact H|]. split; [exact T|].
  exact (proj1 (proj2 (proj2 (proj2
           (booking_of_reachable_session no_entities no_dateparser
              empty_db _ Demo.confirming _ "confirm" _ _ H T eq_refl))))).
Defined.

Lemma save_booking_missing_key_witness :
  first_such (fun k => (<["name" := VStr "Alice"]> ∅ : gmap string value) !! k
                       = None)
             mandatory "checkin_date"
  /\ save_booking_to_db no_table "s-1" (<["name" := VStr "Alice"]> ∅)
     = (no_table, Raise (KeyError "checkin_date")).
Proof.
  assert (H : first_such
                (fun k => (<["name" := VStr "Alice"]> ∅ : gmap string value)
                            !! k = None)
                mandatory "checkin_date").
  { exists ["name"], ["checkout_date"; "guests"].
    split; [reflexivity|]. split; [|reflexivity].
    constructor; [|constructor]. intros Hn. discriminate Hn. }
  split; [exact H|].
  exact (save_booking_missing_key no_table "s-1" _ "checkin_date" H).
Defined.


Lemma empty_db_keys : keys_ok empty_db.
Proof.
  intros rows [= <-]. split; [constructor|]. intros r [].
Qed.

Lemma primary_keys_stay_distinct_witness :
  keys_ok empty_db
  /\ keys_ok (fst (InitDb.add_sample_data empty_db))
  /\ keys_ok (fst (fst (process_conversation_step no_entities no_dateparser
                          empty_db Demo.confirming "confirm"))).
Proof.
  assert (H : keys_ok empty_db) by exact empty_db_keys.
  split; [exact H|].
  destruct (primary_keys_stay_distinct no_entities no_dateparser empty_db H)
    as (_ & _ & Hturn & Hsample & _).
  split; [exact Hsample | exact (Hturn Demo.confirming "confirm")].
Defined.

Lemma chat_endpoint_known_session_witness :
  let w := mkworld {["s-1" := Demo.confirming]} empty_db in
  let out := chat_endpoint no_entities no_dateparser "s-9" "2024-01-15T11:00:00"
               w (post " no " (Some "s-1")) in
  active_sessions w !! "s-1" = Some Demo.confirming
  /\ dom (active_sessions (fst out)) = dom (active_sessions w)
  /\ snd out
     = mkreply (Chat (say "Booking cancelled. Let's start over! What's your name?")
                     "s-1") 200.
Proof.
  intros w out.
  assert (H : active_sessions w !! "s-1" = Some Demo.confirming)
    by reflexivity.
  split; [exact H|].
  assert (Hid : "s-1" <> "") by discriminate.
  assert (Hm : Py.strip " no " <> "") by discriminate.
  set (d := <["message" := JStr " no "]> {["session_id" := JStr "s-1"]}
            : gmap string json).
  assert (D1 : d !! "message" = Some (JStr " no ")) by reflexivity.
  assert (D2 : d !! "session_id" = Some (JStr "s-1")) by reflexivity.
  destruct (chat_endpoint_known_session no_entities no_dateparser
              "s-9" "2024-01-15T11:00:00" w d
              " no " "s-1" Demo.confirming D1 Hm D2 Hid H)
    as (_ & Hreply & _ & Hdom & _).
  split; [exact Hdom | exact Hreply].
Defined.

Lemma chat_endpoint_new_session_witness :
  Py.strip " I'm Alice " <> ""
  /\ unknown_id (active_sessions Demo.started) JNull
  /\ exists st' text,
      chat_endpoint no_entities no_dateparser "s-1" "2024-01-15T10:00:00"
                    Demo.started (post " I'm Alice " None)
      = (mkworld (<["s-1" := st']> ∅) empty_db,
         mkreply (Chat (say text) "s-1") 200).
Proof.
  assert (Hm : Py.strip " I'm Alice " <> "") by discriminate.
  assert (Hu : unknown_id (active_sessions Demo.started) JNull)
    by (left; reflexivity).
  split; [exact Hm|]. split; [exact Hu|].
  set (d := <["message" := JStr " I'm Alice "]> ∅ : gmap string json).
  assert (D1 : d !! "message" = Some (JStr " I'm Alice ")) by reflexivity.
  destruct (proj1 (chat_endpoint_new_session no_entities no_dateparser
                     "s-1" "2024-01-15T10:00:00" Demo.started
                     d " I'm Alice " D1 Hm) Hu)
    as (st' & text & Hout & _).
  exists st', text. exact Hout.
Defined.

Lemma started_registered : registered (active_sessions Demo.started).
Proof. intros k st H. discriminate H. Qed.

Lemma registry_stays_sound_witness :
  registered (active_sessions Demo.started)
  /\ keys_ok (bookings_db Demo.started)
  /\ registered (active_sessions
                   (fst (serve no_entities no_dateparser Demo.started
                               Demo.client)))
  /\ List.length (snd (serve no_entities no_dateparser Demo.started
                             Demo.client)) = 7%nat.
Proof.
  assert (H1 : registered (active_sessions Demo.started))
    by exact started_registered.
  assert (H2 : keys_ok (bookings_db Demo.started)) by exact empty_db_keys.
  split; [exact H1|]. split; [exact H2|].
  destruct (registry_stays_sound no_entities no_dateparser Demo.started
              Demo.client H1 H2) as (Hreg & _ & _ & _ & Hlen).
  split; [exact Hreg | exact Hlen].
Defined.


Lemma booking_conversation_witness :
  exists r,
    id r = 1 /\ name r = VStr "Alice" /\ payment_method r = VStr "Cash"
    /\ snd (serve no_entities no_dateparser Demo.started Demo.client) !! 6%nat
       = Some (mkreply (Chat (mkresponse (confirmed 1) true (Some r)) "s-1")
                       200).
Proof.
  assert (Hu : "s-1" <> "") by discriminate.
  assert (H6 : Py.strip "cash" <> "") by discriminate.
  destruct (booking_conversation no_entities no_dateparser ∅ empty_db []
              "s-1" "2024-01-15T10:00:00"
              ("s-2", "2024-01-15T10:00:01") ("s-3", "2024-01-15T10:00:02")
              ("s-4", "2024-01-15T10:00:03") ("s-5", "2024-01-15T10:00:04")
              ("s-6", "2024-01-15T10:00:05") ("s-7", "2024-01-15T10:00:06")
              " I'm Alice " "2024-01-20" "2024-01-22" "2" "yes" "cash"
              "Confirm" "Alice" "2024-01-20" "2024-01-22" 2 true
              Hu eq_refl eq_refl ltac:(discriminate) eq_refl eq_refl eq_refl
              eq_refl eq_refl H6 (or_introl eq_refl))
    as (t1 & t2 & t3 & t4 & t5 & t6 & Hrun).
  eexists. split; [|split; [|split]].
  4: { unfold Demo.client, Demo.started. rewrite Hrun. reflexivity. }
  all: reflexivity.
Defined.

End Instances.
